(** * Eclair backend: a shallow embedding of the request handlers

    The development follows the files of the server:
    - [Think]: removeThinkBlocks, defined alike in the three AI route files;
    - [Security]: middleware/security.js, validateContent;
    - [Firebase]: config/firebase.js, verifyToken;
    - [Ai]: routes/ai.js, the chat, generate-note and summarize handlers;
    - [WebSummary]: the web-summary routes, extractMainContent and the
      extract and summarize handlers;
    - [Youtube]: the youtube-summary routes, extractVideoId and the
      summarize handler;
    - [Notes]: routes/notes.js, the note update;
    - [Server]: server.js, the mounting of routes behind validateContent.
    [Js], [Http], [Relay], [Services] and [Dom] hold what these share: the
    string operations, the response object and the handler monad, the
    completion stream, the collaborators, and the parsed document.  [Spec]
    holds the vocabulary of the statements and [Samples] concrete inputs.

    JavaScript strings are modelled by [string]: one character per code
    unit, for code units below 256.  The JavaScript numbers of the modelled
    code are lengths, counters, offsets and status codes; they are
    modelled by [Z]. *)

From Stdlib Require Import ZArith Lia Bool List Ascii String DecimalString.
From stdpp Require Import base option list strings gmap fin_maps.

Import ListNotations.
Local Open Scope string_scope.
Local Open Scope Z_scope.

#[local] Set Warnings "-register-all".


(* ================================================================== *)
(** * JavaScript strings *)
(* ================================================================== *)

Module Js.

(** [WhiteSpace] and [LineTerminator] code units below 256: the class [\s]
    of regular expressions and the characters removed by [trim]. *)
Definition is_space (c : ascii) : bool :=
  let n := nat_of_ascii c in
  ((9 <=? n)%nat && (n <=? 13)%nat) || (n =? 32)%nat || (n =? 160)%nat.

(** [s.length] *)
Definition len (s : string) : Z := Z.of_nat (String.length s).

(** The first [n] code units of [s] (all of [s] when it is shorter). *)
Fixpoint take (n : nat) (s : string) : string :=
  match n, s with
  | S k, String c r => String c (take k r)
  | _, _ => ""
  end.

Fixpoint drop (n : nat) (s : string) : string :=
  match n, s with
  | S k, String _ r => drop k r
  | _, _ => s
  end.

(** [s.substring(a, b)]: both indices are clamped to [0, s.length] and
    swapped when [a > b]. *)
Definition substring (a b : Z) (s : string) : string :=
  let clamp i := Z.max 0 (Z.min i (len s)) in
  let lo := Z.min (clamp a) (clamp b) in
  let hi := Z.max (clamp a) (clamp b) in
  take (Z.to_nat (hi - lo)) (drop (Z.to_nat lo) s).

Fixpoint trimStart (s : string) : string :=
  match s with
  | String c r => if is_space c then trimStart r else s
  | "" => ""
  end.

Fixpoint trimEnd (s : string) : string :=
  match s with
  | String c r =>
      match trimEnd r with
      | "" => if is_space c then "" else String c ""
      | r' => String c r'
      end
  | "" => ""
  end.

(** [s.trim()] *)
Definition trim (s : string) : string := trimEnd (trimStart s).

(** Truthiness of a string: [!s] holds for the empty string only. *)
Definition truthy (s : string) : bool :=
  match s with "" => false | _ => true end.

(** Canonicalisation under the flag [i]: ASCII letters compare by their
    upper-case form.  The literals matched here are ASCII, and a code unit
    from 128 on is never identified with an ASCII one. *)
Definition upper (c : ascii) : ascii :=
  let n := nat_of_ascii c in
  if ((97 <=? n)%nat && (n <=? 122)%nat)%bool then ascii_of_nat (n - 32) else c.

Definition eq_ci (a b : ascii) : bool := Ascii.eqb (upper a) (upper b).

(** [after_ci p s]: when [s] starts with the literal [p] up to case, the
    rest of [s] behind it. *)
Fixpoint after_ci (p s : string) : option string :=
  match p, s with
  | "", _ => Some s
  | String a p', String b s' => if eq_ci a b then after_ci p' s' else None
  | String _ _, "" => None
  end.

(** [after p s]: the same, case-sensitive. *)
Fixpoint after (p s : string) : option string :=
  match p, s with
  | "", _ => Some s
  | String a p', String b s' => if Ascii.eqb a b then after p' s' else None
  | String _ _, "" => None
  end.

(** [index_ci p s]: the least index at which the literal [p] occurs in [s]
    up to case. *)
Fixpoint index_ci (p s : string) : option nat :=
  match after_ci p s with
  | Some _ => Some 0%nat
  | None =>
      match s with
      | String _ r => option_map S (index_ci p r)
      | "" => None
      end
  end.

(** [s.replace(/\s+/g, ' ')] *)
Fixpoint collapse_spaces (s : string) : string :=
  match s with
  | String c r =>
      if is_space c then
        match r with
        | String d _ => if is_space d then collapse_spaces r
                        else String " " (collapse_spaces r)
        | "" => " "
        end
      else String c (collapse_spaces r)
  | "" => ""
  end.

(** [s.split(/\s+/).length]: one more than the number of maximal runs of
    white space. *)
Fixpoint space_runs (s : string) : nat :=
  match s with
  | String c r =>
      if is_space c then
        match r with
        | String d _ => if is_space d then space_runs r else S (space_runs r)
        | "" => 1%nat
        end
      else space_runs r
  | "" => 0%nat
  end.

Definition split_spaces_length (s : string) : Z := Z.of_nat (S (space_runs s)).

(** [parts.join(sep)] *)
Fixpoint join (sep : string) (parts : list string) : string :=
  match parts with
  | [] => ""
  | [p] => p
  | p :: rest => p ++ sep ++ join sep rest
  end.

(** [String(n)] for an integer *)
Definition number (n : Z) : string := NilZero.string_of_int (Z.to_int n).

Fixpoint repeat (c : ascii) (n : nat) : string :=
  match n with
  | O => ""
  | S k => String c (repeat c k)
  end.

(** Numbers are IEEE-754 binary64 values.  [to_double m] is the value of
    an arithmetic operation whose exact result is the integer [m]: [m]
    itself up to 2^53 in magnitude, and beyond that [m] rounded to 53
    significant bits, a tie going to the even neighbour. *)
Definition to_double (m : Z) : Z :=
  let a := Z.abs m in
  if a <=? 2 ^ 53 then m
  else
    let e := Z.log2 a - 52 in
    let q := Z.shiftr a e in
    let r := Z.land a (Z.ones e) in
    let half := Z.shiftl 1 (e - 1) in
    let q' := if r <? half then q
              else if half <? r then q + 1
              else if Z.even q then q else q + 1 in
    Z.sgn m * Z.shiftl q' e.


End Js.

(* ================================================================== *)
(** * removeThinkBlocks (defined identically in the three AI route files) *)
(* ================================================================== *)

Module Think.

(** Length of the match of [/<think>[\s\S]*?<\/think>/i] anchored at the
    start of [s]: the opening delimiter, the shortest text up to the next
    closing delimiter, and the closing delimiter. *)
Definition match_here (s : string) : option nat :=
  match Js.after_ci "<think>" s with
  | Some body =>
      match Js.index_ci "</think>" body with
      | Some k => Some (7 + k + 8)%nat
      | None => None
      end
  | None => None
  end.

(** [text.replace(/<think>[\s\S]*?<\/think>/gi, '')]: the scan of a global
    replace.  [skip] counts the code units of the current match that are
    still to be dropped; outside a match the expression is tried at every
    position from left to right. *)
Fixpoint replace_from (skip : nat) (s : string) : string :=
  match s with
  | "" => ""
  | String c r =>
      match skip with
      | S k => replace_from k r
      | O =>
          match match_here s with
          | Some (S k) => replace_from k r
          | _ => String c (replace_from 0 r)
          end
      end
  end.

Definition replace_think (text : string) : string := replace_from 0 text.

Definition removeThinkBlocks (text : string) : string :=
  if negb (Js.truthy text) then text
  else Js.trim (replace_think text).

End Think.

(* ================================================================== *)
(** * JSON values, the Express response object and the handler monad *)
(* ================================================================== *)

Module Http.

(** Values passed to [JSON.stringify] and stored in documents.  An object
    keeps its keys in insertion order. *)
Inductive json :=
| JNull
| JBool (b : bool)
| JNum (n : Z)
| JStr (s : string)
| JArr (items : list json)
| JObj (fields : list (string * json)).

(** The part of the Express response object that the handlers touch.
    [written] holds, oldest first, the payload [v] of every
    [res.write(`data: ${JSON.stringify(v)}\n\n`)]; [body] the argument of
    [res.json].  Node sends the header block with the first [write] and
    with [json]; [setHeader] and [status] only record. *)
Record response := {
  statusCode : Z;
  headers : list (string * string);
  headersSent : bool;
  written : list json;
  body : option json;
  ended : bool
}.

Definition fresh : response :=
  {| statusCode := 200; headers := []; headersSent := false;
     written := []; body := None; ended := false |}.

(** A thrown [Error]: [code] as set by axios on a timeout, [status] and
    [statusText] of [error.response] when the server answered. *)
Record error := {
  message : string;
  code : option string;
  http_response : option (Z * string)
}.

Definition plain_error (msg : string) : error :=
  {| message := msg; code := None; http_response := None |}.

Inductive outcome (A : Type) :=
| Ok (a : A)
| Throw (e : error).
Arguments Ok {A} a.
Arguments Throw {A} e.

(** Calls that leave the process. *)
Inductive call :=
| CallLlm (streaming : bool) (messages : list (string * string))
| CallGet (url : string) (timeout : Z)
| CallTranscript (videoId : string)
| CallVerify (token : string).

(** The document database: the [notes] collection, a document being a
    map from field names to values, and a schedule of faults.  Every
    operation takes the head of the schedule and throws it when it is an
    error. *)
Record database := {
  notes : gmap string (gmap string json);
  faults : list (option error)
}.

(** [db] is [None] when Firebase is not configured. *)
Record world := {
  res : response;
  calls : list call;
  db : option database
}.

Definition start_with (d : option database) : world :=
  {| res := fresh; calls := []; db := d |}.

Definition start : world := start_with None.

(** Handlers run in a state monad over [world] with exceptions. *)
Definition M (A : Type) : Type := world -> outcome A * world.

Definition ret {A} (a : A) : M A := fun w => (Ok a, w).

Definition bind {A B} (m : M A) (k : A -> M B) : M B :=
  fun w => match m w with
           | (Ok a, w') => k a w'
           | (Throw e, w') => (Throw e, w')
           end.

Definition throw {A} (e : error) : M A := fun w => (Throw e, w).

(** [try { body } catch (error) { handler }] *)
Definition try_catch {A} (body : M A) (handler : error -> M A) : M A :=
  fun w => match body w with
           | (Ok a, w') => (Ok a, w')
           | (Throw e, w') => handler e w'
           end.

Definition on_res (f : response -> response) : M unit :=
  fun w => (Ok tt, {| res := f (res w); calls := calls w; db := db w |}).

Definition setHeader (name value : string) : M unit :=
  on_res (fun r =>
    {| statusCode := statusCode r; headers := headers r ++ [(name, value)];
       headersSent := headersSent r; written := written r;
       body := body r; ended := ended r |}).

Definition status (c : Z) : M unit :=
  on_res (fun r =>
    {| statusCode := c; headers := headers r;
       headersSent := headersSent r; written := written r;
       body := body r; ended := ended r |}).

Definition write (v : json) : M unit :=
  on_res (fun r =>
    {| statusCode := statusCode r; headers := headers r;
       headersSent := true; written := written r ++ [v];
       body := body r; ended := ended r |}).

Definition end_ : M unit :=
  on_res (fun r =>
    {| statusCode := statusCode r; headers := headers r;
       headersSent := true; written := written r;
       body := body r; ended := true |}).

Definition json_ (v : json) : M unit :=
  on_res (fun r =>
    {| statusCode := statusCode r; headers := headers r;
       headersSent := true; written := written r;
       body := Some v; ended := true |}).

Definition get_headersSent : M bool :=
  fun w => (Ok (headersSent (res w)), w).

(** An awaited call to a collaborator: the call is recorded, then its
    result is returned or its error thrown. *)
Definition await {A} (c : call) (result : outcome A) : M A :=
  fun w => (result, {| res := res w; calls := calls w ++ [c]; db := db w |}).

(** The world a handler leaves behind. *)
Definition run (m : M unit) : world := snd (m start).

Definition run_with (d : option database) (m : M unit) : world :=
  snd (m (start_with d)).

(** [s || d] on strings *)
Definition or_str (s d : string) : string := if Js.truthy s then s else d.

Definition nl : string := String (ascii_of_nat 10) "".

End Http.

Module HttpNotations.
Notation "x <- m ;; k" := (Http.bind m (fun x => k))
  (at level 100, m at next level, right associativity).
Notation "m ;;; k" := (Http.bind m (fun _ => k))
  (at level 100, right associativity).
End HttpNotations.

(* ================================================================== *)
(** * The incremental completion stream *)
(* ================================================================== *)

Module Relay.
Import Http HttpNotations.

(** A chunk of the upstream stream is represented by
    [chunk.choices[0]?.delta?.content]: [None] when any link of the chain
    is missing. *)
Definition chunk := option string.

(** The async iterator returned by [create({stream: true})]: the chunks it
    yields and, when the iteration breaks, the error it throws after
    them. *)
Record upstream := {
  delivered : list chunk;
  failure : option error
}.

Definition delta (content : string) : json :=
  JObj [("content", JStr content)].

(** The body of [for await (const chunk of completion)], the same in the
    three streaming handlers: returns the accumulated [fullResponse]. *)
Fixpoint for_chunks (chunks : list chunk) (fullResponse : string) : M string :=
  match chunks with
  | [] => ret fullResponse
  | c :: rest =>
      match c with
      | Some content =>
          if Js.truthy content then
            write (delta content) ;;;
            for_chunks rest (fullResponse ++ content)
          else for_chunks rest fullResponse
      | None => for_chunks rest fullResponse
      end
  end.

Definition for_await (completion : upstream) (fullResponse : string) : M string :=
  full <- for_chunks (delivered completion) fullResponse ;;
  match failure completion with
  | Some e => throw e
  | None => ret full
  end.

Definition sse_headers : M unit :=
  setHeader "Content-Type" "text/event-stream" ;;;
  setHeader "Cache-Control" "no-cache" ;;;
  setHeader "Connection" "keep-alive" ;;;
  setHeader "Access-Control-Allow-Origin" "*".

End Relay.

(* ================================================================== *)
(** * Collaborators *)
(* ================================================================== *)

Module Services.
Import Http.

(** [client.chat.completions.create]: with [stream: true] it resolves to
    the async iterator, with [stream: false] to a completion, of which the
    handlers read [choices[0]?.message?.content].  The model name and the
    sampling parameters are passed through unchanged and are left out. *)
Record llm := {
  create_stream : list (string * string) -> outcome Relay.upstream;
  create_message : list (string * string) -> outcome (option string)
}.

(** [parseInt(process.env.NAME)]: [None] stands for [NaN]. *)
Record env := {
  MAX_CONTENT_LENGTH : option Z;
  CRAWL_TIMEOUT : option Z
}.

(** [n || d] on numbers: [NaN] and [0] are falsy. *)
Definition or_num (n : option Z) (d : Z) : Z :=
  match n with
  | Some v => if v =? 0 then d else v
  | None => d
  end.

Definition user (content : string) : list (string * string) :=
  [("user", content)].

End Services.

(* ================================================================== *)
(** * middleware/security.js *)
(* ================================================================== *)

Module Security.
Import Http HttpNotations.

(** The literals of [suspiciousPatterns]; each expression carries the
    flag [i]. *)
Definition suspiciousPatterns : list string :=
  ["javascript:"; "<script"; "eval("; "document."; "window."].

(** [pattern.test(content)] *)
Definition test (content pattern : string) : bool :=
  match Js.index_ci pattern content with
  | Some _ => true
  | None => false
  end.

Definition suspicious (content : string) : bool :=
  existsb (test content) suspiciousPatterns.

(** The middleware [validateContent] in front of [next]; [content] is
    [JSON.stringify(req.body)]. *)
Definition validateContent (content : string) (next : M unit) : M unit :=
  if suspicious content then
    status 400 ;;;
    json_ (JObj [("error", JStr "Invalid content");
                 ("message", JStr "Request contains potentially harmful content")])
  else next.

(** [a || b] on header values, a missing header reading as [undefined] *)
Definition or_else (a b : option string) : option string :=
  match a with
  | Some v => if Js.truthy v then a else b
  | None => b
  end.

Definition is_falsy (a : option string) : bool :=
  match a with
  | Some v => negb (Js.truthy v)
  | None => true
  end.

(** [a !== b] on values that are strings or [undefined] *)
Definition differs (a b : option string) : bool :=
  match a, b with
  | Some x, Some y => negb (String.eqb x y)
  | None, None => false
  | _, _ => true
  end.

(** The middleware [validateApiKey] in front of [next]: the headers
    [x-api-key] and [x-admin-key], the query parameter [apiKey], and
    [process.env.ADMIN_API_KEY]. *)
Definition validateApiKey (x_api_key x_admin_key query_apiKey : option string)
    (ADMIN_API_KEY : option string) (next : M unit) : M unit :=
  let apiKey := or_else (or_else x_api_key x_admin_key) query_apiKey in
  let validApiKey := ADMIN_API_KEY in
  if is_falsy validApiKey then
    status 500 ;;;
    json_ (JObj [("error", JStr "Admin API key not configured");
                 ("message", JStr "ADMIN_API_KEY environment variable required for monitoring endpoints")])
  else if is_falsy apiKey || differs apiKey validApiKey then
    status 401 ;;;
    json_ (JObj [("error", JStr "Invalid admin API key");
                 ("message", JStr "Valid admin API key required for monitoring endpoints")])
  else next.

(** [usageTracker]: the map [daily] is passed explicitly; [today] is the
    value of [new Date().toDateString()]. *)
Definition usage_key (identifier today : string) : string :=
  identifier ++ ":" ++ today.

(** [this.daily.get(key) || 0] *)
Definition getUsage (daily : gmap string Z) (identifier today : string) : Z :=
  match daily !! usage_key identifier today with
  | Some v => v
  | None => 0
  end.

(** [track(identifier, cost)]: the new map and the value returned. *)
Definition track (daily : gmap string Z) (identifier today : string) (cost : Z)
    : gmap string Z * Z :=
  let current := getUsage daily identifier today in
  (<[usage_key identifier today := current + cost]> daily, current + cost).

Definition checkLimit (daily : gmap string Z) (identifier today : string)
    (limit : Z) : bool :=
  getUsage daily identifier today <? limit.

(** The middleware [dailyQuotaCheck(limit)] in front of [next], for a
    request from [ip]: the map it leaves and what it does to the
    response.  The date is the same at each of its reads. *)
Definition dailyQuotaCheck (limit : Z) (ip today : string)
    (daily : gmap string Z) (next : M unit) : gmap string Z * M unit :=
  if negb (checkLimit daily ip today limit) then
    (daily,
     status 429 ;;;
     json_ (JObj [("error", JStr "Daily quota exceeded");
                  ("message", JStr ("Daily limit of " ++ Js.number limit
                                      ++ " requests exceeded"));
                  ("usage", JNum (getUsage daily ip today));
                  ("resetTime", JStr "Tomorrow at midnight UTC")]))
  else
    let '(daily', newUsage) := track daily ip today 1 in
    (daily',
     setHeader "X-Daily-Usage" (Js.number newUsage) ;;;
     setHeader "X-Daily-Limit" (Js.number limit) ;;;
     setHeader "X-Daily-Remaining" (Js.number (Z.max 0 (limit - newUsage))) ;;;
     next).

End Security.

(* ================================================================== *)
(** * config/firebase.js *)
(* ================================================================== *)

Module Firebase.
Import Http HttpNotations.

(** [admin.auth().verifyIdToken(token)], resolving to the [uid] of the
    decoded token. *)
Record auth := {
  verifyIdToken : string -> outcome string
}.

Definition is_blank (c : ascii) : bool := Ascii.eqb c " ".

(** The text behind the first space of [s], if there is one. *)
Fixpoint after_space (s : string) : option string :=
  match s with
  | "" => None
  | String c r => if is_blank c then Some r else after_space r
  end.

Fixpoint until_space (s : string) : string :=
  match s with
  | "" => ""
  | String c r => if is_blank c then "" else String c (until_space r)
  end.

(** [req.headers.authorization?.split(' ')[1]] *)
Definition bearer (authorization : option string) : option string :=
  match authorization with
  | Some header => option_map until_space (after_space header)
  | None => None
  end.

Definition no_token : M unit :=
  status 401 ;;;
  json_ (JObj [("error", JStr "No token provided");
               ("message", JStr "Authorization token is required")]).

(** The middleware [verifyToken] in front of [next], which receives
    [req.user.uid]. *)
Definition verifyToken (a : auth) (authorization : option string)
    (next : string -> M unit) : M unit :=
  try_catch
    (match bearer authorization with
     | Some token =>
         if Js.truthy token then
           uid <- await (CallVerify token) (verifyIdToken a token) ;;
           next uid
         else no_token
     | None => no_token
     end)
    (fun error =>
       status 401 ;;;
       json_ (JObj [("error", JStr "Invalid token");
                    ("message", JStr "Please provide a valid authorization token")])).

End Firebase.

(* ================================================================== *)
(** * routes/ai.js *)
(* ================================================================== *)

Module Ai.
Import Http HttpNotations Relay Services.

Record chat_body := { prompt : option string }.

Definition done (cleaned : string) : json :=
  JObj [("content", JStr ""); ("finished", JBool true);
        ("fullResponse", JStr cleaned)].

(** The [try] block of POST /api/ai/chat *)
Definition chat_try (ai : llm) (req : chat_body) : M unit :=
  match prompt req with
  | Some p =>
      if Js.truthy p then
        sse_headers ;;;
        completion <- await (CallLlm true (user p)) (create_stream ai (user p)) ;;
        fullResponse <- for_await completion "" ;;
        write (done (Think.removeThinkBlocks fullResponse)) ;;;
        end_
      else
        status 400 ;;;
        json_ (JObj [("error", JStr "Prompt is required");
                     ("message", JStr "Please provide a prompt in the request body")])
  | None =>
      status 400 ;;;
      json_ (JObj [("error", JStr "Prompt is required");
                   ("message", JStr "Please provide a prompt in the request body")])
  end.

(** Its [catch] block *)
Definition chat_catch (error : Http.error) : M unit :=
  sent <- get_headersSent ;;
  if negb sent then
    status 500 ;;;
    json_ (JObj [("error", JStr "AI service error");
                 ("message", JStr (or_str (message error) "Failed to generate response"))])
  else
    write (JObj [("error", JStr "AI service error");
                 ("message", JStr (message error))]) ;;;
    end_.

(** POST /api/ai/chat *)
Definition chat (ai : llm) (req : chat_body) : M unit :=
  try_catch (chat_try ai req) chat_catch.

Record note_body := {
  note_prompt : option string;
  context : option string;
  action : option string
}.

Definition systemPrompt (action : string) : string :=
  if String.eqb action "expand" then
    "You are a helpful assistant that expands and elaborates on ideas for note-taking. Provide detailed, well-structured content that builds upon the given prompt."
  else if String.eqb action "summarize" then
    "You are a helpful assistant that creates concise summaries for note-taking. Provide clear, bullet-pointed summaries of the given content."
  else
    "You are a helpful assistant for note-taking. Generate well-organized, informative notes based on the given prompt.".

Definition note_fullPrompt (req : note_body) (p : string) : string :=
  let ctx := default "" (context req) in
  let sys := systemPrompt (default "generate" (action req)) in
  if Js.truthy ctx
  then sys ++ nl ++ nl ++ "Context: " ++ ctx ++ nl ++ nl ++ "Task: " ++ p
  else sys ++ nl ++ nl ++ "Task: " ++ p.

(** The [try] block of POST /api/ai/generate-note *)
Definition generate_note_try (ai : llm) (req : note_body) : M unit :=
  match note_prompt req with
  | Some p =>
      if Js.truthy p then
        let fullPrompt := note_fullPrompt req p in
        sse_headers ;;;
        completion <- await (CallLlm true (user fullPrompt))
                            (create_stream ai (user fullPrompt)) ;;
        fullResponse <- for_await completion "" ;;
        write (done (Think.removeThinkBlocks fullResponse)) ;;;
        end_
      else
        status 400 ;;;
        json_ (JObj [("error", JStr "Prompt is required");
                     ("message", JStr "Please provide a prompt for note generation")])
  | None =>
      status 400 ;;;
      json_ (JObj [("error", JStr "Prompt is required");
                   ("message", JStr "Please provide a prompt for note generation")])
  end.

(** Its [catch] block *)
Definition generate_note_catch (error : Http.error) : M unit :=
  sent <- get_headersSent ;;
  if negb sent then
    status 500 ;;;
    json_ (JObj [("error", JStr "Note generation failed");
                 ("message", JStr (or_str (message error) "Failed to generate note content"))])
  else
    write (JObj [("error", JStr "Note generation failed");
                 ("message", JStr (message error))]) ;;;
    end_.

(** POST /api/ai/generate-note *)
Definition generate_note (ai : llm) (req : note_body) : M unit :=
  try_catch (generate_note_try ai req) generate_note_catch.

Record summarize_body := {
  content : option string;
  summary_type : option string
}.

Definition maxContentLength (e : env) : Z := or_num (MAX_CONTENT_LENGTH e) 50000.

Definition truncation_marker : string := "...[content truncated]".

Definition truncatedContent (e : env) (content : string) : string :=
  if Js.len content >? maxContentLength e
  then Js.substring 0 (maxContentLength e) content ++ truncation_marker
  else content.

Definition promptTemplate (summary_type : string) : string :=
  if String.eqb summary_type "bullet_points" then
    "Summarize the following content in clear bullet points:" ++ nl ++ nl
  else if String.eqb summary_type "brief" then
    "Provide a brief, concise summary (2-3 sentences) of the following content:" ++ nl ++ nl
  else
    "Provide a comprehensive summary of the following content:" ++ nl ++ nl.

Definition fullPrompt (e : env) (summary_type content : string) : string :=
  promptTemplate summary_type ++ truncatedContent e content.

(** POST /api/ai/summarize *)
Definition summarize (ai : llm) (e : env) (req : summarize_body) : M unit :=
  try_catch
    (let summary_type := default "general" (summary_type req) in
     match content req with
     | Some content =>
         if Js.truthy content then
           let prompt := fullPrompt e summary_type content in
           completion <- await (CallLlm false (user prompt))
                               (create_message ai (user prompt)) ;;
           let summary := Think.removeThinkBlocks (or_str (default "" completion) "") in
           json_ (JObj [("summary", JStr summary);
                        ("original_length", JNum (Js.len content));
                        ("summary_type", JStr summary_type);
                        ("truncated", JBool (Js.len content >? maxContentLength e))])
         else
           status 400 ;;;
           json_ (JObj [("error", JStr "Content is required");
                        ("message", JStr "Please provide content to summarize")])
     | None =>
         status 400 ;;;
         json_ (JObj [("error", JStr "Content is required");
                      ("message", JStr "Please provide content to summarize")])
     end)
    (fun error =>
       status 500 ;;;
       json_ (JObj [("error", JStr "Summarization failed");
                    ("message", JStr (or_str (message error) "Failed to summarize content"))])).

End Ai.

(* ================================================================== *)
(** * The parsed document (cheerio) *)
(* ================================================================== *)

Module Dom.

(** The tree built by [cheerio.load].  Comments and the doctype carry no
    text and match no selector; they are left out. *)
Inductive node :=
| Text (data : string)
| Element (tag : string) (attribs : list (string * string)) (children : list node).

(** The selectors that occur in the source: a tag name, a class name, an
    attribute with an exact value.  A comma-separated group is a list. *)
Inductive simple :=
| Tag (name : string)
| Class (name : string)
| AttrEq (name value : string).

Definition selector := list simple.

Fixpoint attr (name : string) (attribs : list (string * string)) : option string :=
  match attribs with
  | [] => None
  | (k, v) :: rest => if String.eqb k name then Some v else attr name rest
  end.

(** The white-space separated tokens of an attribute value. *)
Fixpoint tokens (s : string) : list string :=
  match s with
  | "" => []
  | String c r =>
      if Js.is_space c then tokens r
      else match r with
           | String d _ =>
               if Js.is_space d then String c "" :: tokens r
               else match tokens r with
                    | w :: ws => String c w :: ws
                    | [] => [String c ""]
                    end
           | "" => [String c ""]
           end
  end.

Definition matches_simple (tag : string) (attribs : list (string * string))
    (s : simple) : bool :=
  match s with
  | Tag name => String.eqb tag name
  | Class name =>
      match attr "class" attribs with
      | Some v => existsb (String.eqb name) (tokens v)
      | None => false
      end
  | AttrEq name value =>
      match attr name attribs with
      | Some v => String.eqb v value
      | None => false
      end
  end.

Definition matches (sel : selector) (tag : string)
    (attribs : list (string * string)) : bool :=
  existsb (matches_simple tag attribs) sel.

(** [$(sel)] below one node: the matching elements in document order. *)
Fixpoint select_node (sel : selector) (n : node) : list node :=
  match n with
  | Text _ => []
  | Element tag attribs children =>
      (if matches sel tag attribs then [n] else [])
        ++ flat_map (select_node sel) children
  end.

(** [$(sel)] *)
Definition select (sel : selector) (doc : list node) : list node :=
  flat_map (select_node sel) doc.

(** [$(sel).remove()] below one node *)
Fixpoint remove_node (sel : selector) (n : node) : list node :=
  match n with
  | Text _ => [n]
  | Element tag attribs children =>
      if matches sel tag attribs then []
      else [Element tag attribs (flat_map (remove_node sel) children)]
  end.

(** [$(sel).remove()] *)
Definition remove (sel : selector) (doc : list node) : list node :=
  flat_map (remove_node sel) doc.

Fixpoint textContent (n : node) : string :=
  match n with
  | Text data => data
  | Element _ _ children => String.concat "" (map textContent children)
  end.

(** [selection.text()]: the text of every element of the selection, its
    descendants included, concatenated. *)
Definition text (selection : list node) : string :=
  String.concat "" (map textContent selection).

End Dom.

(* ================================================================== *)
(** * The web-summary routes *)
(* ================================================================== *)

Module WebSummary.
Import Http HttpNotations Relay Services Dom.

(** What the routes take from outside: the HTML parser behind
    [cheerio.load], the protocol found by [new URL(string)] ([None] when
    the constructor throws), [axios.get(url, { timeout })] resolving to
    [response.data], and the clock behind [new Date().toISOString()]. *)
Record web := {
  load : string -> list node;
  url_protocol : string -> option string;
  http_get : string -> Z -> outcome string;
  now : string
}.

Record extracted := {
  content : string;
  title : string;
  url : string
}.

Definition noise : selector :=
  [Tag "script"; Tag "style"; Tag "nav"; Tag "header"; Tag "footer";
   Tag "aside"; Class "advertisement"; Class "ads"; Class "sidebar";
   Class "navigation"].

Definition mainSelectors : list selector :=
  [[Tag "main"]; [AttrEq "role" "main"]; [Class "main-content"];
   [Class "content"]; [Class "post-content"]; [Class "article-content"];
   [Class "entry-content"]; [Tag "article"]; [Class "article-body"]].

(** One round of the loop over [mainSelectors]. *)
Definition try_selector (doc : list node) (content : string)
    (sel : selector) : string :=
  let element := select sel doc in
  if (0 <? Z.of_nat (length element))
     && (Js.len (Js.trim (text element)) >? Js.len content)
  then Js.trim (text element)
  else content.

Definition too_short (content : string) : bool :=
  negb (Js.truthy content) || (Js.len content <? 100).

Definition extractMainContent (w : web) (html url : string) : extracted :=
  let doc := remove noise (load w html) in
  let content := fold_left (try_selector doc) mainSelectors "" in
  let content :=
    if too_short content then
      let paragraphs :=
        map (fun el => Js.trim (textContent el)) (select [Tag "p"] doc) in
      Js.join (nl ++ nl) paragraphs
    else content in
  let content :=
    if too_short content then Js.trim (text (select [Tag "body"] doc))
    else content in
  let content := Js.trim (Js.collapse_spaces content) in
  {| content := content;
     title := or_str (Js.trim (text (select [Tag "title"] doc))) url;
     url := url |}.

Definition crawl_timeout (e : env) : Z := or_num (CRAWL_TIMEOUT e) 10000.

Definition isValidUrl (w : web) (s : string) : bool :=
  match url_protocol w s with
  | Some protocol => String.eqb protocol "http:" || String.eqb protocol "https:"
  | None => false
  end.

Definition extracted_json (x : extracted) : json :=
  JObj [("content", JStr (content x)); ("title", JStr (title x));
        ("url", JStr (url x))].

Definition empty_content (x : extracted) : bool :=
  negb (Js.truthy (content x)) || (Js.len (content x) <? 50).

(** The part of both [catch] blocks that answers with an HTTP status. *)
Definition report_failure (fallback_error fallback_message : string)
    (error : Http.error) : M unit :=
  if match code error with Some c => String.eqb c "ECONNABORTED" | None => false end
  then
    status 408 ;;;
    json_ (JObj [("error", JStr "Request timeout");
                 ("message", JStr "The website took too long to respond")])
  else
    match http_response error with
    | Some (st, statusText) =>
        status (if st =? 0 then 500 else st) ;;;
        json_ (JObj [("error", JStr "Failed to fetch content");
                     ("message", JStr ("HTTP " ++ Js.number st ++ ": " ++ statusText))])
    | None =>
        status 500 ;;;
        json_ (JObj [("error", JStr fallback_error);
                     ("message", JStr (or_str (message error) fallback_message))])
    end.

Record extract_body := { extract_url : option string }.

(** POST /api/web-summary/extract *)
Definition extract (w : web) (e : env) (req : extract_body) : M unit :=
  try_catch
    (match extract_url req with
     | None =>
         status 400 ;;;
         json_ (JObj [("error", JStr "URL is required");
                      ("message", JStr "Please provide a URL to extract content from")])
     | Some url =>
         if negb (Js.truthy url) then
           status 400 ;;;
           json_ (JObj [("error", JStr "URL is required");
                        ("message", JStr "Please provide a URL to extract content from")])
         else if negb (isValidUrl w url) then
           status 400 ;;;
           json_ (JObj [("error", JStr "Invalid URL");
                        ("message", JStr "Please provide a valid HTTP/HTTPS URL")])
         else
           let timeout := crawl_timeout e in
           data <- await (CallGet url timeout) (http_get w url timeout) ;;
           let extracted := extractMainContent w data url in
           if empty_content extracted then
             status 400 ;;;
             json_ (JObj [("error", JStr "No content found");
                          ("message", JStr "Unable to extract meaningful content from the provided URL")])
           else
             json_ (JObj [("success", JBool true);
                          ("data", extracted_json extracted);
                          ("stats", JObj [("contentLength", JNum (Js.len (content extracted)));
                                          ("extractedAt", JStr (now w))])])
     end)
    (report_failure "Content extraction failed"
                    "Unable to extract content from the URL").

Record summarize_body := {
  summarize_url : option string;
  summary_type : option string
}.

Definition maxContentLength (e : env) : Z := or_num (MAX_CONTENT_LENGTH e) 50000.

Definition truncate (e : env) (text : string) : string :=
  if Js.len text >? maxContentLength e
  then Js.substring 0 (maxContentLength e) text ++ "...[content truncated]"
  else text.

Definition promptTemplate (summary_type title url : string) : string :=
  let source := nl ++ nl ++ "Title: " ++ title ++ nl ++ "URL: " ++ url
                   ++ nl ++ nl ++ "Content:" ++ nl in
  if String.eqb summary_type "bullet_points" then
    "Summarize the following web content in clear bullet points. Include the main topics, key insights, and important details:" ++ source
  else if String.eqb summary_type "brief" then
    "Provide a brief, concise summary (2-3 sentences) of the following web content:" ++ source
  else if String.eqb summary_type "detailed" then
    "Provide a comprehensive, detailed summary of the following web content. Include main topics, key points, important details, and any conclusions:" ++ source
  else
    "Summarize the following web content in a clear, organized manner:" ++ source.

Definition extracting : json :=
  JObj [("status", JStr "extracting");
        ("message", JStr "Extracting content from URL...")].

Definition summarizing (title : string) : json :=
  JObj [("status", JStr "summarizing");
        ("message", JStr "Generating AI summary...");
        ("title", JStr title)].

Definition finalData (w : web) (e : env) (x : extracted)
    (summary_type cleanedSummary : string) : json :=
  JObj [("content", JStr ""); ("finished", JBool true);
        ("fullResponse", JStr cleanedSummary);
        ("metadata",
         JObj [("url", JStr (url x)); ("title", JStr (title x));
               ("originalLength", JNum (Js.len (content x)));
               ("summaryType", JStr summary_type);
               ("truncated", JBool (Js.len (content x) >? maxContentLength e));
               ("extractedAt", JStr (now w))])].

(** The [try] block of POST /api/web-summary/summarize *)
Definition summarize_try (w : web) (ai : llm) (e : env) (req : summarize_body)
    : M unit :=
  let summary_type := default "general" (summary_type req) in
  match summarize_url req with
  | None =>
      status 400 ;;;
      json_ (JObj [("error", JStr "URL is required");
                   ("message", JStr "Please provide a URL to summarize")])
  | Some url =>
      if negb (Js.truthy url) then
        status 400 ;;;
        json_ (JObj [("error", JStr "URL is required");
                     ("message", JStr "Please provide a URL to summarize")])
      else if negb (isValidUrl w url) then
        status 400 ;;;
        json_ (JObj [("error", JStr "Invalid URL");
                     ("message", JStr "Please provide a valid HTTP/HTTPS URL")])
      else
        sse_headers ;;;
        write extracting ;;;
        let timeout := crawl_timeout e in
        data <- await (CallGet url timeout) (http_get w url timeout) ;;
        let extracted := extractMainContent w data url in
        if empty_content extracted then
          write (JObj [("error", JStr "No content found");
                       ("message", JStr "Unable to extract meaningful content from URL")]) ;;;
          end_
        else
          write (summarizing (title extracted)) ;;;
          let fullPrompt :=
            promptTemplate summary_type (title extracted) url
              ++ truncate e (content extracted) in
          completion <- await (CallLlm true (user fullPrompt))
                              (create_stream ai (user fullPrompt)) ;;
          fullResponse <- for_await completion "" ;;
          write (finalData w e extracted summary_type
                   (Think.removeThinkBlocks fullResponse)) ;;;
          end_
  end.

(** Its [catch] block *)
Definition summarize_catch (error : Http.error) : M unit :=
  sent <- get_headersSent ;;
  if negb sent then
    report_failure "Web summarization failed"
                   "Failed to summarize web content" error
  else
    write (JObj [("error", JStr "Web summarization failed");
                 ("message", JStr (message error))]) ;;;
    end_.

(** POST /api/web-summary/summarize *)
Definition summarize (w : web) (ai : llm) (e : env) (req : summarize_body) : M unit :=
  try_catch (summarize_try w ai e req) summarize_catch.

End WebSummary.

(* ================================================================== *)
(** * The youtube-summary routes *)
(* ================================================================== *)

Module Youtube.
Import Http HttpNotations Services.

(** The class [[^&\n?#]] *)
Definition id_char (c : ascii) : bool :=
  let n := nat_of_ascii c in
  negb ((n =? 38)%nat || (n =? 10)%nat || (n =? 63)%nat || (n =? 35)%nat).

(** The class [[a-zA-Z0-9_-]] *)
Definition word_char (c : ascii) : bool :=
  let n := nat_of_ascii c in
  ((97 <=? n)%nat && (n <=? 122)%nat) || ((65 <=? n)%nat && (n <=? 90)%nat)
  || ((48 <=? n)%nat && (n <=? 57)%nat) || (n =? 95)%nat || (n =? 45)%nat.

Fixpoint take_while (p : ascii -> bool) (s : string) : string :=
  match s with
  | String c r => if p c then String c (take_while p r) else ""
  | "" => ""
  end.

Fixpoint all_chars (p : ascii -> bool) (s : string) : bool :=
  match s with
  | String c r => p c && all_chars p r
  | "" => true
  end.

(** The alternatives of the non-capturing group, in the order written. *)
Definition url_prefixes : list string :=
  ["youtube.com/watch?v="; "youtu.be/"; "youtube.com/embed/"].

(** Group 1 of the first pattern matched at the start of [s] through the
    alternative [prefix]: the longest run of [[^&\n?#]], which must not be
    empty. *)
Definition capture_after (prefix s : string) : option string :=
  match Js.after prefix s with
  | Some rest =>
      match take_while id_char rest with
      | "" => None
      | v => Some v
      end
  | None => None
  end.

Fixpoint first_alternative (prefixes : list string) (s : string) : option string :=
  match prefixes with
  | [] => None
  | p :: ps =>
      match capture_after p s with
      | Some v => Some v
      | None => first_alternative ps s
      end
  end.

(** [url.match(/(?:youtube\.com\/watch\?v=|youtu\.be\/|youtube\.com\/embed\/)([^&\n?#]+)/)]:
    group 1 of the leftmost match. *)
Fixpoint match_url (s : string) : option string :=
  match first_alternative url_prefixes s with
  | Some v => Some v
  | None =>
      match s with
      | String _ r => match_url r
      | "" => None
      end
  end.

(** [url.match(/^([a-zA-Z0-9_-]{11})$/)] *)
Definition match_id (s : string) : option string :=
  if (String.length s =? 11)%nat && all_chars word_char s then Some s else None.

Definition patterns : list (string -> option string) := [match_url; match_id].

Fixpoint first_match (ps : list (string -> option string)) (url : string)
    : outcome string :=
  match ps with
  | [] => Throw (plain_error "Invalid YouTube URL format")
  | pattern :: rest =>
      match pattern url with
      | Some group1 => Ok group1
      | None => first_match rest url
      end
  end.

Definition extractVideoId (url : string) : outcome string :=
  first_match patterns url.

Record segment := {
  text : string;
  offset : Z;
  duration : Z
}.

(** [YoutubeTranscript.fetchTranscript] *)
Record captions := {
  fetchTranscript : string -> outcome (list segment)
}.

Record summarize_body := {
  videoUrl : option string;
  summaryType : option string
}.

Definition systemPrompt (summaryType : string) : string :=
  if String.eqb summaryType "detailed" then
    "You are a helpful assistant that creates detailed summaries of video transcripts. Break down the content into key sections with bullet points."
  else if String.eqb summaryType "bullet" then
    "You are a helpful assistant that creates concise bullet-point summaries."
  else
    "You are a helpful assistant that creates very concise summaries. Keep summaries to 2-3 sentences maximum.".

Definition userPrompt (summaryType fullTranscript : string) : string :=
  if String.eqb summaryType "detailed" then
    "Create a detailed summary of this YouTube video transcript. Include:" ++ nl
      ++ "1. Main topic/title" ++ nl ++ "2. Key points covered (bullet points)" ++ nl
      ++ "3. Important details or examples" ++ nl ++ "4. Conclusion" ++ nl ++ nl
      ++ "Transcript:" ++ nl ++ fullTranscript
  else if String.eqb summaryType "bullet" then
    "Summarize this YouTube video transcript as bullet points (5-8 points maximum):"
      ++ nl ++ nl ++ fullTranscript
  else
    "Summarize this YouTube video transcript in 2-3 sentences:"
      ++ nl ++ nl ++ fullTranscript.

(** The [fullTranscript] field of the response. *)
Definition transcript_excerpt (fullTranscript : string) : string :=
  Js.substring 0 1000 fullTranscript
    ++ (if Js.len fullTranscript >? 1000 then "..." else "").

Definition videoDuration (transcriptData : list segment) : Z :=
  match last transcriptData with
  | Some item => or_num (Some (offset item)) 0
  | None => 0
  end.

(** Step 2 of the handler, with its own [try]/[catch]: [None] when a
    response has been sent and the handler returns. *)
Definition fetch_step (yt : captions) (videoId : string)
    : M (option (list segment * string)) :=
  try_catch
    (transcriptData <- await (CallTranscript videoId) (fetchTranscript yt videoId) ;;
     let fullTranscript := Js.join " " (map text transcriptData) in
     if negb (Js.truthy fullTranscript) || (Js.len (Js.trim fullTranscript) <? 10) then
       status 404 ;;;
       json_ (JObj [("error", JStr "No transcript available");
                    ("message", JStr "This video does not have captions/subtitles available")]) ;;;
       ret None
     else ret (Some (transcriptData, fullTranscript)))
    (fun error =>
       status 404 ;;;
       json_ (JObj [("error", JStr "Transcript not available");
                    ("message", JStr "This video does not have captions/subtitles. The video might be private, deleted, or has disabled captions.");
                    ("details", JStr (message error))]) ;;;
       ret None).

Definition missing_url : M unit :=
  status 400 ;;;
  json_ (JObj [("error", JStr "Video URL is required");
               ("message", JStr "Please provide a YouTube video URL")]).

(** POST /api/youtube-summary/summarize *)
Definition summarize (yt : captions) (ai : llm) (req : summarize_body) : M unit :=
  try_catch
    (let summaryType := default "concise" (summaryType req) in
     match videoUrl req with
     | None => missing_url
     | Some videoUrl =>
         if negb (Js.truthy videoUrl) then missing_url
         else
           match extractVideoId videoUrl with
           | Throw _ =>
               status 400 ;;;
               json_ (JObj [("error", JStr "Invalid YouTube URL");
                            ("message", JStr "Please provide a valid YouTube video URL or video ID")])
           | Ok videoId =>
               fetched <- fetch_step yt videoId ;;
               match fetched with
               | None => ret tt
               | Some (transcriptData, fullTranscript) =>
                   let messages :=
                     [("system", systemPrompt summaryType);
                      ("user", userPrompt summaryType fullTranscript)] in
                   completion <- await (CallLlm false messages)
                                       (create_message ai messages) ;;
                   let rawSummary :=
                     or_str (default "" completion) "No summary generated" in
                   let summary := Think.removeThinkBlocks rawSummary in
                   json_ (JObj
                     [("success", JBool true);
                      ("videoId", JStr videoId);
                      ("summary", JStr summary);
                      ("summaryType", JStr summaryType);
                      ("transcriptLength", JNum (Js.len fullTranscript));
                      ("transcriptWordCount", JNum (Js.split_spaces_length fullTranscript));
                      ("videoDuration", JNum (videoDuration transcriptData));
                      ("fullTranscript", JStr (transcript_excerpt fullTranscript))])
               end
           end
     end)
    (fun error =>
       status 500 ;;;
       json_ (JObj [("error", JStr "Failed to generate summary");
                    ("message", JStr (message error))])).

(** GET /api/youtube-summary/transcript/:videoId *)
Definition transcript (yt : captions) (videoId : string) : M unit :=
  try_catch
    (if negb (Js.truthy videoId) || negb (Js.len videoId =? 11) then
       status 400 ;;;
       json_ (JObj [("error", JStr "Invalid video ID");
                    ("message", JStr "Please provide a valid 11-character YouTube video ID")])
     else
       transcriptData <- await (CallTranscript videoId) (fetchTranscript yt videoId) ;;
       let fullTranscript := Js.join " " (map text transcriptData) in
       json_ (JObj [("success", JBool true);
                    ("videoId", JStr videoId);
                    ("transcript", JStr fullTranscript);
                    ("wordCount", JNum (Js.split_spaces_length fullTranscript));
                    ("duration", JNum (videoDuration transcriptData));
                    ("segments", JNum (Z.of_nat (length transcriptData)))]))
    (fun error =>
       status 404 ;;;
       json_ (JObj [("error", JStr "Transcript not available");
                    ("message", JStr (message error))])).

End Youtube.

(* ================================================================== *)
(** * routes/notes.js *)
(* ================================================================== *)

Module Notes.
Import Http HttpNotations.

(** Truthiness of a value. *)
Definition truthy (v : json) : bool :=
  match v with
  | JNull => false
  | JBool b => b
  | JNum n => negb (n =? 0)
  | JStr s => Js.truthy s
  | JArr _ | JObj _ => true
  end.

(** [v || d], where a missing property reads as [undefined]. *)
Definition or_ (v : option json) (d : json) : json :=
  match v with
  | Some x => if truthy x then x else d
  | None => d
  end.

(** [String(v)] *)
Fixpoint to_string (v : json) : string :=
  match v with
  | JNull => "null"
  | JBool b => if b then "true" else "false"
  | JNum n => Js.number n
  | JStr s => s
  | JArr items =>
      Js.join "," (map (fun x => match x with JNull => "" | _ => to_string x end) items)
  | JObj _ => "[object Object]"
  end.

(** [v + 1]: addition of doubles unless [v] turns into a string. *)
Definition plus_one (v : json) : json :=
  match v with
  | JNull => JNum 1
  | JBool b => JNum ((if b then 1 else 0) + 1)
  | JNum n => JNum (Js.to_double (n + 1))
  | JStr _ | JArr _ | JObj _ => JStr (to_string v ++ "1")
  end.

Definition isArray (v : json) : bool :=
  match v with JArr _ => true | _ => false end.

(** One database operation: consumes the head of the fault schedule. *)
Definition db_op {A} (f : database -> outcome A * database) : M A :=
  fun w =>
    match db w with
    | None => (Throw (plain_error "Cannot read properties of undefined"), w)
    | Some d =>
        match faults d with
        | Some e :: rest =>
            (Throw e, {| res := res w; calls := calls w;
                         db := Some {| notes := notes d; faults := rest |} |})
        | fs =>
            let '(r, d') := f {| notes := notes d; faults := tail fs |} in
            (r, {| res := res w; calls := calls w; db := Some d' |})
        end
    end.

(** [noteRef.get()]: [None] when [doc.exists] is false, else [doc.data()]. *)
Definition get (noteId : string) : M (option (gmap string json)) :=
  db_op (fun d => (Ok (notes d !! noteId), d)).

(** [noteRef.update(data)]: sets the given fields of an existing document
    and leaves its other fields alone. *)
Definition update (noteId : string) (data : gmap string json) : M unit :=
  db_op (fun d =>
    match notes d !! noteId with
    | Some old =>
        (Ok tt, {| notes := <[noteId := data ∪ old]> (notes d); faults := faults d |})
    | None => (Throw (plain_error "No document to update"), d)
    end).

(** [if (v !== undefined) updateData[k] = f(v)] *)
Definition set_if_defined (k : string) (f : json -> json)
    (body updateData : gmap string json) : gmap string json :=
  match body !! k with
  | Some v => <[k := f v]> updateData
  | None => updateData
  end.

Definition array_or_empty (v : json) : json :=
  if isArray v then v else JArr [].

Definition updateData (now : string) (existingData body : gmap string json)
    : gmap string json :=
  let d0 : gmap string json :=
    <["version" := plus_one (or_ (existingData !! "version") (JNum 1))]>
      (<["updatedAt" := JStr now]> ∅) in
  let d1 := set_if_defined "title" id body d0 in
  let d2 := set_if_defined "content" id body d1 in
  let d3 := set_if_defined "tags" array_or_empty body d2 in
  let d4 := set_if_defined "links" array_or_empty body d3 in
  set_if_defined "category" id body d4.

(** [obj[k] = v] on an object with ordered keys *)
Fixpoint obj_set (k : string) (v : json) (fields : list (string * json))
    : list (string * json) :=
  match fields with
  | [] => [(k, v)]
  | (k', v') :: rest =>
      if String.eqb k' k then (k', v) :: rest else (k', v') :: obj_set k v rest
  end.

(** [{ id, ...data }] *)
Definition note_json (id : string) (data : gmap string json) : json :=
  JObj (fold_left (fun o kv => obj_set (fst kv) (snd kv) o)
                  (map_to_list data) [("id", JStr id)]).

(** [existingData.userId !== userId] *)
Definition other_owner (existingData : gmap string json) (userId : string) : bool :=
  match existingData !! "userId" with
  | Some (JStr owner) => negb (String.eqb owner userId)
  | _ => true
  end.

(** The route handler of PUT /api/notes/:id, entered with [req.user.uid],
    [req.params.id] and [req.body]; [now] is [new Date().toISOString()]. *)
Definition put_handler (now userId noteId : string) (body : gmap string json)
    : M unit :=
  try_catch
    (doc <- get noteId ;;
     match doc with
     | None =>
         status 404 ;;;
         json_ (JObj [("error", JStr "Note not found");
                      ("message", JStr "The requested note does not exist")])
     | Some existingData =>
         if other_owner existingData userId then
           status 403 ;;;
           json_ (JObj [("error", JStr "Access denied");
                        ("message", JStr "You do not have permission to update this note")])
         else
           update noteId (updateData now existingData body) ;;;
           updatedDoc <- get noteId ;;
           json_ (JObj [("success", JBool true);
                        ("note", note_json noteId (default ∅ updatedDoc))])
     end)
    (fun error =>
       status 500 ;;;
       json_ (JObj [("error", JStr "Failed to update note");
                    ("message", JStr (message error))])).

(** The middleware [checkFirebaseConfig] in front of [next]. *)
Definition checkFirebaseConfig (next : M unit) : M unit :=
  fun w =>
    match db w with
    | None =>
        (status 503 ;;;
         json_ (JObj [("error", JStr "Database not configured");
                      ("message", JStr "Firebase configuration is required for notes functionality")])) w
    | Some _ => next w
    end.

(** PUT /api/notes/:id behind the middleware of the router. *)
Definition put_note (a : Firebase.auth) (authorization : option string)
    (now noteId : string) (body : gmap string json) : M unit :=
  checkFirebaseConfig
    (Firebase.verifyToken a authorization
       (fun userId => put_handler now userId noteId body)).

(** [noteRef.delete()]: succeeds whether or not the document exists. *)
Definition delete_ (noteId : string) : M unit :=
  db_op (fun d =>
    (Ok tt, {| notes := delete noteId (notes d); faults := faults d |})).

(** [db.collection('notes').add(data)], where [newId] is the identifier
    the client library generates: the document is created, and the call
    fails when a document of that identifier exists. *)
Definition add (newId : string) (data : gmap string json) : M string :=
  db_op (fun d =>
    match notes d !! newId with
    | Some _ => (Throw (plain_error "Document already exists"), d)
    | None =>
        (Ok newId, {| notes := <[newId := data]> (notes d); faults := faults d |})
    end).

(** The route handler of GET /api/notes/:id *)
Definition get_handler (userId noteId : string) : M unit :=
  try_catch
    (doc <- get noteId ;;
     match doc with
     | None =>
         status 404 ;;;
         json_ (JObj [("error", JStr "Note not found");
                      ("message", JStr "The requested note does not exist")])
     | Some noteData =>
         if other_owner noteData userId then
           status 403 ;;;
           json_ (JObj [("error", JStr "Access denied");
                        ("message", JStr "You do not have permission to access this note")])
         else
           json_ (JObj [("success", JBool true);
                        ("note", note_json noteId noteData)])
     end)
    (fun error =>
       status 500 ;;;
       json_ (JObj [("error", JStr "Failed to fetch note");
                    ("message", JStr (message error))])).

(** The route handler of DELETE /api/notes/:id *)
Definition delete_handler (userId noteId : string) : M unit :=
  try_catch
    (doc <- get noteId ;;
     match doc with
     | None =>
         status 404 ;;;
         json_ (JObj [("error", JStr "Note not found");
                      ("message", JStr "The requested note does not exist")])
     | Some noteData =>
         if other_owner noteData userId then
           status 403 ;;;
           json_ (JObj [("error", JStr "Access denied");
                        ("message", JStr "You do not have permission to delete this note")])
         else
           delete_ noteId ;;;
           json_ (JObj [("success", JBool true);
                        ("message", JStr "Note deleted successfully")])
     end)
    (fun error =>
       status 500 ;;;
       json_ (JObj [("error", JStr "Failed to delete note");
                    ("message", JStr (message error))])).

(** [!v], a missing property reading as [undefined] *)
Definition falsy (v : option json) : bool :=
  match v with
  | Some x => negb (truthy x)
  | None => true
  end.

(** The fields of [noteData] in POST /api/notes, in the order written;
    [created] and [updated] are the two readings of the clock. *)
Definition noteData (created updated userId : string) (body : gmap string json)
    : list (string * json) :=
  [("userId", JStr userId);
   ("title", or_ (body !! "title") (JStr "Untitled Note"));
   ("content", or_ (body !! "content") (JStr ""));
   ("tags", array_or_empty (default (JArr []) (body !! "tags")));
   ("links", array_or_empty (default (JArr []) (body !! "links")));
   ("category", default (JStr "general") (body !! "category"));
   ("createdAt", JStr created);
   ("updatedAt", JStr updated);
   ("version", JNum 1)].

(** The route handler of POST /api/notes *)
Definition post_handler (created updated newId userId : string)
    (body : gmap string json) : M unit :=
  try_catch
    (if falsy (body !! "title") && falsy (body !! "content") then
       status 400 ;;;
       json_ (JObj [("error", JStr "Title or content is required");
                    ("message", JStr "Please provide either a title or content for the note")])
     else
       let data := noteData created updated userId body in
       id <- add newId (list_to_map data) ;;
       status 201 ;;;
       json_ (JObj [("success", JBool true);
                    ("note", JObj (("id", JStr id) :: data))]))
    (fun error =>
       status 500 ;;;
       json_ (JObj [("error", JStr "Failed to create note");
                    ("message", JStr (message error))])).

(** The three routes behind the middleware of the router. *)
Definition get_note (a : Firebase.auth) (authorization : option string)
    (noteId : string) : M unit :=
  checkFirebaseConfig
    (Firebase.verifyToken a authorization (fun userId => get_handler userId noteId)).

Definition delete_note (a : Firebase.auth) (authorization : option string)
    (noteId : string) : M unit :=
  checkFirebaseConfig
    (Firebase.verifyToken a authorization (fun userId => delete_handler userId noteId)).

Definition post_note (a : Firebase.auth) (authorization : option string)
    (created updated newId : string) (body : gmap string json) : M unit :=
  checkFirebaseConfig
    (Firebase.verifyToken a authorization
       (fun userId => post_handler created updated newId userId body)).

End Notes.

(* ================================================================== *)
(** * server.js: the routes behind [validateContent] *)
(* ================================================================== *)

Module Server.
Import Http.

(** In both, [serialized] is [JSON.stringify(req.body)]. *)
Definition ai_summarize (ai : Services.llm) (e : Services.env)
    (serialized : string) (req : Ai.summarize_body) : M unit :=
  Security.validateContent serialized (Ai.summarize ai e req).

Definition notes_put (a : Firebase.auth) (serialized : string)
    (authorization : option string) (now noteId : string)
    (body : gmap string json) : M unit :=
  Security.validateContent serialized
    (Notes.put_note a authorization now noteId body).

End Server.

(* ================================================================== *)
(** * Vocabulary of the statements *)
(* ================================================================== *)

Module Spec.
Import Http Relay.

(** The texts of the chunks that carry a non-empty text. *)
Fixpoint texts (chunks : list chunk) : list string :=
  match chunks with
  | [] => []
  | Some content :: rest =>
      if Js.truthy content then content :: texts rest else texts rest
  | None :: rest => texts rest
  end.

Definition is_nil {A} (l : list A) : bool :=
  match l with [] => true | _ => false end.

(** The world after the frames [vs] have been written. *)
Definition emit (vs : list json) (w : world) : world :=
  {| res := {| statusCode := statusCode (res w);
               headers := headers (res w);
               headersSent := headersSent (res w) || negb (is_nil vs);
               written := written (res w) ++ vs;
               body := body (res w);
               ended := ended (res w) |};
     calls := calls w;
     db := db w |}.

(** [v[k]] on an object *)
Definition field (k : string) (v : json) : option json :=
  match v with
  | JObj fields => snd <$> find (fun kv => String.eqb (fst kv) k) fields
  | _ => None
  end.

(** [op] is an opening and [cl] a closing think delimiter, in any case. *)
Definition is_open (op : string) : Prop := Js.after_ci "<think>" op = Some "".
Definition is_close (cl : string) : Prop := Js.after_ci "</think>" cl = Some "".

(** [s] holds no opening (closing) delimiter. *)
Definition no_open (s : string) : Prop := Js.index_ci "<think>" s = None.
Definition no_close (s : string) : Prop := Js.index_ci "</think>" s = None.

(** A think block with the text in front of it. *)
Record block := {
  before : string;
  opening : string;
  inside : string;
  closing : string
}.

Definition well_formed (b : block) : Prop :=
  no_open (before b) /\ is_open (opening b)
  /\ no_close (inside b) /\ is_close (closing b).

(** A text made of blocks, one after the other, and a last piece; and the
    same text with the blocks left out. *)
Definition with_blocks (blocks : list block) (last : string) : string :=
  fold_right (fun b rest =>
                before b ++ opening b ++ inside b ++ closing b ++ rest)
             last blocks.

Definition without_blocks (blocks : list block) (last : string) : string :=
  fold_right (fun b rest => before b ++ rest) last blocks.

(** The document the selectors of [extractMainContent] run on, and the
    trimmed text of its [main] elements. *)
Definition cleaned (w : WebSummary.web) (html : string) : list Dom.node :=
  Dom.remove WebSummary.noise (WebSummary.load w html).

Definition candidate (doc : list Dom.node) (sel : Dom.selector) : string :=
  Js.trim (Dom.text (Dom.select sel doc)).

Definition other_selectors : list Dom.selector := tail WebSummary.mainSelectors.

(** [main] holds the longest candidate: it is matched, and every other
    content selector that is matched has a shorter trimmed text. *)
Definition main_is_longest (doc : list Dom.node) : Prop :=
  Dom.select [Dom.Tag "main"] doc <> []
  /\ forall sel, In sel other_selectors ->
       Dom.select sel doc <> [] ->
       Js.len (candidate doc sel) < Js.len (candidate doc [Dom.Tag "main"]).

(** [k] of the body sent by [res.json] *)
Definition body_field (k : string) (r : response) : option json :=
  match body r with
  | Some v => field k v
  | None => None
  end.

(** The style names of the enumeration, in the spelling of the requests. *)
Definition recognized_styles : list string :=
  ["general"; "brief"; "bullet_points"; "detailed"].

(** A terminal frame carries [finished: true] or an [error]. *)
Definition is_terminal (v : json) : bool :=
  match field "finished" v, field "error" v with
  | Some (JBool true), _ => true
  | _, Some _ => true
  | _, _ => false
  end.

(** A delta frame carries only a non-empty [content]. *)
Definition is_delta (v : json) : bool :=
  match v with
  | JObj [(k, JStr c)] => String.eqb k "content" && Js.truthy c
  | _ => false
  end.

Definition is_error_frame (v : json) : bool :=
  match field "error" v with Some _ => true | None => false end.

Definition count (p : json -> bool) (vs : list json) : nat :=
  length (filter (fun v => p v = true) vs).

(** The streaming completion call fails with [e] after the chunks [cs]
    have arrived: the call itself is rejected, or the iteration breaks. *)
Definition breaks (o : outcome upstream) (cs : list chunk) (e : error) : Prop :=
  (o = Throw e /\ cs = []) \/ o = Ok {| delivered := cs; failure := Some e |}.

Definition error_frame (label : string) (e : error) : json :=
  JObj [("error", JStr label); ("message", JStr (message e))].

(** The two ways in which a failure reaches the caller. *)
Definition synchronous_error (r : response) (c : Z) (v : json) : Prop :=
  statusCode r = c /\ body r = Some v /\ written r = [] /\ ended r = true.

Definition in_band_error (r : response) (before : list json)
    (label : string) (e : error) : Prop :=
  statusCode r = 200
  /\ body r = None
  /\ written r = (before ++ [error_frame label e])%list
  /\ count is_error_frame (written r) = 1%nat
  /\ ended r = true.

(** The part shared by the [try] blocks of the streaming handlers from the
    headers on: the call with [msgs], whose result is [o], the loop, and
    the closing frame built by [closing]. *)
Definition relay_block (msgs : list (string * string)) (o : outcome upstream)
    (closing : string -> json) : M unit :=
  bind sse_headers (fun _ =>
  bind (await (CallLlm true msgs) o) (fun completion =>
  bind (for_await completion "") (fun fullResponse =>
  bind (write (closing fullResponse)) (fun _ => end_)))).

(** The shape shared by the [catch] blocks of the chat and generate-note
    handlers. *)
Definition stream_catch (label fallback : string) (error : Http.error) : M unit :=
  bind get_headersSent (fun sent =>
  if negb sent then
    bind (status 500) (fun _ =>
    json_ (JObj [("error", JStr label);
                 ("message", JStr (or_str (message error) fallback))]))
  else
    bind (write (error_frame label error)) (fun _ => end_)).

(** The world in which [relay_block] stops when the stream has yielded
    [chunks]. *)
Definition streamed (msgs : list (string * string)) (chunks : list chunk) : world :=
  emit (map delta (texts chunks))
    {| res := {| statusCode := 200;
                 headers := [("Content-Type", "text/event-stream");
                             ("Cache-Control", "no-cache");
                             ("Connection", "keep-alive");
                             ("Access-Control-Allow-Origin", "*")];
                 headersSent := false; written := []; body := None;
                 ended := false |};
       calls := [CallLlm true msgs];
       db := None |}.

(** Shapes of a text: it starts or ends with white space; and it is
    tidy, when each white-space character in it is a plain space that is
    not followed by white space. *)
Definition starts_space (s : string) : bool :=
  match s with
  | String c _ => Js.is_space c
  | "" => false
  end.

Fixpoint ends_space (s : string) : bool :=
  match s with
  | "" => false
  | String c r =>
      match r with
      | "" => Js.is_space c
      | _ => ends_space r
      end
  end.

Fixpoint tidy (s : string) : bool :=
  match s with
  | "" => true
  | String c r =>
      (negb (Js.is_space c) || (Ascii.eqb c " " && negb (starts_space r)))
      && tidy r
  end.

(** Plain text with collapsed white space. *)
Definition normalized (s : string) : bool :=
  tidy s && negb (starts_space s) && negb (ends_space s).

(** The two fallback texts of [extractMainContent]. *)
Definition paragraph_text (doc : list Dom.node) : string :=
  Js.join (Http.nl ++ Http.nl)
    (map (fun el => Js.trim (Dom.textContent el)) (Dom.select [Dom.Tag "p"] doc)).

Definition body_text (doc : list Dom.node) : string :=
  Js.trim (Dom.text (Dom.select [Dom.Tag "body"] doc)).

(** The document [doc] with the node [el] put in at the place [path]: each
    index but the last picks the element to go down into, and the last is
    the position among the children there.  A place that does not exist
    is taken to be where the path leaves the document. *)
Fixpoint insert_at (path : list nat) (el : Dom.node) (doc : list Dom.node)
    : list Dom.node :=
  match path with
  | [] => el :: doc
  | i :: rest =>
      (take i doc ++
       match drop i doc with
       | Dom.Element tag attribs children :: behind =>
           match rest with
           | [] => el :: Dom.Element tag attribs children :: behind
           | _ => Dom.Element tag attribs (insert_at rest el children) :: behind
           end
       | behind => el :: behind
       end)%list
  end.

(** The same collaborators, serving each page with [el] put in at
    [path]. *)
Definition with_inserted (path : list nat) (el : Dom.node)
    (w : WebSummary.web) : WebSummary.web :=
  {| WebSummary.load := fun html => insert_at path el (WebSummary.load w html);
     WebSummary.url_protocol := WebSummary.url_protocol w;
     WebSummary.http_get := WebSummary.http_get w;
     WebSummary.now := WebSummary.now w |}.

(** The elements that carry no content: by tag name, and by class. *)
Definition noise_tags : list string :=
  ["script"; "style"; "nav"; "header"; "footer"; "aside"].

Definition noise_classes : list string :=
  ["advertisement"; "ads"; "sidebar"; "navigation"].

(** [attribs] holds a [class] attribute that names [cls]. *)
Definition has_class (cls : string) (attribs : list (string * string)) : Prop :=
  exists v, Dom.attr "class" attribs = Some v /\ In cls (Dom.tokens v).

(** [sel] holds the best candidate of the document: it is a content
    selector that matches, and every other content selector that matches
    has the same trimmed text or a shorter one. *)
Definition is_longest (doc : list Dom.node) (sel : Dom.selector) : Prop :=
  In sel WebSummary.mainSelectors
  /\ Dom.select sel doc <> []
  /\ forall other, In other WebSummary.mainSelectors ->
       Dom.select other doc <> [] ->
       candidate doc other = candidate doc sel
       \/ Js.len (candidate doc other) < Js.len (candidate doc sel).

(** The world of a streaming handler after the headers of the event
    stream are set and the calls [cs] are made. *)
Definition streamed_after (cs : list call) : world :=
  {| res := {| statusCode := 200;
               headers := [("Content-Type", "text/event-stream");
                           ("Cache-Control", "no-cache");
                           ("Connection", "keep-alive");
                           ("Access-Control-Allow-Origin", "*")];
               headersSent := false; written := []; body := None;
               ended := false |};
     calls := cs;
     db := None |}.

Definition no_content_frame : json :=
  JObj [("error", JStr "No content found");
        ("message", JStr "Unable to extract meaningful content from URL")].

(** A response that rejects the request before anything else happens:
    status [c], a JSON body with the error [label], no frame written, no
    header set, no call made. *)
Definition rejected (w : world) (c : Z) (label : string) : Prop :=
  statusCode (res w) = c
  /\ body_field "error" (res w) = Some (JStr label)
  /\ written (res w) = []
  /\ headers (res w) = []
  /\ ended (res w) = true
  /\ calls w = [].

(** The two forms of a missing string field. *)
Definition missing : list (option string) := [None; Some ""].

(** The URL forms of a video, up to the identifier. *)
Definition video_url_forms : list string :=
  ["https://www.youtube.com/watch?v="; "https://youtu.be/";
   "https://www.youtube.com/embed/"; "youtube.com/watch?v="; "youtu.be/";
   "http://m.youtube.com/watch?v="].

(** [rest] is empty or starts with one of the characters that end an
    identifier in a URL. *)
Definition ends_id (rest : string) : bool :=
  match rest with
  | "" => true
  | String c _ => negb (Youtube.id_char c)
  end.

(** A word: a non-empty text without white space. *)
Definition is_word (s : string) : bool :=
  Js.truthy s && Youtube.all_chars (fun c => negb (Js.is_space c)) s.

(** The world after [res.status(c).json(v)]. *)
Definition answered (w : world) (c : Z) (v : json) : world :=
  {| res := {| statusCode := c; headers := headers (res w);
               headersSent := true; written := written (res w);
               body := Some v; ended := true |};
     calls := calls w;
     db := db w |}.

(** The world after the external call [c] has been made. *)
Definition called (w : world) (c : call) : world :=
  {| res := res w; calls := (calls w ++ [c])%list; db := db w |}.

(** No operation of the database is scheduled to fail. *)
Definition healthy (d : database) : Prop :=
  Forall (fun f => f = None) (faults d).

(** The notes collection a handler leaves behind. *)
Definition stored (w : world) : option (gmap string (gmap string json)) :=
  notes <$> db w.

(** The routes on one note, and all the routes modelled, behind the
    middleware of the router. *)
Definition item_routes (a : Firebase.auth) (authorization : option string)
    (now noteId : string) (body : gmap string json) : list (M unit) :=
  [Notes.get_note a authorization noteId;
   Notes.put_note a authorization now noteId body;
   Notes.delete_note a authorization noteId].

Definition note_routes (a : Firebase.auth) (authorization : option string)
    (created now newId noteId : string) (body : gmap string json)
    : list (M unit) :=
  Notes.post_note a authorization created now newId body
    :: item_routes a authorization now noteId body.

(** The fields of a stored note that the creation handler writes. *)
Definition note_fields : list string :=
  ["userId"; "title"; "content"; "tags"; "links"; "category"; "createdAt";
   "updatedAt"; "version"].

(** The usage map after [n] requests of [ip] on the day [today] have been
    through [dailyQuotaCheck limit]. *)
Fixpoint served (limit : Z) (ip today : string) (n : nat)
    (daily : gmap string Z) : gmap string Z :=
  match n with
  | O => daily
  | S k =>
      served limit ip today k
        (fst (Security.dailyQuotaCheck limit ip today daily (ret tt)))
  end.

(** The first truthy one of the three places a key is read from. *)
Definition presented (x_api_key x_admin_key query_apiKey : option string)
    : option string :=
  Security.or_else (Security.or_else x_api_key x_admin_key) query_apiKey.

End Spec.

(* ================================================================== *)
(** * Sample collaborators and requests *)
(* ================================================================== *)

Module Samples.
Import Http Relay Services.

(** A completion service that streams the given chunks and then ends or
    breaks, and answers non-streaming calls with [reply]. *)
Definition llm_of (chunks : list chunk) (fails : option error)
    (reply : outcome (option string)) : llm :=
  {| create_stream := fun _ => Ok {| delivered := chunks; failure := fails |};
     create_message := fun _ => reply |}.

(** A completion service that is down. *)
Definition llm_down (e : error) : llm :=
  {| create_stream := fun _ => Throw e;
     create_message := fun _ => Throw e |}.

Definition no_env : env :=
  {| MAX_CONTENT_LENGTH := None; CRAWL_TIMEOUT := None |}.

Definition boom : error := plain_error "upstream closed".

Definition think_example : string :=
  "A<think>ignored" ++ nl ++ "more</think>B".

Definition two_blocks : list Spec.block :=
  [ {| Spec.before := "A "; Spec.opening := "<think>";
       Spec.inside := "one"; Spec.closing := "</think>" |};
    {| Spec.before := "B "; Spec.opening := "<THINK>";
       Spec.inside := "two < three"; Spec.closing := "</Think>" |} ].

(** A site that serves one page, parsed as [doc]. *)
Definition web_of (doc : list Dom.node) : WebSummary.web :=
  {| WebSummary.load := fun _ => doc;
     WebSummary.url_protocol := fun _ => Some "https:";
     WebSummary.http_get := fun _ _ => Ok "<html>";
     WebSummary.now := "2024-01-01T00:00:00.000Z" |}.

Definition page (main_text : string) (rest : list Dom.node) : list Dom.node :=
  [Dom.Element "html" []
     [Dom.Element "head" [] [Dom.Element "title" [] [Dom.Text "News"]];
      Dom.Element "body" []
        (Dom.Element "main" [] [Dom.Text main_text] :: rest)]].

Definition sidebar : Dom.node :=
  Dom.Element "div" [("class", "sidebar")] [Dom.Text "menu"].


(** The same note stored with version 2^53, from which on not every
    integer is a double. *)
Definition big_version_note : database :=
  {| notes := {[ "n1" := {[ "userId" := JStr "u1"; "title" := JStr "Plan";
                            "content" := JStr "old";
                            "version" := JNum 9007199254740992 ]} ]};
     faults := [] |}.

(** [JSON.stringify] of an object whose values are strings without
    characters to escape. *)
Definition quoted (s : string) : string :=
  String (ascii_of_nat 34) s ++ String (ascii_of_nat 34) "".

Definition stringify (fields : list (string * string)) : string :=
  "{" ++ Js.join "," (map (fun kv => quoted (fst kv) ++ ":" ++ quoted (snd kv)) fields)
      ++ "}".

Definition haiku_body : string :=
  stringify [("content", "some text"); ("summary_type", "haiku")].

Definition new_content_body : string := stringify [("content", "new")].

(** A token verifier that knows one token. *)
Definition auth_of (token uid : string) : Firebase.auth :=
  {| Firebase.verifyIdToken := fun t =>
       if String.eqb t token then Ok uid
       else Throw (plain_error "Decoding Firebase ID token failed") |}.

(** A caption track of one segment. *)
Definition captions_of (t : string) : Youtube.captions :=
  {| Youtube.fetchTranscript := fun _ =>
       Ok [{| Youtube.text := t; Youtube.offset := 0; Youtube.duration := 5 |}] |}.

Definition long_text : string := String.concat " " (List.repeat "word" 30).

(** A page with a short [main] and two paragraphs of 60 characters. *)
Definition paragraphs_page : list Dom.node :=
  [Dom.Element "html" []
     [Dom.Element "body" []
        [Dom.Element "main" [] [Dom.Text "Short."];
         Dom.Element "p" [] [Dom.Text (Js.repeat "a" 60)];
         Dom.Element "nav" [] [Dom.Element "p" [] [Dom.Text "menu"]];
         Dom.Element "p" [] [Dom.Text (Js.repeat "b" 60)]]]].

(** A page with a [main] and an [article] next to each other, and a
    sidebar. *)
Definition competing_page (main_text article_text : string) : list Dom.node :=
  [Dom.Element "html" []
     [Dom.Element "head" [] [Dom.Element "title" [] [Dom.Text "News"]];
      Dom.Element "body" []
        [Dom.Element "main" [] [Dom.Text main_text];
         Dom.Element "article" [] [Dom.Text article_text];
         sidebar]]].

Definition teaser : string := "Ten words that say what the story will be about.".

(** A site that does not answer, with error [e]. *)
Definition web_failing (e : error) : WebSummary.web :=
  {| WebSummary.load := fun _ => [];
     WebSummary.url_protocol := fun _ => Some "https:";
     WebSummary.http_get := fun _ _ => Throw e;
     WebSummary.now := "2024-01-01T00:00:00.000Z" |}.

Definition timeout_error : error :=
  {| message := "timeout of 10000ms exceeded"; code := Some "ECONNABORTED";
     http_response := None |}.

Definition not_found_error : error :=
  {| message := "Request failed with status code 404"; code := Some "ERR_BAD_REQUEST";
     http_response := Some (404, "Not Found") |}.

(** A video without captions: the fetch fails with [e]. *)
Definition captions_down (e : error) : Youtube.captions :=
  {| Youtube.fetchTranscript := fun _ => Throw e |}.

(** A caption track with one segment of two seconds per word. *)
Definition captions_words (ws : list string) : Youtube.captions :=
  {| Youtube.fetchTranscript := fun _ =>
       Ok (imap (fun i w => {| Youtube.text := w;
                               Youtube.offset := 2 * Z.of_nat i;
                               Youtube.duration := 2 |}) ws) |}.

Definition disabled_error : error :=
  plain_error "Transcript is disabled on this video".

(** A database holding one note of user [u1] and one of user [u2], whose
    second operation from now fails. *)
Definition two_notes : database :=
  {| notes := {[ "n1" := {[ "userId" := JStr "u1"; "title" := JStr "Plan" ]};
                 "n2" := {[ "userId" := JStr "u2"; "title" := JStr "Diary" ]} ]};
     faults := [None; None; None] |}.

Definition empty_db : database := {| notes := ∅; faults := [] |}.

Definition unavailable : error := plain_error "UNAVAILABLE: deadline exceeded".

Definition failing_db : database :=
  {| notes := notes two_notes; faults := [Some unavailable] |}.

End Samples.

(* ================================================================== *)
(** * Facts about strings *)
(* ================================================================== *)

Section StringFacts.

Lemma append_cons (c : ascii) (s t : string) :
  String c s ++ t = String c (s ++ t).
Proof. reflexivity. Qed.

Lemma append_nil_l (s : string) : "" ++ s = s.
Proof. reflexivity. Qed.

Lemma append_nil_r (s : string) : s ++ "" = s.
Proof.
  induction s as [|c s IH]; [done|]. by rewrite append_cons, IH.
Qed.

Lemma append_assoc (a b c : string) : (a ++ b) ++ c = a ++ b ++ c.
Proof.
  induction a as [|x a IH]; [done|]. by rewrite !append_cons, IH.
Qed.

Lemma length_append (a b : string) :
  String.length (a ++ b) = (String.length a + String.length b)%nat.
Proof.
  induction a as [|x a IH]; [done|]. rewrite append_cons. simpl. by rewrite IH.
Qed.

Lemma len_append (a b : string) : Js.len (a ++ b) = Js.len a + Js.len b.
Proof. unfold Js.len. rewrite length_append. lia. Qed.

Lemma len_nonneg (s : string) : 0 <= Js.len s.
Proof. unfold Js.len. lia. Qed.

Lemma truthy_ne (s : string) : s <> "" -> Js.truthy s = true.
Proof. by destruct s. Qed.

Lemma length_take (n : nat) (s : string) :
  String.length (Js.take n s) = Nat.min n (String.length s).
Proof.
  revert s. induction n as [|n IH]; intros [|c s]; simpl; try done.
  by rewrite IH.
Qed.

Lemma take_all (n : nat) (s : string) :
  (String.length s <= n)%nat -> Js.take n s = s.
Proof.
  revert s. induction n as [|n IH]; intros [|c s]; simpl; try done.
  - lia.
  - intros H. rewrite IH; [done|lia].
Qed.

Lemma take_min (n : nat) (s : string) :
  Js.take (Nat.min n (String.length s)) s = Js.take n s.
Proof.
  revert s. induction n as [|n IH]; intros [|c s]; simpl; try done.
  by rewrite IH.
Qed.

(** [s.substring(0, m)] is the prefix of [m] code units, the whole of [s]
    when [m] exceeds its length and nothing when [m] is negative. *)
Lemma substring_prefix (m : Z) (s : string) :
  Js.substring 0 m s = Js.take (Z.to_nat m) s.
Proof.
  unfold Js.substring. pose proof (len_nonneg s) as Hl.
  replace (Z.max 0 (Z.min 0 (Js.len s))) with 0 by lia.
  replace (Z.min 0 (Z.max 0 (Z.min m (Js.len s)))) with 0 by lia.
  replace (Z.max 0 (Z.max 0 (Z.min m (Js.len s))) - 0)
    with (Z.min (Z.max 0 m) (Js.len s)) by lia.
  simpl. unfold Js.len.
  replace (Z.to_nat (Z.min (Z.max 0 m) (Z.of_nat (String.length s))))
    with (Nat.min (Z.to_nat m) (String.length s)) by lia.
  apply take_min.
Qed.

End StringFacts.

(* ================================================================== *)
(** * The relay loop *)
(* ================================================================== *)

Section RelayFacts.
Import Http HttpNotations Relay Spec.

Lemma emit_nil w : emit [] w = w.
Proof.
  destruct w as [[] ? ?]; unfold emit; simpl.
  by rewrite orb_false_r, app_nil_r.
Qed.

Lemma emit_emit us vs w : emit vs (emit us w) = emit (us ++ vs) w.
Proof.
  unfold emit; simpl. rewrite <- app_assoc, <- orb_assoc.
  by destruct us, vs.
Qed.

Lemma write_emit v w : write v w = (Ok tt, emit [v] w).
Proof.
  unfold write, on_res, emit; simpl. by rewrite orb_true_r.
Qed.

Lemma write_end v w :
  res (snd ((write v ;;; end_) w))
  = {| statusCode := statusCode (res w); headers := headers (res w);
       headersSent := true; written := written (res w) ++ [v];
       body := body (res w); ended := true |}.
Proof. reflexivity. Qed.

Lemma for_chunks_run chunks : forall full w,
  for_chunks chunks full w
  = (Ok (full ++ String.concat "" (texts chunks)),
     emit (map delta (texts chunks)) w).
Proof.
  induction chunks as [|[content|] rest IH]; intros full w; simpl.
  - by rewrite emit_nil, append_nil_r.
  - destruct (Js.truthy content) eqn:Ht.
    + unfold bind. rewrite write_emit, IH, emit_emit. simpl.
      f_equal. f_equal.
      destruct (texts rest); simpl.
      * by rewrite !append_nil_r.
      * by rewrite append_assoc.
    + apply IH.
  - apply IH.
Qed.

Lemma for_await_run up full w :
  for_await up full w
  = (match failure up with
     | Some e => Throw e
     | None => Ok (full ++ String.concat "" (texts (delivered up)))
     end,
     emit (map delta (texts (delivered up))) w).
Proof.
  unfold for_await, bind. rewrite for_chunks_run.
  by destruct (failure up).
Qed.

Lemma texts_all_some ts :
  Forall (fun t => t <> "") ts -> texts (map Some ts) = ts.
Proof.
  induction 1 as [|t ts Ht _ IH]; simpl; [done|].
  destruct t; [done|]. simpl. by rewrite IH.
Qed.

End RelayFacts.

(* ================================================================== *)
(** * POST /api/ai/chat: the order of the frames *)
(* ================================================================== *)

Section ChatFacts.
Import Http HttpNotations Relay Services Spec.

Lemma delta_is_delta t : t <> "" -> is_delta (delta t) = true.
Proof. intros H. unfold is_delta, delta. simpl. by apply truthy_ne. Qed.

Lemma count_app p us vs : count p (us ++ vs) = (count p us + count p vs)%nat.
Proof. unfold count. by rewrite filter_app, length_app. Qed.

Lemma count_one p v : count p [v] = if p v then 1%nat else 0%nat.
Proof.
  unfold count. rewrite filter_cons, filter_nil.
  destruct (p v); by case_decide.
Qed.

Lemma count_deltas ts :
  Forall (fun t => t <> "") ts ->
  count is_delta (map delta ts) = length ts
  /\ count is_terminal (map delta ts) = 0%nat
  /\ count is_error_frame (map delta ts) = 0%nat.
Proof.
  induction 1 as [|t ts Ht _ (IH1 & IH2 & IH3)]; [done|].
  change (map delta (t :: ts)) with ([delta t] ++ map delta ts)%list.
  rewrite !count_app, IH1, IH2, IH3, !count_one.
  rewrite (delta_is_delta t Ht). simpl. done.
Qed.

Lemma relay_block_run msgs o closing :
  relay_block msgs o closing start
  = match o with
    | Throw e => (Throw e, streamed msgs [])
    | Ok up =>
        match failure up with
        | Some e => (Throw e, streamed msgs (delivered up))
        | None =>
            end_ (emit [closing (String.concat "" (texts (delivered up)))]
                    (streamed msgs (delivered up)))
        end
    end.
Proof.
  unfold relay_block. unfold bind at 1.
  unfold sse_headers, bind, setHeader, on_res, await. simpl.
  destruct o as [up|e]; [|done].
  rewrite for_await_run. fold (streamed msgs (delivered up)).
  destruct (failure up); [done|].
  rewrite append_nil_l. unfold emit at 1. simpl. by rewrite orb_true_r.
Qed.

Lemma chat_try_block ai p :
  p <> "" ->
  Ai.chat_try ai {| Ai.prompt := Some p |}
  = relay_block (user p) (create_stream ai (user p))
      (fun full => Ai.done (Think.removeThinkBlocks full)).
Proof.
  intros Hp. unfold Ai.chat_try. simpl. by rewrite (truthy_ne p Hp).
Qed.

(** C1.  When the completion stream yields N chunks with non-empty text and
    then ends, the chat handler writes N delta frames, the frame of each
    chunk being the object whose only field is [content] with the text of
    that chunk, in the order of arrival; then one terminal frame, with an
    empty [content], [finished] and the cleaned whole text, which is the
    last frame written; and ends the response. *)
Theorem chat_stream_order (ai : llm) (p : string) (ts : list string) :
  p <> "" ->
  Forall (fun t => t <> "") ts ->
  create_stream ai [("user", p)]
    = Ok {| delivered := map Some ts; failure := None |} ->
  let r := res (run (Ai.chat ai {| Ai.prompt := Some p |})) in
  let terminal :=
    JObj [("content", JStr ""); ("finished", JBool true);
          ("fullResponse",
           JStr (Think.removeThinkBlocks (String.concat "" ts)))] in
  written r
    = (map (fun t => JObj [("content", JStr t)]) ts ++ [terminal])%list
  /\ map (field "content") (take (length ts) (written r))
     = map (fun t => Some (JStr t)) ts
  /\ count is_delta (written r) = length ts
  /\ count is_terminal (written r) = 1%nat
  /\ last (written r) = Some terminal
  /\ ended r = true.
Proof.
  intros Hp Hts Hup r terminal.
  change (create_stream ai (user p)
          = Ok {| delivered := map Some ts; failure := None |}) in Hup.
  change (map (fun t => JObj [("content", JStr t)]) ts) with (map delta ts).
  change terminal
    with (Ai.done (Think.removeThinkBlocks (String.concat "" ts))).
  clear terminal.
  assert (Hw : written r
    = (map delta ts
         ++ [Ai.done (Think.removeThinkBlocks (String.concat "" ts))])%list).
  { subst r. unfold run, Ai.chat, try_catch.
    rewrite (chat_try_block ai p Hp), relay_block_run, Hup. simpl.
    by rewrite (texts_all_some ts Hts). }
  destruct (count_deltas ts Hts) as (Hd & Ht & _).
  repeat split.
  - exact Hw.
  - rewrite Hw, take_app_length' by (by rewrite length_map).
    rewrite map_map. by apply map_ext.
  - rewrite Hw, count_app, Hd, count_one. simpl. lia.
  - rewrite Hw, count_app, Ht, count_one. done.
  - rewrite Hw. apply last_snoc.
  - subst r. unfold run, Ai.chat, try_catch.
    by rewrite (chat_try_block ai p Hp), relay_block_run, Hup.
Qed.

Lemma chat_stream_order_witness :
  let r := res (run (Ai.chat (Samples.llm_of [Some "Hel"; Some "lo"] None (Ok None))
                             {| Ai.prompt := Some "hi" |})) in
  written r
    = [JObj [("content", JStr "Hel")]; JObj [("content", JStr "lo")];
       JObj [("content", JStr ""); ("finished", JBool true);
             ("fullResponse", JStr "Hello")]]
  /\ map (field "content") (take 2 (written r))
     = [Some (JStr "Hel"); Some (JStr "lo")]
  /\ count is_delta (written r) = 2%nat
  /\ count is_terminal (written r) = 1%nat
  /\ last (written r)
     = Some (JObj [("content", JStr ""); ("finished", JBool true);
                   ("fullResponse", JStr "Hello")])
  /\ ended r = true.
Proof.
  apply (chat_stream_order
           (Samples.llm_of [Some "Hel"; Some "lo"] None (Ok None))
           "hi" ["Hel"; "lo"]).
  - discriminate.
  - repeat constructor; discriminate.
  - reflexivity.
Defined.

End ChatFacts.

(* ================================================================== *)
(** * Failures of the completion call in the streaming handlers *)
(* ================================================================== *)

Section FailureFacts.
Import Http HttpNotations Relay Services Spec.

Lemma error_frame_counts label e :
  is_error_frame (error_frame label e) = true
  /\ is_terminal (error_frame label e) = true
  /\ is_delta (error_frame label e) = false.
Proof. done. Qed.

Lemma count_texts chunks :
  count is_error_frame (map delta (texts chunks)) = 0%nat.
Proof.
  induction chunks as [|[c|] rest IH]; simpl; try done.
  destruct (Js.truthy c); [|done].
  change (map delta (c :: texts rest))
    with ([delta c] ++ map delta (texts rest))%list.
  by rewrite count_app, IH, count_one.
Qed.

Lemma headersSent_streamed msgs cs :
  headersSent (res (streamed msgs cs)) = negb (is_nil (texts cs)).
Proof. unfold streamed. simpl. by destruct (texts cs). Qed.

(** A streaming handler of the shape [relay_block] / [stream_catch] when
    the completion call fails. *)
Lemma stream_failure msgs o closing label fallback (cs : list chunk) (e : error) :
  breaks o cs e ->
  let failed := relay_block msgs o closing start in
  let r := res (run (try_catch (relay_block msgs o closing)
                               (stream_catch label fallback))) in
  fst failed = Throw e
  /\ headersSent (res (snd failed)) = negb (is_nil (texts cs))
  /\ (headersSent (res (snd failed)) = false ->
        statusCode r = 500
        /\ body r = Some (JObj [("error", JStr label);
                                ("message", JStr (or_str (message e) fallback))])
        /\ written r = []
        /\ ended r = true)
  /\ (headersSent (res (snd failed)) = true ->
        statusCode r = 200
        /\ body r = None
        /\ written r = (map delta (texts cs) ++ [error_frame label e])%list
        /\ count is_error_frame (written r) = 1%nat
        /\ ended r = true).
Proof.
  intros Hbreak failed r.
  assert (Hf : failed = (Throw e, streamed msgs cs)).
  { subst failed. rewrite relay_block_run.
    by destruct Hbreak as [[-> ->]| ->]. }
  subst r. unfold run, try_catch. fold failed. rewrite Hf.
  cbn [fst snd]. rewrite headersSent_streamed.
  unfold stream_catch, bind, get_headersSent.
  rewrite headersSent_streamed.
  unfold streamed, emit. simpl.
  destruct (texts cs) as [|t ts'] eqn:Htx; simpl.
  - repeat split; done.
  - repeat split; try done.
    pose proof (count_texts cs) as Hc. rewrite Htx in Hc.
    change (count is_error_frame
              (map delta (t :: ts') ++ [error_frame label e])%list = 1%nat).
    by rewrite count_app, Hc, count_one.
Qed.

#[local] Opaque WebSummary.extractMainContent.
#[local] Arguments WebSummary.promptTemplate : simpl never.
#[local] Arguments WebSummary.truncate : simpl never.
#[local] Arguments WebSummary.empty_content : simpl never.
#[local] Arguments WebSummary.isValidUrl : simpl never.
#[local] Arguments Services.user : simpl never.
#[local] Arguments Think.removeThinkBlocks : simpl never.

(** The web summarize handler when the completion call fails: the first
    status frame has gone out before, so the failure is always in-band. *)
Lemma web_summarize_failure (w : WebSummary.web) (ai : llm) (env : env)
    (url html : string) (st : option string) (cs : list chunk) (e : error) :
  let x := WebSummary.extractMainContent w html url in
  let req := {| WebSummary.summarize_url := Some url;
                WebSummary.summary_type := st |} in
  let failed := WebSummary.summarize_try w ai env req start in
  let r := res (run (WebSummary.summarize w ai env req)) in
  url <> "" ->
  WebSummary.isValidUrl w url = true ->
  WebSummary.http_get w url (WebSummary.crawl_timeout env) = Ok html ->
  WebSummary.empty_content x = false ->
  breaks (create_stream ai
            (user (WebSummary.promptTemplate (default "general" st)
                     (WebSummary.title x) url
                   ++ WebSummary.truncate env (WebSummary.content x)))) cs e ->
  fst failed = Throw e
  /\ headersSent (res (snd failed)) = true
  /\ statusCode r = 200
  /\ body r = None
  /\ written r
     = ([WebSummary.extracting; WebSummary.summarizing (WebSummary.title x)]
          ++ map delta (texts cs)
          ++ [error_frame "Web summarization failed" e])%list
  /\ count is_error_frame (written r) = 1%nat
  /\ ended r = true.
Proof.
  intros x req failed r Hurl Hvalid Hget Hempty Hbreak.
  assert (Hf : fst failed = Throw e
               /\ headersSent (res (snd failed)) = true
               /\ statusCode (res (snd failed)) = 200
               /\ body (res (snd failed)) = None
               /\ ended (res (snd failed)) = false
               /\ written (res (snd failed))
                  = ([WebSummary.extracting;
                      WebSummary.summarizing (WebSummary.title x)]
                       ++ map delta (texts cs))%list).
  { subst failed req. unfold WebSummary.summarize_try. simpl.
    rewrite (truthy_ne url Hurl), Hvalid. simpl.
    unfold bind at 1. unfold sse_headers, bind, setHeader, write, on_res, await.
    simpl. rewrite Hget. fold x. rewrite Hempty.
    destruct Hbreak as [[-> ->]| ->]; simpl; [done|].
    rewrite for_await_run. simpl. done. }
  destruct Hf as (Hthrow & Hsent & Hstatus & Hbody & Hend & Hw).
  assert (Hr : r = res (snd ((write (error_frame "Web summarization failed" e)
                                ;;; end_) (snd failed)))).
  { subst r. unfold run, WebSummary.summarize, try_catch. fold failed.
    destruct failed as [o wf]. simpl in *. subst o.
    unfold WebSummary.summarize_catch, bind at 1, get_headersSent.
    by rewrite Hsent. }
  split; [exact Hthrow|]. split; [exact Hsent|].
  rewrite Hr, write_end. cbn [statusCode body written ended].
  rewrite Hstatus, Hbody, Hw.
  split; [done|]. split; [done|].
  split; [by rewrite <- app_assoc|]. split; [|done].
  rewrite count_app, count_one.
  change ([WebSummary.extracting; WebSummary.summarizing (WebSummary.title x)]
            ++ map delta (texts cs))%list
    with ([WebSummary.extracting] ++ [WebSummary.summarizing (WebSummary.title x)]
            ++ map delta (texts cs))%list.
  by rewrite !count_app, count_texts, !count_one.
Qed.

#[local] Transparent WebSummary.extractMainContent.

Lemma generate_note_try_block ai req p :
  Ai.note_prompt req = Some p ->
  p <> "" ->
  Ai.generate_note_try ai req
  = relay_block (user (Ai.note_fullPrompt req p))
      (create_stream ai (user (Ai.note_fullPrompt req p)))
      (fun full => Ai.done (Think.removeThinkBlocks full)).
Proof.
  intros Hreq Hp. unfold Ai.generate_note_try. rewrite Hreq.
  by rewrite (truthy_ne p Hp).
Qed.

(** C3.  In the three streaming handlers a failure of the completion call
    is reported by an HTTP error status when it happens while the headers
    are unsent, and otherwise by one error frame after the frames already
    written, at the status already sent, after which the response ends.
    In the chat and generate-note handlers the headers are unsent exactly
    when no delta frame has gone out; in the web summarize handler they
    are always sent by then. *)
Theorem stream_failure_reporting :
  (forall (ai : llm) (p : string) (cs : list chunk) (e : error),
     p <> "" ->
     breaks (create_stream ai (user p)) cs e ->
     let req := {| Ai.prompt := Some p |} in
     let failed := Ai.chat_try ai req start in
     let r := res (run (Ai.chat ai req)) in
     fst failed = Throw e
     /\ headersSent (res (snd failed)) = negb (is_nil (texts cs))
     /\ (headersSent (res (snd failed)) = false ->
           synchronous_error r 500
             (JObj [("error", JStr "AI service error");
                    ("message", JStr (or_str (message e)
                                       "Failed to generate response"))]))
     /\ (headersSent (res (snd failed)) = true ->
           in_band_error r (map delta (texts cs)) "AI service error" e))
  /\ (forall (ai : llm) (req : Ai.note_body) (p : string) (cs : list chunk)
             (e : error),
     Ai.note_prompt req = Some p ->
     p <> "" ->
     breaks (create_stream ai (user (Ai.note_fullPrompt req p))) cs e ->
     let failed := Ai.generate_note_try ai req start in
     let r := res (run (Ai.generate_note ai req)) in
     fst failed = Throw e
     /\ headersSent (res (snd failed)) = negb (is_nil (texts cs))
     /\ (headersSent (res (snd failed)) = false ->
           synchronous_error r 500
             (JObj [("error", JStr "Note generation failed");
                    ("message", JStr (or_str (message e)
                                       "Failed to generate note content"))]))
     /\ (headersSent (res (snd failed)) = true ->
           in_band_error r (map delta (texts cs)) "Note generation failed" e))
  /\ (forall (w : WebSummary.web) (ai : llm) (env : env) (url html : string)
             (st : option string) (cs : list chunk) (e : error),
     let x := WebSummary.extractMainContent w html url in
     let req := {| WebSummary.summarize_url := Some url;
                   WebSummary.summary_type := st |} in
     let failed := WebSummary.summarize_try w ai env req start in
     let r := res (run (WebSummary.summarize w ai env req)) in
     url <> "" ->
     WebSummary.isValidUrl w url = true ->
     WebSummary.http_get w url (WebSummary.crawl_timeout env) = Ok html ->
     WebSummary.empty_content x = false ->
     breaks (create_stream ai
               (user (WebSummary.promptTemplate (default "general" st)
                        (WebSummary.title x) url
                      ++ WebSummary.truncate env (WebSummary.content x)))) cs e ->
     fst failed = Throw e
     /\ headersSent (res (snd failed)) = true
     /\ in_band_error r
          ([WebSummary.extracting; WebSummary.summarizing (WebSummary.title x)]
             ++ map delta (texts cs))
          "Web summarization failed" e).
Proof.
  split; [|split].
  - intros ai p cs e Hp Hbreak req failed r.
    subst failed r req. unfold Ai.chat.
    rewrite (chat_try_block ai p Hp).
    apply (stream_failure (user p) _ _ "AI service error"
             "Failed to generate response" cs e Hbreak).
  - intros ai req p cs e Hreq Hp Hbreak failed r.
    subst failed r. unfold Ai.generate_note.
    rewrite (generate_note_try_block ai req p Hreq Hp).
    apply (stream_failure _ _ _ "Note generation failed"
             "Failed to generate note content" cs e Hbreak).
  - intros w ai env url html st cs e x req failed r Hurl Hvalid Hget Hempty Hbreak.
    destruct (web_summarize_failure w ai env url html st cs e
                Hurl Hvalid Hget Hempty Hbreak) as (H1 & H2 & H3 & H4 & H5 & H6 & H7).
    split; [exact H1|]. split; [exact H2|].
    unfold in_band_error. rewrite <- app_assoc. by repeat split.
Qed.

Lemma stream_failure_reporting_witness :
  synchronous_error
    (res (run (Ai.chat (Samples.llm_down Samples.boom) {| Ai.prompt := Some "hi" |})))
    500
    (JObj [("error", JStr "AI service error");
           ("message", JStr "upstream closed")])
  /\ in_band_error
       (res (run (Ai.generate_note
                    (Samples.llm_of [Some "a"; None; Some "b"] (Some Samples.boom) (Ok None))
                    {| Ai.note_prompt := Some "hi"; Ai.context := None;
                       Ai.action := None |})))
       [delta "a"; delta "b"] "Note generation failed" Samples.boom
  /\ in_band_error
       (res (run (WebSummary.summarize
                    (Samples.web_of (Samples.page Samples.long_text [Samples.sidebar]))
                    (Samples.llm_down Samples.boom) Samples.no_env
                    {| WebSummary.summarize_url := Some "https://example.com";
                       WebSummary.summary_type := None |})))
       [WebSummary.extracting; WebSummary.summarizing "News"]
       "Web summarization failed" Samples.boom.
Proof.
  destruct stream_failure_reporting as (Hchat & Hnote & Hweb).
  split; [|split].
  - apply (Hchat (Samples.llm_down Samples.boom) "hi" [] Samples.boom).
    + discriminate.
    + left. split; reflexivity.
    + reflexivity.
  - apply (Hnote (Samples.llm_of [Some "a"; None; Some "b"] (Some Samples.boom) (Ok None))
             {| Ai.note_prompt := Some "hi"; Ai.context := None; Ai.action := None |}
             "hi" [Some "a"; None; Some "b"] Samples.boom).
    + reflexivity.
    + discriminate.
    + right. reflexivity.
    + reflexivity.
  - apply (Hweb (Samples.web_of (Samples.page Samples.long_text [Samples.sidebar]))
             (Samples.llm_down Samples.boom) Samples.no_env
             "https://example.com" "<html>" None [] Samples.boom).
    + discriminate.
    + reflexivity.
    + reflexivity.
    + vm_compute. reflexivity.
    + left. split; reflexivity.
Defined.

End FailureFacts.

(* ================================================================== *)
(** * POST /api/ai/summarize *)
(* ================================================================== *)

Section SummarizeFacts.
Import Http HttpNotations Relay Services Spec.

#[local] Arguments Ai.fullPrompt : simpl never.
#[local] Arguments Think.removeThinkBlocks : simpl never.
#[local] Arguments Services.user : simpl never.

(** The handler on a request with content: one completion call, and the
    response decided by its result. *)
Lemma ai_summarize_run (ai : llm) (e : env) (s : string) (st : option string) :
  s <> "" ->
  let prompt := Ai.fullPrompt e (default "general" st) s in
  run (Ai.summarize ai e {| Ai.content := Some s; Ai.summary_type := st |})
  = {| res :=
         match create_message ai (user prompt) with
         | Ok completion =>
             {| statusCode := 200; headers := []; headersSent := true;
                written := [];
                body := Some (JObj
                  [("summary", JStr (Think.removeThinkBlocks
                                       (or_str (default "" completion) "")));
                   ("original_length", JNum (Js.len s));
                   ("summary_type", JStr (default "general" st));
                   ("truncated", JBool (Js.len s >? Ai.maxContentLength e))]);
                ended := true |}
         | Throw err =>
             {| statusCode := 500; headers := []; headersSent := true;
                written := [];
                body := Some (JObj
                  [("error", JStr "Summarization failed");
                   ("message", JStr (or_str (message err)
                                       "Failed to summarize content"))]);
                ended := true |}
         end;
       calls := [CallLlm false (user prompt)];
       db := None |}.
Proof.
  intros Hs prompt. unfold run, Ai.summarize, try_catch. simpl.
  rewrite (truthy_ne s Hs). unfold bind, await. simpl. fold prompt.
  by destruct (create_message ai (user prompt)).
Qed.

(** The handler on a request without content. *)
Lemma ai_summarize_no_content (ai : llm) (e : env) (c st : option string) :
  c = None \/ c = Some "" ->
  run (Ai.summarize ai e {| Ai.content := c; Ai.summary_type := st |})
  = {| res := {| statusCode := 400; headers := []; headersSent := true;
                 written := [];
                 body := Some (JObj
                   [("error", JStr "Content is required");
                    ("message", JStr "Please provide content to summarize")]);
                 ended := true |};
       calls := [];
       db := None |}.
Proof. by intros [-> | ->]. Qed.

Lemma truncatedContent_spec (e : env) (s : string) :
  Ai.truncatedContent e s
  = if Js.len s >? Ai.maxContentLength e
    then Js.take (Z.to_nat (Ai.maxContentLength e)) s ++ "...[content truncated]"
    else s.
Proof. unfold Ai.truncatedContent. by rewrite substring_prefix. Qed.

(** C4.  For a non-empty source text [s] and the configured maximum [M]
    (50000 when none is configured): the prompt sent to the completion
    service is the instruction followed by the embedded text; when [s] is
    longer than [M] the embedded text is the first [M] characters of [s]
    followed by the truncation marker and the response carries
    [truncated: true]; otherwise the embedded text is [s] and the response
    carries [truncated: false]. *)
Theorem summarize_truncation (ai : llm) (e : env) (s : string)
    (st : option string) (completion : option string) :
  let M := Ai.maxContentLength e in
  let embedded := Ai.truncatedContent e s in
  let prompt := Ai.promptTemplate (default "general" st) ++ embedded in
  let w := run (Ai.summarize ai e {| Ai.content := Some s; Ai.summary_type := st |}) in
  s <> "" ->
  create_message ai (user prompt) = Ok completion ->
  (MAX_CONTENT_LENGTH e = None -> M = 50000)
  /\ calls w = [CallLlm false (user prompt)]
  /\ (Js.len s > M ->
        embedded = Js.take (Z.to_nat M) s ++ "...[content truncated]"
        /\ body_field "truncated" (res w) = Some (JBool true))
  /\ (Js.len s <= M ->
        embedded = s
        /\ body_field "truncated" (res w) = Some (JBool false)).
Proof.
  intros M embedded prompt w Hs Hreply.
  subst w. rewrite (ai_summarize_run ai e s st Hs).
  change (Ai.fullPrompt e (default "general" st) s) with prompt.
  rewrite Hreply. unfold body_field. cbn [calls res body].
  subst embedded. rewrite truncatedContent_spec. fold M.
  split; [|split; [done|split]].
  - intros Hnone. subst M. unfold Ai.maxContentLength. by rewrite Hnone.
  - intros Hlen. assert ((Js.len s >? M) = true) as -> by lia. done.
  - intros Hlen. assert ((Js.len s >? M) = false) as -> by lia. done.
Qed.

Lemma summarize_truncation_witness :
  let e := {| MAX_CONTENT_LENGTH := Some 4; CRAWL_TIMEOUT := None |} in
  let ai := Samples.llm_of [] None (Ok (Some "short")) in
  let w := run (Ai.summarize ai e {| Ai.content := Some "abcdefgh";
                                     Ai.summary_type := Some "brief" |}) in
  Ai.truncatedContent e "abcdefgh" = "abcd...[content truncated]"
  /\ body_field "truncated" (res w) = Some (JBool true).
Proof.
  intros e ai w.
  destruct (summarize_truncation ai e "abcdefgh" (Some "brief") (Some "short"))
    as (_ & _ & Hlong & _).
  - discriminate.
  - reflexivity.
  - apply Hlong. reflexivity.
Defined.

Lemma validateContent_pass content next :
  Security.suspicious content = false ->
  Security.validateContent content next = next.
Proof. intros H. unfold Security.validateContent. by rewrite H. Qed.

Lemma validateContent_reject content next :
  Security.suspicious content = true ->
  run (Security.validateContent content next)
  = {| res := {| statusCode := 400; headers := []; headersSent := true;
                 written := [];
                 body := Some (JObj
                   [("error", JStr "Invalid content");
                    ("message", JStr "Request contains potentially harmful content")]);
                 ended := true |};
       calls := [];
       db := None |}.
Proof. intros H. unfold Security.validateContent. by rewrite H. Qed.

(** C8, as stated, fails: a summarize request whose style is none of the
    recognized names passes the content check and is answered with status
    200 after a completion call. *)
Lemma summarize_unknown_style_accepted :
  let ai := Samples.llm_of [] None (Ok (Some "short")) in
  let w := run (Server.ai_summarize ai Samples.no_env
                  Samples.haiku_body
                  {| Ai.content := Some "some text";
                     Ai.summary_type := Some "haiku" |}) in
  ~ In "haiku" recognized_styles
  /\ statusCode (res w) = 200
  /\ calls w = [CallLlm false
                  (user ("Provide a comprehensive summary of the following content:"
                         ++ nl ++ nl ++ "some text"))].
Proof.
  split; [|split]; try reflexivity.
  simpl. intros [H|[H|[H|[H|[]]]]]; discriminate.
Qed.

(** C8, amended.  On the summarize route the requests rejected with status
    400 before any completion call are those whose serialized body holds
    one of the patterns of [validateContent] and those without content.  A
    style other than [bullet_points] and [brief] is not rejected: the
    handler makes the completion call with the default instruction, and
    the status is that of the call's result. *)
Theorem summarize_validation (ai : llm) (e : env) (s : string)
    (st : option string) (serialized : string) :
  let prompt := "Provide a comprehensive summary of the following content:"
                  ++ nl ++ nl ++ Ai.truncatedContent e s in
  let route c raw :=
    run (Server.ai_summarize ai e raw
           {| Ai.content := c; Ai.summary_type := st |}) in
  s <> "" ->
  st <> Some "bullet_points" ->
  st <> Some "brief" ->
  Security.suspicious serialized = false ->
  calls (route (Some s) serialized) = [CallLlm false (user prompt)]
  /\ statusCode (res (route (Some s) serialized))
     = (if create_message ai (user prompt) is Ok _ then 200 else 500)
  /\ statusCode (res (route None serialized)) = 400
  /\ calls (route None serialized) = []
  /\ statusCode (res (route (Some "") serialized)) = 400
  /\ calls (route (Some "") serialized) = []
  /\ (forall c raw, Security.suspicious raw = true ->
        statusCode (res (route c raw)) = 400 /\ calls (route c raw) = []).
Proof.
  intros prompt route Hs Hb Hr Hpass. subst route. cbv beta.
  unfold Server.ai_summarize. rewrite !(validateContent_pass _ _ Hpass).
  rewrite (ai_summarize_run ai e s st Hs).
  assert (Ai.fullPrompt e (default "general" st) s = prompt) as ->.
  { subst prompt. unfold Ai.fullPrompt, Ai.promptTemplate.
    destruct st as [st|]; [|done]. simpl.
    destruct (String.eqb_spec st "bullet_points") as [->|_]; [done|].
    destruct (String.eqb_spec st "brief") as [->|_]; [done|].
    by rewrite !append_assoc. }
  cbn [calls res]. split; [done|]. split.
  { by destruct (create_message ai (user prompt)). }
  do 4 (split; [done|]).
  intros c raw Hraw. by rewrite (validateContent_reject _ _ Hraw).
Qed.

Lemma summarize_validation_witness :
  let ai := Samples.llm_of [] None (Ok (Some "short")) in
  let w := run (Server.ai_summarize ai Samples.no_env
                  Samples.haiku_body
                  {| Ai.content := Some "some text";
                     Ai.summary_type := Some "haiku" |}) in
  calls w = [CallLlm false
               (user ("Provide a comprehensive summary of the following content:"
                      ++ nl ++ nl ++ "some text"))]
  /\ statusCode (res w) = 200.
Proof.
  intros ai w.
  destruct (summarize_validation ai Samples.no_env "some text" (Some "haiku")
              Samples.haiku_body)
    as (Hcalls & Hstatus & _); try discriminate.
  - reflexivity.
  - split; [exact Hcalls|exact Hstatus].
Defined.

End SummarizeFacts.

(* ================================================================== *)
(** * extractVideoId *)
(* ================================================================== *)

Section VideoIdFacts.
Import Http Services Spec.

(** C5.  The three URL forms and the bare identifier of the video
    dQw4w9WgXcQ all yield that identifier; the URL pattern is tried before
    the pattern of a bare identifier of 11 letters, digits, hyphens and
    underscores, and the first pattern that matches decides; on
    "not a url" no pattern matches, [extractVideoId] throws, and the
    handler answers with status 400 without calling a collaborator. *)
Theorem extractVideoId_patterns :
  Youtube.extractVideoId "https://youtu.be/dQw4w9WgXcQ" = Ok "dQw4w9WgXcQ"
  /\ Youtube.extractVideoId "https://www.youtube.com/watch?v=dQw4w9WgXcQ"
     = Ok "dQw4w9WgXcQ"
  /\ Youtube.extractVideoId "https://www.youtube.com/embed/dQw4w9WgXcQ"
     = Ok "dQw4w9WgXcQ"
  /\ Youtube.extractVideoId "dQw4w9WgXcQ" = Ok "dQw4w9WgXcQ"
  /\ Youtube.extractVideoId "not a url"
     = Throw (plain_error "Invalid YouTube URL format")
  /\ (forall url,
        Youtube.extractVideoId url
        = match Youtube.match_url url with
          | Some group1 => Ok group1
          | None =>
              match Youtube.match_id url with
              | Some group1 => Ok group1
              | None => Throw (plain_error "Invalid YouTube URL format")
              end
          end)
  /\ (forall yt ai st,
        let w := run (Youtube.summarize yt ai
                        {| Youtube.videoUrl := Some "not a url";
                           Youtube.summaryType := st |}) in
        statusCode (res w) = 400
        /\ body_field "error" (res w) = Some (JStr "Invalid YouTube URL")
        /\ calls w = []).
Proof.
  repeat split; reflexivity.
Qed.

End VideoIdFacts.

(* ================================================================== *)
(** * POST /api/youtube-summary/summarize: the transcript excerpt *)
(* ================================================================== *)

Section ExcerptFacts.
Import Http HttpNotations Services Spec.

#[local] Arguments Js.join : simpl never.
#[local] Arguments Js.trim : simpl never.
#[local] Arguments Js.len : simpl never.
#[local] Arguments Js.split_spaces_length : simpl never.
#[local] Arguments Youtube.transcript_excerpt : simpl never.
#[local] Arguments Youtube.extractVideoId : simpl never.
#[local] Arguments Youtube.userPrompt : simpl never.
#[local] Arguments Youtube.systemPrompt : simpl never.
#[local] Arguments Youtube.videoDuration : simpl never.
#[local] Arguments Think.removeThinkBlocks : simpl never.
#[local] Arguments String.eqb : simpl never.

Lemma transcript_excerpt_spec (t : string) :
  Youtube.transcript_excerpt t
  = if Js.len t >? 1000 then Js.take 1000 t ++ "..." else t.
Proof.
  unfold Youtube.transcript_excerpt. rewrite substring_prefix.
  change (Z.to_nat 1000) with 1000%nat.
  destruct (Js.len t >? 1000) eqn:Hlen; [done|].
  rewrite append_nil_r. apply take_all.
  rewrite Z.gtb_ltb in Hlen. apply Z.ltb_ge in Hlen.
  unfold Js.len in Hlen. lia.
Qed.

Lemma len_transcript_excerpt (t : string) :
  Js.len (Youtube.transcript_excerpt t)
  = if Js.len t >? 1000 then 1003 else Js.len t.
Proof.
  rewrite transcript_excerpt_spec.
  destruct (Js.len t >? 1000) eqn:Hlen; [|done].
  apply Z.gtb_lt in Hlen.
  rewrite len_append. unfold Js.len in *. rewrite length_take.
  change (String.length "...") with 3%nat. lia.
Qed.

(** C9, as stated, fails: a transcript of 1001 characters is answered with
    a [fullTranscript] of 1003 characters. *)
Lemma summarize_video_excerpt_1003 :
  let w := run (Youtube.summarize
                  (Samples.captions_of (Js.repeat "a" 1001))
                  (Samples.llm_of [] None (Ok (Some "A summary.")))
                  {| Youtube.videoUrl := Some "dQw4w9WgXcQ";
                     Youtube.summaryType := None |}) in
  body_field "success" (res w) = Some (JBool true)
  /\ exists t, body_field "fullTranscript" (res w) = Some (JStr t)
                /\ Js.len t = 1003.
Proof.
  split; [by vm_compute|].
  eexists. split; [vm_compute; reflexivity|by vm_compute].
Qed.

(** C9, amended.  In every successful summarize-video response the
    [fullTranscript] field is the transcript itself when that has at most
    1000 characters, and otherwise its first 1000 characters followed by
    "..."; so it is at most 1003 characters long. *)
Theorem summarize_video_excerpt (yt : Youtube.captions) (ai : llm)
    (req : Youtube.summarize_body) :
  let w := run (Youtube.summarize yt ai req) in
  body_field "success" (res w) = Some (JBool true) ->
  exists url videoId transcriptData,
    let fullTranscript := Js.join " " (map Youtube.text transcriptData) in
    Youtube.videoUrl req = Some url
    /\ Youtube.extractVideoId url = Ok videoId
    /\ Youtube.fetchTranscript yt videoId = Ok transcriptData
    /\ body_field "fullTranscript" (res w)
       = Some (JStr (if Js.len fullTranscript >? 1000
                     then Js.take 1000 fullTranscript ++ "..."
                     else fullTranscript))
    /\ Js.len (Youtube.transcript_excerpt fullTranscript) <= 1003.
Proof.
  intros w. subst w. destruct req as [[url|] st]; [|done].
  unfold run, Youtube.summarize, Youtube.fetch_step, Youtube.missing_url,
    try_catch, bind, await, ret, status, json_, on_res, body_field.
  simpl.
  destruct (Js.truthy url); [|done]. simpl.
  destruct (Youtube.extractVideoId url) as [videoId|] eqn:Hid; [|done]. simpl.
  destruct (Youtube.fetchTranscript yt videoId) as [transcriptData|] eqn:Hfetch;
    [|done].
  set (fullTranscript := Js.join " " (map Youtube.text transcriptData)).
  destruct (negb (Js.truthy fullTranscript)
            || (Js.len (Js.trim fullTranscript) <? 10)); [done|]. simpl.
  destruct (create_message ai _); [|done]. simpl.
  intros _. exists url, videoId, transcriptData. fold fullTranscript.
  rewrite <- transcript_excerpt_spec.
  repeat split; try done.
  rewrite len_transcript_excerpt.
  destruct (Js.len fullTranscript >? 1000) eqn:Hlen; [lia|].
  rewrite Z.gtb_ltb in Hlen. apply Z.ltb_ge in Hlen. lia.
Qed.

Lemma summarize_video_excerpt_witness :
  exists url videoId transcriptData,
    Some "dQw4w9WgXcQ" = Some url
    /\ Youtube.extractVideoId url = Ok videoId
    /\ Youtube.fetchTranscript (Samples.captions_of Samples.long_text) videoId
       = Ok transcriptData
    /\ body_field "fullTranscript"
         (res (run (Youtube.summarize
                      (Samples.captions_of Samples.long_text)
                      (Samples.llm_of [] None (Ok (Some "A summary.")))
                      {| Youtube.videoUrl := Some "dQw4w9WgXcQ";
                         Youtube.summaryType := Some "bullet" |})))
       = Some (JStr (if Js.len (Js.join " " (map Youtube.text transcriptData))
                          >? 1000
                     then Js.take 1000 (Js.join " " (map Youtube.text transcriptData))
                            ++ "..."
                     else Js.join " " (map Youtube.text transcriptData)))
    /\ Js.len (Youtube.transcript_excerpt
                 (Js.join " " (map Youtube.text transcriptData))) <= 1003.
Proof.
  apply (summarize_video_excerpt
           (Samples.captions_of Samples.long_text)
           (Samples.llm_of [] None (Ok (Some "A summary.")))
           {| Youtube.videoUrl := Some "dQw4w9WgXcQ";
              Youtube.summaryType := Some "bullet" |}).
  vm_compute. reflexivity.
Defined.

End ExcerptFacts.

(* ================================================================== *)
(** * PUT /api/notes/:id *)
(* ================================================================== *)

Section NoteFacts.
Import Http HttpNotations Spec.







#[local] Arguments Notes.updateData : simpl never.
#[local] Arguments Notes.note_json : simpl never.
#[local] Arguments Notes.other_owner : simpl never.



(** At version 2^53 the addition of 1 is absorbed: the update stores the
    version it found. *)
Lemma put_note_version_absorbed :
  let w := run_with (Some Samples.big_version_note)
             (Server.notes_put (Samples.auth_of "t0ken" "u1")
                Samples.new_content_body (Some "Bearer t0ken")
                "2024-01-01T00:00:00.000Z" "n1"
                {[ "content" := JStr "new" ]}) in
  body_field "success" (res w) = Some (JBool true)
  /\ (db w ≫= (fun d' => notes d' !! "n1")) ≫= (.!! "version")
     = Some (JNum 9007199254740992).
Proof. by vm_compute. Qed.




End NoteFacts.

(* ================================================================== *)
(** * extractMainContent and POST /api/web-summary/extract *)
(* ================================================================== *)

Section ExtractFacts.
Import Http HttpNotations Services Spec.

#[local] Arguments Js.trim : simpl never.
#[local] Arguments Js.len : simpl never.
#[local] Arguments Js.collapse_spaces : simpl never.
#[local] Arguments Dom.select : simpl never.
#[local] Arguments Dom.remove : simpl never.
#[local] Arguments Dom.text : simpl never.

Lemma try_selector_keep doc content sel :
  (Dom.select sel doc <> [] -> Js.len (candidate doc sel) <= Js.len content) ->
  WebSummary.try_selector doc content sel = content.
Proof.
  intros H. unfold WebSummary.try_selector.
  destruct (Dom.select sel doc) as [|n ns] eqn:Hsel; [done|].
  unfold candidate in H. rewrite Hsel in H.
  replace (Js.len (Js.trim (Dom.text (n :: ns))) >? Js.len content) with false.
  - by rewrite andb_false_r.
  - symmetry. rewrite Z.gtb_ltb. apply Z.ltb_ge. by apply H.
Qed.

Lemma fold_selectors_keep doc sels : forall content,
  (forall sel, In sel sels -> Dom.select sel doc <> [] ->
     Js.len (candidate doc sel) <= Js.len content) ->
  fold_left (WebSummary.try_selector doc) sels content = content.
Proof.
  induction sels as [|sel sels IH]; intros content H; [done|].
  simpl. rewrite try_selector_keep.
  - apply IH. intros s Hs. apply H. by right.
  - apply H. by left.
Qed.

Lemma too_short_false s : 100 <= Js.len s -> WebSummary.too_short s = false.
Proof.
  intros H. unfold WebSummary.too_short.
  replace (Js.len s <? 100) with false by (symmetry; by apply Z.ltb_ge).
  destruct s; [|done]. by vm_compute in H.
Qed.

(** C6, as stated, fails: a [main] element with a short text is the only
    candidate, and the content returned is the text of the whole body. *)
Lemma extract_short_main_falls_back :
  let w := Samples.web_of
             (Samples.page "Main story."
                [Dom.Element "div" [] [Dom.Text "Leftover links"]]) in
  main_is_longest (cleaned w "<html>")
  /\ candidate (cleaned w "<html>") [Dom.Tag "main"] = "Main story."
  /\ WebSummary.content (WebSummary.extractMainContent w "<html>" "https://example.com")
     = "Main story.Leftover links".
Proof.
  split; [|split]; try reflexivity.
  split; [discriminate|].
  intros sel Hsel Hne. exfalso. apply Hne.
  simpl in Hsel.
  destruct Hsel as [<-|[<-|[<-|[<-|[<-|[<-|[<-|[<-|[]]]]]]]]]; reflexivity.
Qed.

#[local] Opaque WebSummary.extractMainContent.

(** The extract handler on a valid URL whose page is fetched. *)
Lemma extract_run (w : WebSummary.web) (e : env) (url html : string) :
  url <> "" ->
  WebSummary.isValidUrl w url = true ->
  WebSummary.http_get w url (WebSummary.crawl_timeout e) = Ok html ->
  let x := WebSummary.extractMainContent w html url in
  run (WebSummary.extract w e {| WebSummary.extract_url := Some url |})
  = {| res :=
         {| statusCode := if WebSummary.empty_content x then 400 else 200;
            headers := []; headersSent := true; written := [];
            body := Some
              (if WebSummary.empty_content x then
                 JObj [("error", JStr "No content found");
                       ("message", JStr "Unable to extract meaningful content from the provided URL")]
               else
                 JObj [("success", JBool true);
                       ("data", WebSummary.extracted_json x);
                       ("stats",
                        JObj [("contentLength", JNum (Js.len (WebSummary.content x)));
                              ("extractedAt", JStr (WebSummary.now w))])]);
            ended := true |};
       calls := [CallGet url (WebSummary.crawl_timeout e)];
       db := None |}.
Proof.
  intros Hurl Hvalid Hget x.
  unfold run, WebSummary.extract, try_catch. simpl.
  rewrite (truthy_ne url Hurl), Hvalid. simpl.
  unfold bind, await. simpl. rewrite Hget. fold x.
  by destruct (WebSummary.empty_content x).
Qed.

(** C7.  When the page behind a valid URL is fetched and the content that
    [extractMainContent] returns for it has fewer than 50 characters, the
    extract handler answers with status 400 and the error "No content
    found", and returns no extracted data. *)
Theorem extract_empty_content (w : WebSummary.web) (e : env) (url html : string) :
  let r := res (run (WebSummary.extract w e {| WebSummary.extract_url := Some url |})) in
  url <> "" ->
  WebSummary.isValidUrl w url = true ->
  WebSummary.http_get w url (WebSummary.crawl_timeout e) = Ok html ->
  Js.len (WebSummary.content (WebSummary.extractMainContent w html url)) < 50 ->
  statusCode r = 400
  /\ body r = Some (JObj
       [("error", JStr "No content found");
        ("message", JStr "Unable to extract meaningful content from the provided URL")])
  /\ body_field "success" r = None
  /\ body_field "data" r = None
  /\ ended r = true.
Proof.
  intros r Hurl Hvalid Hget Hlen. subst r.
  rewrite (extract_run w e url html Hurl Hvalid Hget).
  assert (WebSummary.empty_content (WebSummary.extractMainContent w html url) = true)
    as ->.
  { unfold WebSummary.empty_content. apply orb_true_iff. right.
    by apply Z.ltb_lt. }
  by repeat split.
Qed.

#[local] Transparent WebSummary.extractMainContent.

Lemma extract_empty_content_witness :
  let r := res (run (WebSummary.extract
                       (Samples.web_of (Samples.page "Too short." []))
                       Samples.no_env
                       {| WebSummary.extract_url := Some "https://example.com" |})) in
  statusCode r = 400
  /\ body r = Some (JObj
       [("error", JStr "No content found");
        ("message", JStr "Unable to extract meaningful content from the provided URL")])
  /\ body_field "success" r = None
  /\ body_field "data" r = None
  /\ ended r = true.
Proof.
  apply (extract_empty_content
           (Samples.web_of (Samples.page "Too short." []))
           Samples.no_env "https://example.com" "<html>").
  - discriminate.
  - reflexivity.
  - reflexivity.
  - by vm_compute.
Defined.

End ExtractFacts.

(* ================================================================== *)
(** * removeThinkBlocks *)
(* ================================================================== *)

Section ThinkFacts.
Import Spec.

Lemma index_ci_eq p s :
  Js.index_ci p s
  = match Js.after_ci p s with
    | Some _ => Some 0%nat
    | None =>
        match s with
        | String _ r => option_map S (Js.index_ci p r)
        | "" => None
        end
    end.
Proof. by destruct s. Qed.

Lemma index_ci_cons_none p c r :
  Js.index_ci p (String c r) = None ->
  Js.after_ci p (String c r) = None /\ Js.index_ci p r = None.
Proof.
  rewrite index_ci_eq. destruct (Js.after_ci p (String c r)); [done|].
  by destruct (Js.index_ci p r).
Qed.

Lemma after_ci_length p : forall s r,
  Js.after_ci p s = Some r ->
  String.length s = (String.length p + String.length r)%nat.
Proof.
  induction p as [|a p IH]; intros s r H; simpl in *.
  - by injection H as ->.
  - destruct s as [|c s]; [done|].
    destruct (Js.eq_ci a c); [|done]. simpl. by rewrite (IH s r H).
Qed.

Lemma after_ci_drop p : forall s r,
  Js.after_ci p s = Some r -> r = Js.drop (String.length p) s.
Proof.
  induction p as [|a p IH]; intros s r H; simpl in *.
  - by injection H as ->.
  - destruct s as [|c s]; [done|].
    destruct (Js.eq_ci a c); [|done]. by apply IH.
Qed.

Lemma after_ci_app_some p : forall a r t,
  Js.after_ci p a = Some r -> Js.after_ci p (a ++ t) = Some (r ++ t).
Proof.
  induction p as [|x p IH]; intros a r t H; simpl in *.
  - by injection H as ->.
  - destruct a as [|c a]; [done|]. rewrite append_cons.
    destruct (Js.eq_ci x c); [|done]. by apply IH.
Qed.

(** A literal that does not match at the start of [b] does not match at
    the start of [b ++ t] either, when no proper suffix of the literal
    matches at the start of [t]. *)
Lemma after_ci_app_none p : forall b t,
  b <> "" ->
  Js.after_ci p b = None ->
  (forall k, (0 < k < String.length p)%nat -> Js.after_ci (Js.drop k p) t = None) ->
  Js.after_ci p (b ++ t) = None.
Proof.
  induction p as [|a p IH]; intros b t Hb Hnone Hguard; [done|].
  destruct b as [|c b]; [done|]. rewrite append_cons. simpl in *.
  destruct (Js.eq_ci a c); [|done].
  destruct b as [|c' b].
  - rewrite append_nil_l. destruct p as [|a' p]; [done|].
    apply (Hguard 1%nat). simpl. lia.
  - apply IH; [done|done|].
    intros k Hk. apply (Hguard (S k)). lia.
Qed.

Lemma index_ci_app p : forall b t,
  Js.index_ci p b = None ->
  (forall k, (0 < k < String.length p)%nat -> Js.after_ci (Js.drop k p) t = None) ->
  Js.index_ci p (b ++ t)
  = option_map (fun i => (String.length b + i)%nat) (Js.index_ci p t).
Proof.
  induction b as [|c b IH]; intros t Hnone Hguard.
  - rewrite append_nil_l. by destruct (Js.index_ci p t).
  - apply index_ci_cons_none in Hnone as [Hhere Hrest].
    rewrite append_cons, index_ci_eq.
    assert (Js.after_ci p (String c (b ++ t)) = None) as ->
      by (rewrite <- append_cons; by apply after_ci_app_none).
    rewrite (IH t Hrest Hguard).
    by destruct (Js.index_ci p t).
Qed.

Lemma index_ci_none_drop p : forall n s,
  Js.index_ci p s = None -> Js.index_ci p (Js.drop n s) = None.
Proof.
  induction n as [|n IH]; intros s H; [by destruct s|].
  destruct s as [|c s]; [done|]. simpl.
  apply IH. by apply index_ci_cons_none in H as [_ H].
Qed.

Lemma drop_app (a b : string) (n : nat) :
  Js.drop (String.length a + n) (a ++ b) = Js.drop n b.
Proof.
  induction a as [|c a IH]; [done|]. rewrite append_cons. by simpl.
Qed.

Lemma drop_exact (a b : string) (n : nat) :
  n = String.length a -> Js.drop n (a ++ b) = b.
Proof.
  intros ->. rewrite <- (Nat.add_0_r (String.length a)). by rewrite drop_app.
Qed.

Lemma replace_from_skip : forall s k,
  Think.replace_from k s = Think.replace_from 0 (Js.drop k s).
Proof.
  induction s as [|c s IH]; intros [|k]; try done.
  simpl Js.drop. rewrite <- IH. done.
Qed.

(** A text matched by a literal that starts with [<] starts with [<]. *)
Lemma starts_with_lt p s r :
  Js.after_ci (String "<" p) s = Some r ->
  exists c s', s = String c s' /\ Js.upper c = "<"%char.
Proof.
  destruct s as [|c s']; [done|]. simpl. unfold Js.eq_ci.
  destruct (Ascii.eqb_spec (Js.upper "<") (Js.upper c)) as [Heq|]; [|done].
  intros _. exists c, s'. split; [done|]. rewrite <- Heq. reflexivity.
Qed.

(** Neither delimiter overlaps a following delimiter: no proper suffix of
    it matches a text that starts with [<]. *)
Lemma open_guard c s k :
  Js.upper c = "<"%char ->
  (0 < k < String.length "<think>")%nat ->
  Js.after_ci (Js.drop k "<think>") (String c s) = None.
Proof.
  intros Hc Hk.
  do 7 (destruct k as [|k]; [try lia; simpl; unfold Js.eq_ci; by rewrite Hc|]).
  simpl in Hk. lia.
Qed.

Lemma close_guard c s k :
  Js.upper c = "<"%char ->
  (0 < k < String.length "</think>")%nat ->
  Js.after_ci (Js.drop k "</think>") (String c s) = None.
Proof.
  intros Hc Hk.
  do 8 (destruct k as [|k]; [try lia; simpl; unfold Js.eq_ci; by rewrite Hc|]).
  simpl in Hk. lia.
Qed.

Lemma empty_guard p : forall k,
  (k < String.length p)%nat -> Js.after_ci (Js.drop k p) "" = None.
Proof.
  induction p as [|a p IH]; intros k Hk; simpl in Hk; [lia|].
  destruct k as [|k]; [done|]. simpl. apply IH. lia.
Qed.

(** Text without an opening delimiter is copied, when the text behind it
    cannot complete a delimiter begun in it. *)
Lemma replace_from_prefix : forall pre t,
  no_open pre ->
  (forall k, (0 < k < String.length "<think>")%nat ->
     Js.after_ci (Js.drop k "<think>") t = None) ->
  Think.replace_from 0 (pre ++ t) = pre ++ Think.replace_from 0 t.
Proof.
  induction pre as [|c pre IH]; intros t Hpre Hguard; [done|].
  apply index_ci_cons_none in Hpre as [Hhere Hrest].
  rewrite !append_cons. cbn [Think.replace_from].
  unfold Think.match_here.
  assert (Js.after_ci "<think>" (String c (pre ++ t)) = None) as ->
    by (rewrite <- append_cons; by apply after_ci_app_none).
  by rewrite (IH t Hrest Hguard).
Qed.

Lemma replace_from_no_open s :
  no_open s -> Think.replace_from 0 s = s.
Proof.
  intros H. rewrite <- (append_nil_r s) at 1.
  rewrite (replace_from_prefix s "" H); [by rewrite append_nil_r|].
  intros k Hk. apply empty_guard. lia.
Qed.

(** Without a closing delimiter nothing matches. *)
Lemma replace_from_no_close : forall s,
  no_close s -> Think.replace_from 0 s = s.
Proof.
  induction s as [|c s IH]; intros H; [done|].
  cbn [Think.replace_from]. unfold Think.match_here.
  destruct (Js.after_ci "<think>" (String c s)) as [body|] eqn:Hopen.
  - apply after_ci_drop in Hopen as ->.
    rewrite (index_ci_none_drop _ _ _ H).
    apply index_ci_cons_none in H as [_ H]. by rewrite (IH H).
  - apply index_ci_cons_none in H as [_ H]. by rewrite (IH H).
Qed.

(** One block at the start of the text is dropped up to the end of its
    closing delimiter. *)
Lemma replace_from_block op body cl rest :
  is_open op -> no_close body -> is_close cl ->
  Think.replace_from 0 (op ++ body ++ cl ++ rest) = Think.replace_from 0 rest.
Proof.
  intros Hop Hbody Hcl.
  destruct (starts_with_lt _ _ _ Hcl) as (c & cl' & -> & Hc).
  pose proof (after_ci_length _ _ _ Hop) as Hlop.
  pose proof (after_ci_length _ _ _ Hcl) as Hlcl.
  assert (Hm : Think.match_here (op ++ body ++ String c cl' ++ rest)
               = Some (7 + String.length body + 8)%nat).
  { unfold Think.match_here.
    rewrite (after_ci_app_some _ _ _ _ Hop), append_nil_l.
    rewrite index_ci_app; [|done|intros k Hk; rewrite append_cons; by apply close_guard].
    rewrite index_ci_eq, (after_ci_app_some _ _ _ _ Hcl). simpl.
    by rewrite Nat.add_0_r. }
  destruct op as [|o op']; [done|].
  rewrite append_cons. cbn [Think.replace_from].
  rewrite <- append_cons, Hm. cbn [Nat.add].
  rewrite replace_from_skip. f_equal.
  simpl in Hlop, Hlcl.
  rewrite <- !append_assoc. apply drop_exact.
  rewrite !length_append. simpl. lia.
Qed.

Lemma replace_with_blocks blocks last :
  Forall well_formed blocks ->
  no_open last \/ no_close last ->
  Think.replace_think (with_blocks blocks last) = without_blocks blocks last.
Proof.
  intros Hblocks Hlast. unfold Think.replace_think.
  induction Hblocks as [|b bs (Hpre & Hop & Hbody & Hcl) _ IH]; simpl.
  - destruct Hlast; [by apply replace_from_no_open|by apply replace_from_no_close].
  - destruct (starts_with_lt _ _ _ Hop) as (c & op' & Heq & Hc).
    rewrite replace_from_prefix; [|done|].
    + by rewrite replace_from_block, IH.
    + intros k Hk. rewrite Heq, append_cons. by apply open_guard.
Qed.

(** C2, as stated, fails: of two nested blocks the text behind the inner
    closing delimiter stays, and a text with an unterminated block comes
    back changed, by the trimming and by the removal of complete blocks
    in front of it. *)
Lemma removeThinkBlocks_nested_unterminated :
  Think.removeThinkBlocks "<think>a<think>b</think>c</think>" = "c</think>"
  /\ Think.removeThinkBlocks " <think>never closed" = "<think>never closed"
  /\ Think.removeThinkBlocks "x<think>a</think>y<think>never closed"
     = "xy<think>never closed".
Proof. by vm_compute. Qed.

(** C2, amended.  [removeThinkBlocks] maps the example to "AB".  It
    removes every match of an opening delimiter, the shortest text up to
    the next closing delimiter and that delimiter, in any case, and trims
    the result: in a text made of blocks, each a text without an opening
    delimiter followed by an opening delimiter, a text without a closing
    delimiter and a closing delimiter, all blocks are removed, and the text
    behind the last block stays whole when it holds no opening or no
    closing delimiter; a block ends at its first closing delimiter,
    whatever it holds; a text without any closing delimiter is returned
    trimmed and otherwise unchanged. *)
Theorem removeThinkBlocks_blocks :
  Think.removeThinkBlocks Samples.think_example = "AB"
  /\ (forall text,
        Think.removeThinkBlocks text = Js.trim (Think.replace_think text))
  /\ (forall blocks last,
        Forall well_formed blocks -> no_open last \/ no_close last ->
        Think.removeThinkBlocks (with_blocks blocks last)
        = Js.trim (without_blocks blocks last))
  /\ (forall op body cl rest,
        is_open op -> no_close body -> is_close cl ->
        Think.replace_think (op ++ body ++ cl ++ rest)
        = Think.replace_think rest)
  /\ (forall text, no_close text -> Think.removeThinkBlocks text = Js.trim text).
Proof.
  assert (Htrim : forall text,
            Think.removeThinkBlocks text = Js.trim (Think.replace_think text)).
  { intros [|c text]; reflexivity. }
  split; [reflexivity|]. split; [exact Htrim|]. split; [|split].
  - intros blocks last Hblocks Hlast.
    by rewrite Htrim, replace_with_blocks.
  - intros op body cl rest Hop Hbody Hcl. by apply replace_from_block.
  - intros text Hclose. rewrite Htrim. unfold Think.replace_think.
    by rewrite replace_from_no_close.
Qed.

Lemma removeThinkBlocks_blocks_witness :
  Think.removeThinkBlocks (with_blocks Samples.two_blocks "C <think>never closed ")
  = "A B C <think>never closed"
  /\ Think.removeThinkBlocks "  <think>never closed" = "<think>never closed".
Proof.
  destruct removeThinkBlocks_blocks as (_ & _ & Hblocks & _ & Hopen).
  split.
  - rewrite (Hblocks Samples.two_blocks "C <think>never closed ").
    + reflexivity.
    + repeat constructor.
    + right. reflexivity.
  - rewrite (Hopen "  <think>never closed"); reflexivity.
Defined.

End ThinkFacts.

(* ================================================================== *)
(** * Trimming and white space *)
(* ================================================================== *)

Section TrimFacts.
Import Spec.

Lemma length_trimStart s : (String.length (Js.trimStart s) <= String.length s)%nat.
Proof.
  induction s as [|c s IH]; simpl; [done|].
  destruct (Js.is_space c); simpl; lia.
Qed.

Lemma length_trimEnd s : (String.length (Js.trimEnd s) <= String.length s)%nat.
Proof.
  induction s as [|c s IH]; simpl; [done|].
  destruct (Js.trimEnd s) as [|d r]; [destruct (Js.is_space c)|]; simpl in *; lia.
Qed.

Lemma len_trim s : Js.len (Js.trim s) <= Js.len s.
Proof.
  unfold Js.len, Js.trim.
  pose proof (length_trimEnd (Js.trimStart s)). pose proof (length_trimStart s).
  lia.
Qed.

Lemma starts_space_trimStart s : starts_space (Js.trimStart s) = false.
Proof.
  induction s as [|c s IH]; simpl; [done|].
  destruct (Js.is_space c) eqn:Hc; [done|]. simpl. by rewrite Hc.
Qed.

Lemma ends_space_trimEnd s : ends_space (Js.trimEnd s) = false.
Proof.
  induction s as [|c s IH]; simpl; [done|].
  destruct (Js.trimEnd s) as [|d r].
  - destruct (Js.is_space c) eqn:Hc; simpl; [done|by rewrite Hc].
  - exact IH.
Qed.

(** [trimEnd] keeps the first character of what it returns. *)
Lemma trimEnd_head s d r :
  Js.trimEnd s = String d r -> exists r0, s = String d r0.
Proof.
  destruct s as [|c s]; simpl; [done|].
  destruct (Js.trimEnd s); [destruct (Js.is_space c)|]; intros H; try done;
    injection H as -> _; by eexists.
Qed.

Lemma starts_space_trimEnd s :
  starts_space s = false -> starts_space (Js.trimEnd s) = false.
Proof.
  intros H. destruct (Js.trimEnd s) as [|d r] eqn:Ht; [done|].
  apply trimEnd_head in Ht as [r0 ->]. exact H.
Qed.

Lemma trim_trimmed s :
  starts_space (Js.trim s) = false /\ ends_space (Js.trim s) = false.
Proof.
  unfold Js.trim. split.
  - apply starts_space_trimEnd, starts_space_trimStart.
  - apply ends_space_trimEnd.
Qed.

Lemma tidy_trimStart s : tidy s = true -> tidy (Js.trimStart s) = true.
Proof.
  induction s as [|c s IH]; simpl; [done|].
  intros [_ Hs]%andb_true_iff.
  destruct (Js.is_space c) eqn:Hc; [by apply IH|].
  simpl. by rewrite Hc, Hs.
Qed.

Lemma tidy_trimEnd s : tidy s = true -> tidy (Js.trimEnd s) = true.
Proof.
  induction s as [|c s IH]; simpl; [done|].
  intros [Hc Hs]%andb_true_iff. specialize (IH Hs).
  destruct (Js.trimEnd s) as [|d r] eqn:Ht.
  - destruct (Js.is_space c) eqn:Hsp; simpl; [done|by rewrite Hsp].
  - apply trimEnd_head in Ht as Hhead. destruct Hhead as [r0 ->].
    change (tidy (String c (String d r)))
      with ((negb (Js.is_space c)
             || (Ascii.eqb c " " && negb (Js.is_space d)))
            && tidy (String d r)).
    simpl in Hc. by rewrite Hc, IH.
Qed.

Lemma tidy_collapse s : tidy (Js.collapse_spaces s) = true.
Proof.
  induction s as [|c s IH]; [done|].
  cbn [Js.collapse_spaces].
  destruct (Js.is_space c) eqn:Hc.
  - destruct s as [|d s]; [done|].
    destruct (Js.is_space d) eqn:Hd; [exact IH|].
    cbn [tidy]. rewrite IH.
    cbn [Js.collapse_spaces]. rewrite Hd. simpl. by rewrite Hd.
  - cbn [tidy]. by rewrite Hc, IH.
Qed.

Lemma normalized_trim_collapse s :
  normalized (Js.trim (Js.collapse_spaces s)) = true.
Proof.
  unfold normalized.
  destruct (trim_trimmed (Js.collapse_spaces s)) as [-> ->].
  unfold Js.trim. by rewrite tidy_trimEnd by apply tidy_trimStart, tidy_collapse.
Qed.

End TrimFacts.

(* ================================================================== *)
(** * More on removeThinkBlocks *)
(* ================================================================== *)

Section ThinkBounds.
Import Spec.

Lemma length_replace_from : forall s k,
  (String.length (Think.replace_from k s) <= String.length s)%nat.
Proof.
  induction s as [|c s IH]; intros k; [done|].
  cbn [Think.replace_from]. destruct k as [|k].
  - destruct (Think.match_here (String c s)) as [[|n]|]; simpl;
      try (specialize (IH 0%nat); lia).
    specialize (IH n). lia.
  - specialize (IH k). simpl. lia.
Qed.

(** X1.  The text returned by [removeThinkBlocks] is never longer than its
    argument, and it neither starts nor ends with white space. *)
Theorem removeThinkBlocks_shrinks_and_trims (text : string) :
  Js.len (Think.removeThinkBlocks text) <= Js.len text
  /\ starts_space (Think.removeThinkBlocks text) = false
  /\ ends_space (Think.removeThinkBlocks text) = false.
Proof.
  destruct text as [|c text]; [done|].
  change (Think.removeThinkBlocks (String c text))
    with (Js.trim (Think.replace_think (String c text))).
  split; [|apply trim_trimmed].
  pose proof (len_trim (Think.replace_think (String c text))) as H1.
  pose proof (length_replace_from (String c text) 0) as H2.
  unfold Think.replace_think, Js.len in *. lia.
Qed.

End ThinkBounds.

(* ================================================================== *)
(** * More on extractMainContent *)
(* ================================================================== *)

Section ExtractMore.
Import Http HttpNotations Services Spec.

(** X2.  The content returned by [extractMainContent] is plain text with
    collapsed white space: it neither starts nor ends with white space,
    and each white-space character in it is a single plain space.  The
    title returned is empty only when the URL is. *)
Theorem extracted_content_normalized (w : WebSummary.web) (html url : string) :
  let x := WebSummary.extractMainContent w html url in
  normalized (WebSummary.content x) = true
  /\ WebSummary.url x = url
  /\ (WebSummary.title x = "" -> url = "").
Proof.
  intros x. subst x. unfold WebSummary.extractMainContent.
  cbn [WebSummary.content WebSummary.url WebSummary.title].
  split; [apply normalized_trim_collapse|]. split; [done|].
  unfold or_str. by destruct (Js.trim _).
Qed.

Lemma too_short_len s : WebSummary.too_short s = (Js.len s <? 100).
Proof. by destruct s. Qed.

Lemma try_selector_cases doc content sel :
  WebSummary.try_selector doc content sel = content
  \/ WebSummary.try_selector doc content sel = candidate doc sel.
Proof.
  unfold WebSummary.try_selector, candidate.
  destruct (_ && _); [by right|by left].
Qed.

(** The loop over the selectors ends with the empty text or with the
    candidate of one of them. *)
Lemma fold_selectors_cases doc sels : forall content,
  fold_left (WebSummary.try_selector doc) sels content = content
  \/ exists sel, In sel sels
       /\ fold_left (WebSummary.try_selector doc) sels content = candidate doc sel.
Proof.
  induction sels as [|sel sels IH]; intros content; [by left|].
  simpl. destruct (IH (WebSummary.try_selector doc content sel)) as [->|(s & Hs & ->)].
  - destruct (try_selector_cases doc content sel) as [->| ->]; [by left|].
    right. exists sel. split; [by left|done].
  - right. exists s. split; [by right|done].
Qed.

(** X3.  When no content selector yields a text of 100 characters,
    [extractMainContent] returns the texts of the paragraphs, joined by
    blank lines, when they make up 100 characters, and otherwise the text
    of the body; either with its white space collapsed and trimmed. *)
Theorem extract_fallbacks (w : WebSummary.web) (html url : string) :
  let doc := cleaned w html in
  (forall sel, In sel WebSummary.mainSelectors -> Js.len (candidate doc sel) < 100) ->
  WebSummary.content (WebSummary.extractMainContent w html url)
  = Js.trim (Js.collapse_spaces
               (if Js.len (paragraph_text doc) <? 100
                then body_text doc else paragraph_text doc)).
Proof.
  intros doc Hshort.
  unfold WebSummary.extractMainContent. fold (cleaned w html). fold doc.
  cbn [WebSummary.content]. fold (paragraph_text doc). fold (body_text doc).
  assert (Hbest : WebSummary.too_short
                    (fold_left (WebSummary.try_selector doc)
                       WebSummary.mainSelectors "") = true).
  { rewrite too_short_len. apply Z.ltb_lt.
    destruct (fold_selectors_cases doc WebSummary.mainSelectors "")
      as [->|(sel & Hsel & ->)]; [done|by apply Hshort]. }
  rewrite Hbest, too_short_len.
  by destruct (Js.len (paragraph_text doc) <? 100).
Qed.

Lemma extract_fallbacks_witness :
  WebSummary.content
    (WebSummary.extractMainContent (Samples.web_of Samples.paragraphs_page)
       "<html>" "https://example.com")
  = Js.repeat "a" 60 ++ " " ++ Js.repeat "b" 60.
Proof.
  rewrite (extract_fallbacks (Samples.web_of Samples.paragraphs_page)
             "<html>" "https://example.com").
  - reflexivity.
  - intros sel Hsel. simpl in Hsel.
    destruct Hsel as [<-|[<-|[<-|[<-|[<-|[<-|[<-|[<-|[<-|[]]]]]]]]]]; by vm_compute.
Defined.

(** An element that the selector matches is removed wherever it is put. *)
Lemma remove_insert_at sel el :
  Dom.remove_node sel el = [] ->
  forall path doc,
  Dom.remove sel (insert_at path el doc) = Dom.remove sel doc.
Proof.
  intros Hel. unfold Dom.remove.
  induction path as [|i rest IH]; intros doc.
  - cbn [insert_at flat_map]. by rewrite Hel.
  - cbn [insert_at].
    transitivity (flat_map (Dom.remove_node sel) (take i doc ++ drop i doc));
      [|by rewrite take_drop].
    rewrite !flat_map_app. f_equal.
    destruct (drop i doc) as [|[data|tag attribs children] behind].
    + cbn [flat_map]. by rewrite Hel.
    + cbn [flat_map]. by rewrite Hel.
    + destruct rest as [|j rest].
      * cbn [flat_map]. by rewrite Hel.
      * cbn [flat_map Dom.remove_node].
        destruct (Dom.matches sel tag attribs); [done|].
        by rewrite IH.
Qed.

Lemma existsb_eqb_In (x : string) (l : list string) :
  In x l -> existsb (String.eqb x) l = true.
Proof.
  intros Hin. apply existsb_exists. exists x. split; [done|].
  apply String.eqb_refl.
Qed.

(** X4.  What [extractMainContent] returns does not depend on the noise
    elements of the page: a script, style, nav, header, footer or aside
    element, or an element of the class advertisement, ads, sidebar or
    navigation, put in anywhere in the page with whatever it holds,
    changes neither the content nor the title returned. *)
Theorem extract_ignores_noise (w : WebSummary.web) (html url : string)
    (path : list nat) (tag : string) (attribs : list (string * string))
    (children : list Dom.node) :
  In tag noise_tags
  \/ (exists cls, In cls noise_classes /\ has_class cls attribs) ->
  WebSummary.extractMainContent
    (with_inserted path (Dom.Element tag attribs children) w) html url
  = WebSummary.extractMainContent w html url.
Proof.
  intros Hnoise.
  assert (Hgone : Dom.remove_node WebSummary.noise
                    (Dom.Element tag attribs children) = []).
  { cbn [Dom.remove_node].
    assert (Dom.matches WebSummary.noise tag attribs = true) as ->; [|done].
    unfold Dom.matches. apply existsb_exists.
    destruct Hnoise as [Htag|(cls & Hcls & v & Hattr & Htoken)].
    - exists (Dom.Tag tag). split.
      + unfold noise_tags in Htag. unfold WebSummary.noise. simpl in *.
        destruct Htag as [<-|[<-|[<-|[<-|[<-|[<-|[]]]]]]]; tauto.
      + apply String.eqb_refl.
    - exists (Dom.Class cls). split.
      + unfold noise_classes in Hcls. unfold WebSummary.noise. simpl in *.
        destruct Hcls as [<-|[<-|[<-|[<-|[]]]]]; tauto.
      + cbn [Dom.matches_simple]. rewrite Hattr. by apply existsb_eqb_In. }
  unfold WebSummary.extractMainContent, with_inserted.
  cbn [WebSummary.load]. by rewrite (remove_insert_at _ _ Hgone).
Qed.

Lemma extract_ignores_noise_witness :
  WebSummary.extractMainContent
    (Samples.web_of
       (Samples.page Samples.long_text
          [Dom.Element "div" [("class", "wide ads")]
             [Dom.Element "article" [] [Dom.Text (Js.repeat "x" 200)]]]))
    "<html>" "https://example.com"
  = {| WebSummary.content := Samples.long_text;
       WebSummary.title := "News";
       WebSummary.url := "https://example.com" |}.
Proof.
  change (Samples.web_of
            (Samples.page Samples.long_text
               [Dom.Element "div" [("class", "wide ads")]
                  [Dom.Element "article" [] [Dom.Text (Js.repeat "x" 200)]]]))
    with (with_inserted [0; 1; 1]%nat
            (Dom.Element "div" [("class", "wide ads")]
               [Dom.Element "article" [] [Dom.Text (Js.repeat "x" 200)]])
            (Samples.web_of (Samples.page Samples.long_text []))).
  rewrite extract_ignores_noise.
  - reflexivity.
  - right. exists "ads". split; [simpl; tauto|].
    exists "wide ads". split; [reflexivity|simpl; tauto].
Defined.

End ExtractMore.

(* ================================================================== *)
(** * The longest candidate *)
(* ================================================================== *)

Section LongestCandidate.
Import Http HttpNotations Services Spec.

#[local] Arguments Js.trim : simpl never.
#[local] Arguments Js.len : simpl never.
#[local] Arguments Js.collapse_spaces : simpl never.
#[local] Arguments Dom.select : simpl never.
#[local] Arguments Dom.remove : simpl never.
#[local] Arguments Dom.text : simpl never.

Lemma try_selector_longer doc content sel :
  Dom.select sel doc <> [] ->
  Js.len content < Js.len (candidate doc sel) ->
  WebSummary.try_selector doc content sel = candidate doc sel.
Proof.
  intros Hsel Hlen. unfold WebSummary.try_selector.
  destruct (Dom.select sel doc) as [|n ns] eqn:Heq; [done|].
  unfold candidate in *. rewrite Heq in Hlen.
  replace (Js.len (Js.trim (Dom.text (n :: ns))) >? Js.len content) with true.
  - assert ((0 <? Z.of_nat (length (n :: ns))) = true) as ->
      by (apply Z.ltb_lt; simpl; lia).
    by rewrite Heq.
  - symmetry. by apply Z.gtb_lt.
Qed.

Lemma candidate_unmatched doc sel :
  Dom.select sel doc = [] -> candidate doc sel = "".
Proof. unfold candidate. by intros ->. Qed.

(** The loop, run over selectors none of which beats [sel], ends with the
    candidate of [sel] once it holds it or still has [sel] to come. *)
Lemma fold_selectors_longest doc sel sels : forall content,
  Dom.select sel doc <> [] ->
  (forall other, In other sels -> Dom.select other doc <> [] ->
     candidate doc other = candidate doc sel
     \/ Js.len (candidate doc other) < Js.len (candidate doc sel)) ->
  content = candidate doc sel
  \/ (Js.len content < Js.len (candidate doc sel) /\ In sel sels) ->
  fold_left (WebSummary.try_selector doc) sels content = candidate doc sel.
Proof.
  induction sels as [|s sels IH]; intros content Hsel Hothers Hcontent.
  - by destruct Hcontent as [->|[_ []]].
  - cbn [fold_left]. apply IH; [done|intros o Ho; apply Hothers; by right|].
    assert (Hmatch : Dom.select s doc = [] \/ Dom.select s doc <> [])
      by (destruct (Dom.select s doc); [by left|by right]).
    destruct Hcontent as [->|[Hlen Hin]].
    + left. apply try_selector_keep. intros Hs.
      destruct (Hothers s (or_introl eq_refl) Hs) as [->|Hlt]; lia.
    + destruct Hmatch as [Hnone|Hsome].
      * right. rewrite try_selector_keep by (by intros Hs).
        split; [done|]. by destruct Hin as [->|Hin].
      * destruct (Hothers s (or_introl eq_refl) Hsome) as [Heq|Hlt].
        -- left. rewrite try_selector_longer; [done|done|]. by rewrite Heq.
        -- right.
           assert (Hne : s <> sel) by (intros ->; lia).
           split; [|by destruct Hin as [->|Hin]].
           destruct (try_selector_cases doc content s) as [->| ->]; done.
Qed.

(** C6, amended.  Among the content selectors that match, after the
    removal of the noise elements, the one whose trimmed text is the
    longest is selected, whichever of them it is: when that text has at
    least 100 characters, [extractMainContent] returns it as content
    with its runs of white space collapsed to single spaces and trimmed.
    When it is shorter than 100 characters, it is replaced by the texts
    of the paragraphs joined by blank lines, or, when these are shorter
    than 100 characters too, by the text of the body. *)
Theorem extract_longest_candidate (w : WebSummary.web) (html url : string)
    (sel : Dom.selector) :
  let doc := cleaned w html in
  let best := candidate doc sel in
  let content := WebSummary.content (WebSummary.extractMainContent w html url) in
  is_longest doc sel ->
  (100 <= Js.len best -> content = Js.trim (Js.collapse_spaces best))
  /\ (Js.len best < 100 ->
        content
        = Js.trim (Js.collapse_spaces
                     (if Js.len (paragraph_text doc) <? 100
                      then body_text doc else paragraph_text doc))).
Proof.
  intros doc best content (Hin & Hsel & Hothers). subst content.
  unfold WebSummary.extractMainContent. fold (cleaned w html). fold doc.
  cbn [WebSummary.content]. fold (paragraph_text doc). fold (body_text doc).
  assert (Hb : candidate doc sel = best) by reflexivity.
  clearbody best. rewrite Hb in Hothers.
  split.
  - intros Hlen.
    assert (Hfold : fold_left (WebSummary.try_selector doc)
                      WebSummary.mainSelectors "" = best).
    { rewrite <- Hb. apply fold_selectors_longest; [done|by rewrite Hb|].
      right. split; [|done]. rewrite Hb. change (Js.len "") with 0. lia. }
    rewrite Hfold. by rewrite !(too_short_false best Hlen).
  - intros Hlen.
    assert (Hshort : WebSummary.too_short
                       (fold_left (WebSummary.try_selector doc)
                          WebSummary.mainSelectors "") = true).
    { rewrite too_short_len. apply Z.ltb_lt.
      destruct (fold_selectors_cases doc WebSummary.mainSelectors "")
        as [->|(s & Hs & ->)]; [done|].
      destruct (Dom.select s doc) as [|n ns] eqn:Hmatch.
      - by rewrite (candidate_unmatched doc s Hmatch).
      - destruct (Hothers s Hs) as [->|Hlt]; [by rewrite Hmatch|lia|lia]. }
    rewrite Hshort, too_short_len.
    by destruct (Js.len (paragraph_text doc) <? 100).
Qed.

Lemma extract_longest_candidate_witness :
  WebSummary.content
    (WebSummary.extractMainContent
       (Samples.web_of (Samples.competing_page Samples.long_text Samples.teaser))
       "<html>" "https://example.com")
  = Samples.long_text
  /\ WebSummary.content
       (WebSummary.extractMainContent
          (Samples.web_of (Samples.competing_page Samples.teaser Samples.long_text))
          "<html>" "https://example.com")
     = Samples.long_text.
Proof.
  split.
  - destruct (extract_longest_candidate
                (Samples.web_of
                   (Samples.competing_page Samples.long_text Samples.teaser))
                "<html>" "https://example.com" [Dom.Tag "main"]) as [Hlong _].
    + split; [simpl; tauto|]. split; [discriminate|].
      intros other Hother Hmatch. simpl in Hother.
      destruct Hother as [<-|[<-|[<-|[<-|[<-|[<-|[<-|[<-|[<-|[]]]]]]]]]];
        first [by left | by right | exfalso; by apply Hmatch].
    + rewrite Hlong; [reflexivity|by vm_compute].
  - destruct (extract_longest_candidate
                (Samples.web_of
                   (Samples.competing_page Samples.teaser Samples.long_text))
                "<html>" "https://example.com" [Dom.Tag "article"]) as [Hlong _].
    + split; [simpl; tauto|]. split; [discriminate|].
      intros other Hother Hmatch. simpl in Hother.
      destruct Hother as [<-|[<-|[<-|[<-|[<-|[<-|[<-|[<-|[<-|[]]]]]]]]]];
        first [by left | by right | exfalso; by apply Hmatch].
    + rewrite Hlong; [reflexivity|by vm_compute].
Defined.

End LongestCandidate.


(* ================================================================== *)
(** * More on the web-summary routes *)
(* ================================================================== *)

Section WebMore.
Import Http HttpNotations Relay Services Spec.

#[local] Opaque WebSummary.extractMainContent.
#[local] Arguments WebSummary.promptTemplate : simpl never.
#[local] Arguments WebSummary.truncate : simpl never.
#[local] Arguments WebSummary.empty_content : simpl never.
#[local] Arguments WebSummary.isValidUrl : simpl never.
#[local] Arguments WebSummary.crawl_timeout : simpl never.
#[local] Arguments Services.user : simpl never.
#[local] Arguments Think.removeThinkBlocks : simpl never.
#[local] Arguments Js.number : simpl never.



(** The extract handler when the fetch fails. *)
Lemma extract_fetch_failure (w : WebSummary.web) (e : env) (url : string)
    (err : error) :
  url <> "" ->
  WebSummary.isValidUrl w url = true ->
  WebSummary.http_get w url (WebSummary.crawl_timeout e) = Throw err ->
  run (WebSummary.extract w e {| WebSummary.extract_url := Some url |})
  = snd (WebSummary.report_failure "Content extraction failed"
           "Unable to extract content from the URL" err
           {| res := fresh; calls := [CallGet url (WebSummary.crawl_timeout e)];
              db := None |}).
Proof.
  intros Hurl Hvalid Hget.
  unfold run, WebSummary.extract, try_catch. simpl.
  rewrite (truthy_ne url Hurl), Hvalid. simpl.
  unfold bind at 1, await. simpl. by rewrite Hget.
Qed.

(** X6.  When the fetch of the page fails, the extract handler answers 408
    for a timeout ([ECONNABORTED]); otherwise, when the site answered, the
    status of that answer (500 for a status 0) with its status line as
    message; otherwise 500 with the error's message or a default one.  In
    each case the response ends and reports no success. *)
Theorem extract_failure_status (w : WebSummary.web) (e : env) (url : string)
    (err : error) :
  let r := res (run (WebSummary.extract w e {| WebSummary.extract_url := Some url |})) in
  url <> "" ->
  WebSummary.isValidUrl w url = true ->
  WebSummary.http_get w url (WebSummary.crawl_timeout e) = Throw err ->
  (code err = Some "ECONNABORTED" ->
     statusCode r = 408 /\ body_field "error" r = Some (JStr "Request timeout"))
  /\ (code err <> Some "ECONNABORTED" ->
      forall st statusText, http_response err = Some (st, statusText) ->
        statusCode r = (if st =? 0 then 500 else st)
        /\ body_field "error" r = Some (JStr "Failed to fetch content")
        /\ body_field "message" r
           = Some (JStr ("HTTP " ++ Js.number st ++ ": " ++ statusText)))
  /\ (code err <> Some "ECONNABORTED" -> http_response err = None ->
        statusCode r = 500
        /\ body_field "error" r = Some (JStr "Content extraction failed")
        /\ body_field "message" r
           = Some (JStr (or_str (message err)
                           "Unable to extract content from the URL")))
  /\ body_field "success" r = None
  /\ ended r = true.
Proof.
  intros r Hurl Hvalid Hget. subst r.
  rewrite (extract_fetch_failure w e url err Hurl Hvalid Hget).
  unfold WebSummary.report_failure.
  destruct (code err) as [c|] eqn:Hcode.
  - destruct (String.eqb_spec c "ECONNABORTED") as [->|Hne].
    + repeat split; try done.
    + destruct (http_response err) as [[st text]|] eqn:Hresp.
      * split; [intros [=]; done|]. split.
        { intros _ st' text' [= <- <-]. by repeat split. }
        by repeat split.
      * split; [intros [=]; done|]. by repeat split.
  - destruct (http_response err) as [[st text]|] eqn:Hresp.
    + split; [done|]. split.
      { intros _ st' text' [= <- <-]. by repeat split. }
      by repeat split.
    + split; [done|]. by repeat split.
Qed.

Lemma extract_failure_status_witness :
  statusCode (res (run (WebSummary.extract
                          (Samples.web_failing Samples.timeout_error) Samples.no_env
                          {| WebSummary.extract_url := Some "https://example.com" |})))
  = 408
  /\ statusCode (res (run (WebSummary.extract
                             (Samples.web_failing Samples.not_found_error) Samples.no_env
                             {| WebSummary.extract_url := Some "https://example.com" |})))
     = 404.
Proof.
  split.
  - destruct (extract_failure_status (Samples.web_failing Samples.timeout_error)
                Samples.no_env "https://example.com" Samples.timeout_error)
      as (H & _); [discriminate|reflexivity|reflexivity|].
    apply H. reflexivity.
  - destruct (extract_failure_status (Samples.web_failing Samples.not_found_error)
                Samples.no_env "https://example.com" Samples.not_found_error)
      as (_ & H & _); [discriminate|reflexivity|reflexivity|].
    destruct (H ltac:(discriminate) 404 "Not Found" eq_refl) as (Hs & _).
    exact Hs.
Defined.

(** The [try] block of the web summarize handler up to the fetch. *)
Lemma summarize_try_fetch (w : WebSummary.web) (ai : llm) (e : env)
    (url : string) (st : option string) :
  url <> "" ->
  WebSummary.isValidUrl w url = true ->
  WebSummary.summarize_try w ai e
    {| WebSummary.summarize_url := Some url; WebSummary.summary_type := st |} start
  = match WebSummary.http_get w url (WebSummary.crawl_timeout e) with
    | Throw err =>
        (Throw err,
         emit [WebSummary.extracting]
           (streamed_after [CallGet url (WebSummary.crawl_timeout e)]))
    | Ok html =>
        let x := WebSummary.extractMainContent w html url in
        let fullPrompt :=
          WebSummary.promptTemplate (default "general" st) (WebSummary.title x) url
            ++ WebSummary.truncate e (WebSummary.content x) in
        if WebSummary.empty_content x then
          end_ (emit [WebSummary.extracting; no_content_frame]
                  (streamed_after [CallGet url (WebSummary.crawl_timeout e)]))
        else
          match create_stream ai (user fullPrompt) with
          | Throw err =>
              (Throw err,
               emit [WebSummary.extracting; WebSummary.summarizing (WebSummary.title x)]
                 (streamed_after [CallGet url (WebSummary.crawl_timeout e);
                                  CallLlm true (user fullPrompt)]))
          | Ok up =>
              let w1 :=
                emit ([WebSummary.extracting; WebSummary.summarizing (WebSummary.title x)]
                        ++ map delta (texts (delivered up)))
                  (streamed_after [CallGet url (WebSummary.crawl_timeout e);
                                   CallLlm true (user fullPrompt)]) in
              match failure up with
              | Some err => (Throw err, w1)
              | None =>
                  end_ (emit [WebSummary.finalData w e x (default "general" st)
                                (Think.removeThinkBlocks
                                   (String.concat "" (texts (delivered up))))] w1)
              end
          end
    end.
Proof.
  intros Hurl Hvalid. unfold WebSummary.summarize_try. simpl.
  rewrite (truthy_ne url Hurl), Hvalid. simpl.
  unfold bind at 1. unfold sse_headers, bind, setHeader, write, on_res, await.
  simpl.
  destruct (WebSummary.http_get w url (WebSummary.crawl_timeout e)) as [html|err];
    [|done].
  simpl. destruct (WebSummary.empty_content _); [done|]. simpl.
  destruct (create_stream ai _) as [up|err]; [|done].
  rewrite for_await_run. simpl.
  destruct (failure up); [|rewrite append_nil_l]; unfold emit, streamed_after; simpl;
    by rewrite ?orb_true_r.
Qed.



(** X8.  In the web summarize handler every failure behind the first
    status frame is reported in the stream, at status 200.  When the fetch
    of the page fails, a timeout included, the handler writes one error
    frame with the error's message and ends; when the extracted content is
    empty or shorter than 50 characters it writes one "No content found"
    frame and ends.  In both cases the completion service is not called. *)
Theorem web_summarize_in_band (w : WebSummary.web) (ai : llm) (e : env)
    (url : string) (st : option string) :
  let wd := run (WebSummary.summarize w ai e
                   {| WebSummary.summarize_url := Some url;
                      WebSummary.summary_type := st |}) in
  url <> "" ->
  WebSummary.isValidUrl w url = true ->
  (forall err,
     WebSummary.http_get w url (WebSummary.crawl_timeout e) = Throw err ->
     written (res wd)
     = [WebSummary.extracting; error_frame "Web summarization failed" err])
  /\ (forall html,
     WebSummary.http_get w url (WebSummary.crawl_timeout e) = Ok html ->
     WebSummary.empty_content (WebSummary.extractMainContent w html url) = true ->
     written (res wd) = [WebSummary.extracting; no_content_frame])
  /\ ((exists err, WebSummary.http_get w url (WebSummary.crawl_timeout e) = Throw err)
      \/ (exists html,
            WebSummary.http_get w url (WebSummary.crawl_timeout e) = Ok html
            /\ WebSummary.empty_content (WebSummary.extractMainContent w html url)
               = true) ->
      statusCode (res wd) = 200
      /\ body (res wd) = None
      /\ ended (res wd) = true
      /\ calls wd = [CallGet url (WebSummary.crawl_timeout e)]).
Proof.
  intros wd Hurl Hvalid. subst wd.
  unfold run, WebSummary.summarize, try_catch.
  rewrite (summarize_try_fetch w ai e url st Hurl Hvalid).
  split; [|split].
  - intros err ->. reflexivity.
  - intros html -> Hempty. cbv zeta. by rewrite Hempty.
  - intros [[err ->]|(html & -> & Hempty)].
    + by repeat split.
    + cbv zeta. rewrite Hempty. by repeat split.
Qed.

Lemma web_summarize_in_band_witness :
  let wd := run (WebSummary.summarize
                   (Samples.web_failing Samples.timeout_error)
                   (Samples.llm_of [Some "text"] None (Ok None)) Samples.no_env
                   {| WebSummary.summarize_url := Some "https://example.com";
                      WebSummary.summary_type := None |}) in
  written (res wd)
  = [WebSummary.extracting;
     error_frame "Web summarization failed" Samples.timeout_error]
  /\ statusCode (res wd) = 200
  /\ calls wd = [CallGet "https://example.com" 10000].
Proof.
  intros wd.
  destruct (web_summarize_in_band
              (Samples.web_failing Samples.timeout_error)
              (Samples.llm_of [Some "text"] None (Ok None)) Samples.no_env
              "https://example.com" None)
    as (Hfetch & _ & Hrest); [discriminate|reflexivity|].
  split; [apply Hfetch; reflexivity|].
  destruct Hrest as (Hs & _ & _ & Hc);
    [left; by exists Samples.timeout_error|].
  split; [exact Hs|exact Hc].
Defined.

#[local] Transparent WebSummary.extractMainContent.

End WebMore.

(* ================================================================== *)
(** * Validation of the requests *)
(* ================================================================== *)

Section ValidationFacts.
Import Http HttpNotations Relay Services Spec.

(** X9.  A request whose required field is absent or empty (the prompt of
    chat and generate-note, the URL of extract and web summarize, the
    video URL of the video summary) is answered with status 400 and its
    own error, before any header is set, any frame is written or any
    collaborator is called. *)
Theorem missing_field_rejected (ai : llm) (w : WebSummary.web) (e : env)
    (yt : Youtube.captions) (context action st : option string) :
  Forall (fun v =>
    rejected (run (Ai.chat ai {| Ai.prompt := v |})) 400 "Prompt is required"
    /\ rejected (run (Ai.generate_note ai
                        {| Ai.note_prompt := v; Ai.context := context;
                           Ai.action := action |}))
         400 "Prompt is required"
    /\ rejected (run (WebSummary.extract w e {| WebSummary.extract_url := v |}))
         400 "URL is required"
    /\ rejected (run (WebSummary.summarize w ai e
                        {| WebSummary.summarize_url := v;
                           WebSummary.summary_type := st |}))
         400 "URL is required"
    /\ rejected (run (Youtube.summarize yt ai
                        {| Youtube.videoUrl := v; Youtube.summaryType := st |}))
         400 "Video URL is required")
    missing.
Proof. repeat constructor. Qed.

(** X10.  A URL that [new URL] does not parse, or whose protocol is
    neither [http:] nor [https:], is answered with status 400 "Invalid
    URL" by the extract and the web summarize handlers, and is not
    fetched. *)
Theorem invalid_url_rejected (ai : llm) (w : WebSummary.web) (e : env)
    (url : string) (st : option string) :
  url <> "" ->
  WebSummary.url_protocol w url <> Some "http:" ->
  WebSummary.url_protocol w url <> Some "https:" ->
  rejected (run (WebSummary.extract w e {| WebSummary.extract_url := Some url |}))
    400 "Invalid URL"
  /\ rejected (run (WebSummary.summarize w ai e
                      {| WebSummary.summarize_url := Some url;
                         WebSummary.summary_type := st |}))
       400 "Invalid URL".
Proof.
  intros Hurl Hhttp Hhttps.
  assert (Hinvalid : WebSummary.isValidUrl w url = false).
  { unfold WebSummary.isValidUrl.
    destruct (WebSummary.url_protocol w url) as [protocol|]; [|done].
    destruct (String.eqb_spec protocol "http:") as [->|_]; [done|].
    destruct (String.eqb_spec protocol "https:") as [->|_]; done. }
  unfold run, WebSummary.extract, WebSummary.summarize, WebSummary.summarize_try,
    try_catch.
  simpl. rewrite (truthy_ne url Hurl), Hinvalid. simpl.
  by repeat split.
Qed.

Lemma invalid_url_rejected_witness :
  let w := {| WebSummary.load := fun _ => [];
              WebSummary.url_protocol := fun _ => Some "ftp:";
              WebSummary.http_get := fun _ _ => Ok "<html>";
              WebSummary.now := "" |} in
  rejected (run (WebSummary.extract w Samples.no_env
                   {| WebSummary.extract_url := Some "ftp://example.com/a" |}))
    400 "Invalid URL".
Proof.
  intros w.
  apply (invalid_url_rejected (Samples.llm_down Samples.boom) w Samples.no_env
           "ftp://example.com/a" None); discriminate.
Defined.

End ValidationFacts.

(* ================================================================== *)
(** * More on extractVideoId *)
(* ================================================================== *)

Section VideoIdMore.
Import Http Spec.

Lemma after_app p x : Js.after p (p ++ x) = Some x.
Proof.
  induction p as [|a p IH]; [done|].
  rewrite append_cons. simpl. by rewrite Ascii.eqb_refl.
Qed.

Lemma take_while_app p id rest :
  Youtube.all_chars p id = true ->
  match rest with "" => true | String c _ => negb (p c) end = true ->
  Youtube.take_while p (id ++ rest) = id.
Proof.
  intros Hid Hrest. induction id as [|c id IH].
  - rewrite append_nil_l. destruct rest as [|d rest]; [done|].
    simpl. by apply negb_true_iff in Hrest as ->.
  - rewrite append_cons. simpl in *.
    apply andb_true_iff in Hid as [-> Hid]. by rewrite (IH Hid).
Qed.

Lemma capture_after_app prefix id rest :
  id <> "" ->
  Youtube.all_chars Youtube.id_char id = true ->
  ends_id rest = true ->
  Youtube.capture_after prefix (prefix ++ id ++ rest) = Some id.
Proof.
  intros Hne Hid Hrest. unfold Youtube.capture_after.
  rewrite after_app, (take_while_app _ id rest Hid Hrest). by destruct id.
Qed.

Lemma match_url_eq s :
  Youtube.match_url s
  = match Youtube.first_alternative Youtube.url_prefixes s with
    | Some v => Some v
    | None =>
        match s with
        | String _ r => Youtube.match_url r
        | "" => None
        end
    end.
Proof. by destruct s. Qed.

(** No alternative matches where the text does not start with [y]. *)
Lemma first_alternative_miss c s :
  Ascii.eqb "y" c = false ->
  Youtube.first_alternative Youtube.url_prefixes (String c s) = None.
Proof.
  intros Hc. unfold Youtube.first_alternative, Youtube.url_prefixes,
    Youtube.capture_after.
  cbn [Js.after]. by rewrite Hc.
Qed.

Lemma match_url_scan pre x :
  Youtube.all_chars (fun c => negb (Ascii.eqb "y" c)) pre = true ->
  Youtube.match_url (pre ++ x) = Youtube.match_url x.
Proof.
  induction pre as [|c pre IH]; [done|].
  intros H. cbn [Youtube.all_chars] in H.
  apply andb_true_iff in H as [Hc Hpre]. apply negb_true_iff in Hc.
  rewrite append_cons, match_url_eq, (first_alternative_miss _ _ Hc).
  by apply IH.
Qed.

(** Where one of the three alternatives starts, it is the one that
    matches. *)
Lemma match_url_hit alt id rest :
  In alt Youtube.url_prefixes ->
  id <> "" ->
  Youtube.all_chars Youtube.id_char id = true ->
  ends_id rest = true ->
  Youtube.match_url (alt ++ id ++ rest) = Some id.
Proof.
  intros Halt Hne Hid Hrest. rewrite match_url_eq.
  pose proof (capture_after_app alt id rest Hne Hid Hrest) as Hcap.
  unfold Youtube.url_prefixes, Youtube.first_alternative in *.
  destruct Halt as [<-|[<-|[<-|[]]]].
  - by rewrite Hcap.
  - change (Youtube.capture_after "youtube.com/watch?v="
              ("youtu.be/" ++ id ++ rest)) with (@None string).
    by rewrite Hcap.
  - change (Youtube.capture_after "youtube.com/watch?v="
              ("youtube.com/embed/" ++ id ++ rest)) with (@None string).
    change (Youtube.capture_after "youtu.be/"
              ("youtube.com/embed/" ++ id ++ rest)) with (@None string).
    by rewrite Hcap.
Qed.

(** X11.  From each usual URL form of a video, followed by a non-empty
    identifier free of [&], [?], [#] and line feeds and then by nothing or
    by a text that starts with one of these characters, [extractVideoId]
    returns the identifier. *)
Theorem extractVideoId_url_forms (id rest : string) :
  id <> "" ->
  Youtube.all_chars Youtube.id_char id = true ->
  ends_id rest = true ->
  Forall (fun form => Youtube.extractVideoId (form ++ id ++ rest) = Ok id)
    video_url_forms.
Proof.
  intros Hne Hid Hrest.
  assert (Hform : forall pre alt,
            Youtube.all_chars (fun c => negb (Ascii.eqb "y" c)) pre = true ->
            In alt Youtube.url_prefixes ->
            Youtube.extractVideoId (pre ++ alt ++ id ++ rest) = Ok id).
  { intros pre alt Hpre Halt.
    unfold Youtube.extractVideoId, Youtube.patterns, Youtube.first_match.
    by rewrite (match_url_scan pre _ Hpre), (match_url_hit alt id rest Halt Hne Hid Hrest). }
  unfold video_url_forms. repeat constructor.
  - apply (Hform "https://www." "youtube.com/watch?v="); [done|simpl; tauto].
  - apply (Hform "https://" "youtu.be/"); [done|simpl; tauto].
  - apply (Hform "https://www." "youtube.com/embed/"); [done|simpl; tauto].
  - apply (Hform "" "youtube.com/watch?v="); [done|simpl; tauto].
  - apply (Hform "" "youtu.be/"); [done|simpl; tauto].
  - apply (Hform "http://m." "youtube.com/watch?v="); [done|simpl; tauto].
Qed.

Lemma extractVideoId_url_forms_witness :
  Youtube.extractVideoId "https://youtu.be/dQw4w9WgXcQ?t=42" = Ok "dQw4w9WgXcQ"
  /\ Youtube.extractVideoId "https://www.youtube.com/watch?v=abc&list=PL1" = Ok "abc".
Proof.
  split.
  - pose proof (extractVideoId_url_forms "dQw4w9WgXcQ" "?t=42") as H.
    specialize (H ltac:(discriminate) eq_refl eq_refl).
    by inversion H as [|? ? _ H']; inversion H'.
  - pose proof (extractVideoId_url_forms "abc" "&list=PL1") as H.
    specialize (H ltac:(discriminate) eq_refl eq_refl).
    by inversion H.
Defined.

Lemma word_char_id_char c :
  Youtube.word_char c = true -> Youtube.id_char c = true.
Proof. destruct c as [[] [] [] [] [] [] [] []]; by vm_compute. Qed.

Lemma all_chars_impl (p q : ascii -> bool) s :
  (forall c, p c = true -> q c = true) ->
  Youtube.all_chars p s = true -> Youtube.all_chars q s = true.
Proof.
  intros Hpq. induction s as [|c s IH]; [done|]. simpl.
  intros [Hc Hs]%andb_true_iff. by rewrite (Hpq c Hc), (IH Hs).
Qed.

Lemma all_chars_app p a b :
  Youtube.all_chars p (a ++ b) = Youtube.all_chars p a && Youtube.all_chars p b.
Proof.
  induction a as [|c a IH]; [by rewrite append_nil_l|].
  rewrite append_cons. simpl. by rewrite IH, andb_assoc.
Qed.

Lemma take_while_all p s :
  Youtube.all_chars p (Youtube.take_while p s) = true.
Proof.
  induction s as [|c s IH]; [done|]. simpl.
  destruct (p c) eqn:Hc; [|done]. simpl. by rewrite Hc.
Qed.

Lemma capture_after_clean prefix s v :
  Youtube.capture_after prefix s = Some v ->
  v <> "" /\ Youtube.all_chars Youtube.id_char v = true.
Proof.
  unfold Youtube.capture_after. destruct (Js.after prefix s) as [rest|]; [|done].
  pose proof (take_while_all Youtube.id_char rest) as Hall.
  destruct (Youtube.take_while Youtube.id_char rest) as [|c r]; [done|].
  intros [= <-]. by split.
Qed.

Lemma first_alternative_clean prefixes s v :
  Youtube.first_alternative prefixes s = Some v ->
  v <> "" /\ Youtube.all_chars Youtube.id_char v = true.
Proof.
  induction prefixes as [|p ps IH]; [done|]. simpl.
  destruct (Youtube.capture_after p s) as [v'|] eqn:Hcap; [|done].
  intros [= <-]. by apply (capture_after_clean p s).
Qed.

Lemma match_url_clean s v :
  Youtube.match_url s = Some v ->
  v <> "" /\ Youtube.all_chars Youtube.id_char v = true.
Proof.
  induction s as [|c s IH]; rewrite match_url_eq;
    destruct (Youtube.first_alternative Youtube.url_prefixes _) as [v'|] eqn:Hfirst;
    try done.
  intros [= <-]. by apply (first_alternative_clean _ _ _ Hfirst).
Qed.

(** X12.  Whatever [extractVideoId] returns is not empty and holds none of
    the characters [&], [?], [#] and line feed. *)
Theorem extractVideoId_clean (url id : string) :
  Youtube.extractVideoId url = Ok id ->
  id <> "" /\ Youtube.all_chars Youtube.id_char id = true.
Proof.
  unfold Youtube.extractVideoId, Youtube.patterns, Youtube.first_match.
  destruct (Youtube.match_url url) as [v|] eqn:Hurl.
  - intros [= <-]. by apply (match_url_clean url).
  - unfold Youtube.match_id.
    destruct ((String.length url =? 11)%nat && Youtube.all_chars Youtube.word_char url)
      eqn:Hid; [|done].
    intros [= <-]. apply andb_true_iff in Hid as [Hlen Hword]. split.
    + intros ->. done.
    + by apply (all_chars_impl Youtube.word_char), Hword; apply word_char_id_char.
Qed.

Lemma extractVideoId_clean_witness :
  "abc" <> "" /\ Youtube.all_chars Youtube.id_char "abc" = true.
Proof.
  apply (extractVideoId_clean "see https://youtu.be/abc?t=1#top" "abc").
  reflexivity.
Defined.

Lemma after_Some_app p s r : Js.after p s = Some r -> s = p ++ r.
Proof.
  revert s. induction p as [|a p IH]; intros s; simpl.
  - intros [= ->]. by rewrite append_nil_l.
  - destruct s as [|b s]; [done|].
    destruct (Ascii.eqb a b) eqn:Hab; [|done].
    apply Ascii.eqb_eq in Hab as ->. intros ->%IH. by rewrite append_cons.
Qed.

Lemma capture_after_word prefix s :
  Youtube.all_chars Youtube.word_char prefix = false ->
  Youtube.all_chars Youtube.word_char s = true ->
  Youtube.capture_after prefix s = None.
Proof.
  intros Hprefix Hs. unfold Youtube.capture_after.
  destruct (Js.after prefix s) as [rest|] eqn:Hafter; [|done].
  apply after_Some_app in Hafter as ->.
  rewrite all_chars_app, Hprefix in Hs. done.
Qed.

Lemma match_url_word s :
  Youtube.all_chars Youtube.word_char s = true -> Youtube.match_url s = None.
Proof.
  assert (Hfirst : forall t, Youtube.all_chars Youtube.word_char t = true ->
            Youtube.first_alternative Youtube.url_prefixes t = None).
  { intros t Ht. unfold Youtube.first_alternative, Youtube.url_prefixes.
    by rewrite !capture_after_word. }
  induction s as [|c s IH]; intros Hs; rewrite match_url_eq, (Hfirst _ Hs); [done|].
  simpl in Hs. apply andb_true_iff in Hs as [_ Hs]. by apply IH.
Qed.

(** X13.  A text made of letters, digits, [_] and [-] only is taken for a
    video identifier exactly when it has 11 characters: it is then returned
    as it is, and refused otherwise. *)
Theorem extractVideoId_bare_id (s : string) :
  Youtube.all_chars Youtube.word_char s = true ->
  Youtube.extractVideoId s
  = if (String.length s =? 11)%nat then Ok s
    else Throw (plain_error "Invalid YouTube URL format").
Proof.
  intros Hs.
  unfold Youtube.extractVideoId, Youtube.patterns, Youtube.first_match,
    Youtube.match_id.
  rewrite (match_url_word s Hs), Hs, andb_true_r.
  by destruct (String.length s =? 11)%nat.
Qed.

Lemma extractVideoId_bare_id_witness :
  Youtube.extractVideoId "a-b_c-D_e-9" = Ok "a-b_c-D_e-9"
  /\ Youtube.extractVideoId "tooshort"
     = Throw (plain_error "Invalid YouTube URL format").
Proof.
  split.
  - by apply (extractVideoId_bare_id "a-b_c-D_e-9").
  - by apply (extractVideoId_bare_id "tooshort").
Defined.

End VideoIdMore.

(* ================================================================== *)
(** * The video routes: failures and the transcript route *)
(* ================================================================== *)

Section VideoMore.
Import Http HttpNotations Services Spec.

#[local] Arguments Js.join : simpl never.
#[local] Arguments Js.trim : simpl never.
#[local] Arguments Js.len : simpl never.
#[local] Arguments Js.split_spaces_length : simpl never.
#[local] Arguments Youtube.transcript_excerpt : simpl never.
#[local] Arguments Youtube.extractVideoId : simpl never.
#[local] Arguments Youtube.userPrompt : simpl never.
#[local] Arguments Youtube.systemPrompt : simpl never.
#[local] Arguments Youtube.videoDuration : simpl never.
#[local] Arguments Think.removeThinkBlocks : simpl never.
#[local] Arguments String.eqb : simpl never.

Lemma trim_nil : Js.trim "" = "".
Proof. reflexivity. Qed.

(** An empty transcript is a short one: the first test of the handler is
    implied by the second. *)
Lemma short_transcript t :
  negb (Js.truthy t) || (Js.len (Js.trim t) <? 10) = (Js.len (Js.trim t) <? 10).
Proof. by destruct t. Qed.



(** X15.  The failures of the video summary handler, for a request whose
    video identifier has been extracted: captions that cannot be fetched
    are answered with 404 and the message of the failure; captions whose
    trimmed text is shorter than 10 characters with 404; in both cases the
    completion service is not called.  A failing completion call is
    answered with 500 and the message of the failure. *)
Theorem video_summary_failures (yt : Youtube.captions) (ai : llm)
    (url videoId : string) (st : option string) :
  let w := run (Youtube.summarize yt ai
                  {| Youtube.videoUrl := Some url; Youtube.summaryType := st |}) in
  let summaryType := default "concise" st in
  url <> "" ->
  Youtube.extractVideoId url = Ok videoId ->
  (forall e, Youtube.fetchTranscript yt videoId = Throw e ->
     statusCode (res w) = 404
     /\ body_field "error" (res w) = Some (JStr "Transcript not available")
     /\ body_field "details" (res w) = Some (JStr (message e))
     /\ calls w = [CallTranscript videoId])
  /\ (forall transcriptData,
        Youtube.fetchTranscript yt videoId = Ok transcriptData ->
        Js.len (Js.trim (Js.join " " (map Youtube.text transcriptData))) < 10 ->
        statusCode (res w) = 404
        /\ body_field "error" (res w) = Some (JStr "No transcript available")
        /\ calls w = [CallTranscript videoId])
  /\ (forall transcriptData e,
        let fullTranscript := Js.join " " (map Youtube.text transcriptData) in
        let msgs := [("system", Youtube.systemPrompt summaryType);
                     ("user", Youtube.userPrompt summaryType fullTranscript)] in
        Youtube.fetchTranscript yt videoId = Ok transcriptData ->
        10 <= Js.len (Js.trim fullTranscript) ->
        create_message ai msgs = Throw e ->
        statusCode (res w) = 500
        /\ body_field "error" (res w) = Some (JStr "Failed to generate summary")
        /\ body_field "message" (res w) = Some (JStr (message e))
        /\ calls w = [CallTranscript videoId; CallLlm false msgs]).
Proof.
  intros w summaryType Hurl Hid. subst w summaryType.
  unfold run, Youtube.summarize, Youtube.fetch_step, Youtube.missing_url,
    try_catch, bind, await, ret, status, json_, on_res, body_field.
  simpl. rewrite (truthy_ne url Hurl), Hid. simpl.
  split; [|split].
  - intros e ->. by simpl.
  - intros transcriptData -> Hlen. rewrite short_transcript.
    apply Z.ltb_lt in Hlen. by rewrite Hlen.
  - intros transcriptData e -> Hlen Hllm.
    rewrite short_transcript. apply Z.ltb_ge in Hlen.
    rewrite Hlen. simpl. by rewrite Hllm.
Qed.

Lemma video_summary_failures_witness :
  let w := run (Youtube.summarize (Samples.captions_down Samples.disabled_error)
                  (Samples.llm_of [] None (Ok (Some "A summary.")))
                  {| Youtube.videoUrl := Some "dQw4w9WgXcQ";
                     Youtube.summaryType := None |}) in
  statusCode (res w) = 404
  /\ body_field "details" (res w)
     = Some (JStr "Transcript is disabled on this video")
  /\ calls w = [CallTranscript "dQw4w9WgXcQ"].
Proof.
  intros w.
  destruct (video_summary_failures (Samples.captions_down Samples.disabled_error)
              (Samples.llm_of [] None (Ok (Some "A summary.")))
              "dQw4w9WgXcQ" "dQw4w9WgXcQ" None)
    as [Hdown _]; [done|reflexivity|].
  destruct (Hdown Samples.disabled_error eq_refl) as (H1 & _ & H2 & H3).
  by repeat split.
Defined.

(** X16.  The transcript route refuses every video identifier that is not
    11 characters long with 400, and fetches nothing. *)
Theorem transcript_bad_id (yt : Youtube.captions) (videoId : string) :
  Js.len videoId <> 11 ->
  rejected (run (Youtube.transcript yt videoId)) 400 "Invalid video ID".
Proof.
  intros Hlen. apply Z.eqb_neq in Hlen.
  unfold rejected, run, Youtube.transcript, try_catch, bind, status, json_,
    on_res, body_field.
  simpl. rewrite Hlen, orb_true_r. by simpl.
Qed.

Lemma transcript_bad_id_witness :
  rejected (run (Youtube.transcript (Samples.captions_of "some words")
                   "https://youtu.be/dQw4w9WgXcQ"))
    400 "Invalid video ID".
Proof. by apply transcript_bad_id. Defined.

Lemma space_runs_word w s :
  Youtube.all_chars (fun c => negb (Js.is_space c)) w = true ->
  Js.space_runs (w ++ s) = Js.space_runs s.
Proof.
  induction w as [|c w IH]; [by rewrite append_nil_l|].
  rewrite append_cons. cbn [Youtube.all_chars Js.space_runs].
  intros [Hc Hw]%andb_true_iff. apply negb_true_iff in Hc. rewrite Hc.
  by apply IH.
Qed.

Lemma join_words_start w ws :
  is_word w = true ->
  starts_space (Js.join " " (w :: ws)) = false.
Proof.
  unfold is_word. destruct w as [|c w]; [done|].
  cbn [Js.truthy Youtube.all_chars andb].
  intros [Hc _]%andb_true_iff. apply negb_true_iff in Hc.
  unfold Js.join. by destruct ws.
Qed.

Lemma space_runs_space s :
  s <> "" -> starts_space s = false ->
  Js.space_runs (String " " s) = S (Js.space_runs s).
Proof.
  destruct s as [|d r]; [done|]. intros _ Hd. simpl in Hd.
  change (Js.space_runs (String " " (String d r)))
    with (if Js.is_space d then Js.space_runs (String d r)
          else S (Js.space_runs (String d r))).
  by rewrite Hd.
Qed.

Lemma space_runs_join ws :
  Forall (fun w => is_word w = true) ws ->
  Js.space_runs (Js.join " " ws) = pred (length ws).
Proof.
  induction 1 as [|w ws Hw Hws IH]; [done|].
  destruct ws as [|w' ws].
  - change (Js.join " " [w]) with w. rewrite <- (append_nil_r w).
    apply andb_true_iff in Hw as [_ Hw]. by rewrite space_runs_word.
  - change (Js.join " " (w :: w' :: ws))
      with (w ++ " " ++ Js.join " " (w' :: ws)).
    pose proof Hw as Hw0. apply andb_true_iff in Hw0 as [_ Hw0].
    rewrite (space_runs_word _ _ Hw0).
    inversion Hws as [|? ? Hw' _]; subst.
    pose proof (join_words_start w' ws Hw') as Hstart.
    rewrite append_cons, append_nil_l, space_runs_space.
    + by rewrite IH.
    + destruct w' as [|c w']; [done|]. by destruct ws.
    + exact Hstart.
Qed.

(** X17.  The transcript route, for an identifier of 11 characters: when
    the captions cannot be fetched, the answer is 404 with the message of
    the failure; otherwise it is a success that carries the texts of the
    segments joined by single spaces and the number of segments, and the
    word count is 1 for an empty caption list and the number of segments
    when each segment is one word. *)
Theorem transcript_result (yt : Youtube.captions) (videoId : string) :
  let w := run (Youtube.transcript yt videoId) in
  Js.len videoId = 11 ->
  calls w = [CallTranscript videoId]
  /\ (forall e, Youtube.fetchTranscript yt videoId = Throw e ->
        statusCode (res w) = 404
        /\ body_field "error" (res w) = Some (JStr "Transcript not available")
        /\ body_field "message" (res w) = Some (JStr (message e)))
  /\ (forall transcriptData,
        Youtube.fetchTranscript yt videoId = Ok transcriptData ->
        statusCode (res w) = 200
        /\ body_field "success" (res w) = Some (JBool true)
        /\ body_field "transcript" (res w)
           = Some (JStr (Js.join " " (map Youtube.text transcriptData)))
        /\ body_field "segments" (res w)
           = Some (JNum (Z.of_nat (length transcriptData)))
        /\ (transcriptData = [] ->
              body_field "wordCount" (res w) = Some (JNum 1)
              /\ body_field "duration" (res w) = Some (JNum 0))
        /\ (transcriptData <> [] ->
            Forall (fun item => is_word (Youtube.text item) = true) transcriptData ->
            body_field "wordCount" (res w)
            = Some (JNum (Z.of_nat (length transcriptData))))).
Proof.
  intros w Hlen. subst w. apply Z.eqb_eq in Hlen.
  assert (Hid : Js.truthy videoId = true) by (by destruct videoId).
  unfold run, Youtube.transcript, try_catch, bind, await, status, json_,
    on_res, body_field.
  simpl. rewrite Hlen, Hid. simpl.
  split; [by destruct (Youtube.fetchTranscript yt videoId)|].
  split.
  - by intros e ->.
  - intros transcriptData ->. simpl. repeat split; try done.
    + by subst.
    + by subst.
    + intros Hne Hwords. do 2 f_equal.
      unfold Js.split_spaces_length. rewrite space_runs_join.
      * rewrite length_map. destruct transcriptData; [done|]. simpl. lia.
      * by apply Forall_map.
Qed.

Lemma transcript_result_witness :
  let w := run (Youtube.transcript
                  (Samples.captions_words ["never"; "gonna"; "give"])
                  "dQw4w9WgXcQ") in
  body_field "transcript" (res w) = Some (JStr "never gonna give")
  /\ body_field "wordCount" (res w) = Some (JNum 3)
  /\ body_field "segments" (res w) = Some (JNum 3).
Proof.
  intros w.
  destruct (transcript_result (Samples.captions_words ["never"; "gonna"; "give"])
              "dQw4w9WgXcQ" eq_refl) as (_ & _ & Hok).
  destruct (Hok _ eq_refl) as (_ & _ & Htext & Hsegments & _ & Hwords).
  split; [exact Htext|]. split; [|exact Hsegments].
  apply Hwords; [done|by repeat constructor].
Defined.

End VideoMore.


(* ================================================================== *)
(** * The token check and the other routes on notes *)
(* ================================================================== *)

Section GuardFacts.
Import Http HttpNotations Spec.

Lemma after_space_app scheme x :
  Youtube.all_chars (fun c => negb (Firebase.is_blank c)) scheme = true ->
  Firebase.after_space (scheme ++ " " ++ x) = Some x.
Proof.
  induction scheme as [|c s IH]; [done|].
  rewrite append_cons. cbn [Youtube.all_chars Firebase.after_space].
  intros [Hc Hs]%andb_true_iff. apply negb_true_iff in Hc. rewrite Hc.
  by apply IH.
Qed.

Lemma until_space_app token rest :
  Youtube.all_chars (fun c => negb (Firebase.is_blank c)) token = true ->
  match rest with "" => true | String c _ => Firebase.is_blank c end = true ->
  Firebase.until_space (token ++ rest) = token.
Proof.
  intros Htoken Hrest. induction token as [|c t IH].
  - rewrite append_nil_l. destruct rest as [|d r]; [done|].
    simpl. by rewrite Hrest.
  - rewrite append_cons. cbn [Youtube.all_chars Firebase.until_space] in *.
    apply andb_true_iff in Htoken as [Hc Ht]. apply negb_true_iff in Hc.
    by rewrite Hc, (IH Ht).
Qed.

(** X18.  The token is the second of the parts of the authorization
    header that single spaces separate, whatever the first part is: the
    scheme word is not compared with anything. *)
Theorem bearer_second_part (scheme token rest : string) :
  Youtube.all_chars (fun c => negb (Firebase.is_blank c)) scheme = true ->
  Youtube.all_chars (fun c => negb (Firebase.is_blank c)) token = true ->
  match rest with "" => true | String c _ => Firebase.is_blank c end = true ->
  Firebase.bearer (Some (scheme ++ " " ++ token ++ rest)) = Some token.
Proof.
  intros Hscheme Htoken Hrest. unfold Firebase.bearer.
  rewrite (after_space_app _ _ Hscheme). simpl.
  by rewrite (until_space_app _ _ Htoken Hrest).
Qed.

Lemma bearer_second_part_witness :
  Firebase.bearer (Some "Bearer t0ken") = Some "t0ken"
  /\ Firebase.bearer (Some "Basic t0ken trailing") = Some "t0ken"
  /\ Firebase.bearer (Some " t0ken") = Some "t0ken".
Proof.
  split; [|split].
  - by apply (bearer_second_part "Bearer" "t0ken" "").
  - by apply (bearer_second_part "Basic" "t0ken" " trailing").
  - by apply (bearer_second_part "" "t0ken" "").
Defined.

Lemma bearer_no_space header :
  Youtube.all_chars (fun c => negb (Firebase.is_blank c)) header = true ->
  Firebase.bearer (Some header) = None.
Proof.
  unfold Firebase.bearer. induction header as [|c h IH]; [done|].
  cbn [Youtube.all_chars Firebase.after_space].
  intros [Hc Hh]%andb_true_iff. apply negb_true_iff in Hc. rewrite Hc.
  by apply IH.
Qed.

(** A token that the verifier rejects. *)
Lemma verifyToken_invalid (a : Firebase.auth) (authorization : option string)
    (next : string -> M unit) (w0 : world) (token : string) (e : error) :
  Firebase.bearer authorization = Some token ->
  token <> "" ->
  Firebase.verifyIdToken a token = Throw e ->
  Firebase.verifyToken a authorization next w0
  = (Ok tt, answered (called w0 (CallVerify token)) 401
              (JObj [("error", JStr "Invalid token");
                     ("message", JStr "Please provide a valid authorization token")])).
Proof.
  intros Hb Hne Hverify.
  unfold Firebase.verifyToken, try_catch, bind, await, status, json_, on_res,
    answered, called.
  by rewrite Hb, (truthy_ne _ Hne), Hverify.
Qed.

(** X19.  [verifyToken] answers 401 and does not run the handler behind
    it when the authorization header is missing, holds no space, or holds
    an empty second part, in which cases the token verifier is not called;
    and when the verifier rejects the token.  The response it finds, the
    frames written and the database are left as they were. *)
Theorem verifyToken_rejects (a : Firebase.auth) (authorization : option string)
    (next : string -> M unit) (w0 : world) :
  (authorization = None
   \/ (exists header, authorization = Some header
         /\ Youtube.all_chars (fun c => negb (Firebase.is_blank c)) header = true)
   \/ Firebase.bearer authorization = Some "" ->
     Firebase.verifyToken a authorization next w0
     = (Ok tt, answered w0 401
                 (JObj [("error", JStr "No token provided");
                        ("message", JStr "Authorization token is required")])))
  /\ (forall token e,
        Firebase.bearer authorization = Some token ->
        token <> "" ->
        Firebase.verifyIdToken a token = Throw e ->
        Firebase.verifyToken a authorization next w0
        = (Ok tt, answered (called w0 (CallVerify token)) 401
                    (JObj [("error", JStr "Invalid token");
                           ("message", JStr "Please provide a valid authorization token")]))).
Proof.
  split.
  - intros Hnone.
    assert (Firebase.bearer authorization = None
            \/ Firebase.bearer authorization = Some "") as [Hb|Hb].
    { destruct Hnone as [->|[(header & -> & Hh)|Hb]]; [by left| |by right].
      left. by apply bearer_no_space. }
    all: unfold Firebase.verifyToken, Firebase.no_token, try_catch, bind,
           status, json_, on_res, answered; rewrite Hb; reflexivity.
  - intros token e. apply verifyToken_invalid.
Qed.

Lemma verifyToken_rejects_witness :
  run (Firebase.verifyToken (Samples.auth_of "t0ken" "u1") (Some "t0ken")
         (fun _ => status 204))
  = answered start 401
      (JObj [("error", JStr "No token provided");
             ("message", JStr "Authorization token is required")])
  /\ run (Firebase.verifyToken (Samples.auth_of "t0ken" "u1") (Some "Bearer wrong")
            (fun _ => status 204))
     = answered (called start (CallVerify "wrong")) 401
         (JObj [("error", JStr "Invalid token");
                ("message", JStr "Please provide a valid authorization token")]).
Proof.
  split; unfold run.
  - destruct (verifyToken_rejects (Samples.auth_of "t0ken" "u1") (Some "t0ken")
                (fun _ => status 204) start) as [Hnone _].
    rewrite Hnone; [done|]. right. left. by exists "t0ken".
  - destruct (verifyToken_rejects (Samples.auth_of "t0ken" "u1")
                (Some "Bearer wrong") (fun _ => status 204) start) as [_ Hbad].
    by rewrite (Hbad "wrong" (plain_error "Decoding Firebase ID token failed")).
Defined.

(** A handler that is one [try]/[catch] whose [catch] block answers does
    not throw. *)
Lemma try_catch_total (body : M unit) (handler : error -> M unit) :
  (forall e w, fst (handler e w) = Ok tt) ->
  forall w, fst (try_catch body handler w) = Ok tt.
Proof.
  intros Hh w. unfold try_catch.
  destruct (body w) as [[[]|e] w']; [done|apply Hh].
Qed.

Lemma get_handler_total userId noteId w :
  fst (Notes.get_handler userId noteId w) = Ok tt.
Proof. by apply try_catch_total. Qed.

Lemma put_handler_total now userId noteId body w :
  fst (Notes.put_handler now userId noteId body w) = Ok tt.
Proof. by apply try_catch_total. Qed.

Lemma delete_handler_total userId noteId w :
  fst (Notes.delete_handler userId noteId w) = Ok tt.
Proof. by apply try_catch_total. Qed.

Lemma post_handler_total created updated newId userId body w :
  fst (Notes.post_handler created updated newId userId body w) = Ok tt.
Proof. by apply try_catch_total. Qed.

(** With a configured database and a token that the verifier accepts, the
    guards of the router hand over to the handler. *)
Lemma guard_accepts (a : Firebase.auth) (authorization : option string)
    (token userId : string) (d : database) (handler : string -> M unit) :
  Firebase.bearer authorization = Some token ->
  token <> "" ->
  Firebase.verifyIdToken a token = Ok userId ->
  (forall w, fst (handler userId w) = Ok tt) ->
  Notes.checkFirebaseConfig (Firebase.verifyToken a authorization handler)
    (start_with (Some d))
  = handler userId {| res := fresh; calls := [CallVerify token]; db := Some d |}.
Proof.
  intros Hb Hne Hverify Htotal.
  unfold Notes.checkFirebaseConfig, Firebase.verifyToken, try_catch, bind, await.
  simpl. rewrite Hb, (truthy_ne _ Hne), Hverify. simpl.
  specialize (Htotal {| res := fresh; calls := [CallVerify token]; db := Some d |}).
  by destruct (handler userId _) as [[[]|e] w'].
Qed.

(** X20.  No route on notes reaches the database without a token that
    the verifier accepts.  Without a configured database each answers 503
    and verifies nothing; with a missing token each answers 401 without
    calling the verifier, and with a rejected token 401; in both cases the
    database is left as it was. *)
Theorem notes_need_token (a : Firebase.auth) (authorization : option string)
    (created now newId noteId : string) (body : gmap string json)
    (d : database) :
  Forall (fun route =>
    rejected (run_with None route) 503 "Database not configured"
    /\ (Firebase.bearer authorization = None
        \/ Firebase.bearer authorization = Some "" ->
          let w := run_with (Some d) route in
          statusCode (res w) = 401
          /\ body_field "error" (res w) = Some (JStr "No token provided")
          /\ calls w = []
          /\ db w = Some d)
    /\ (forall token e,
          Firebase.bearer authorization = Some token ->
          token <> "" ->
          Firebase.verifyIdToken a token = Throw e ->
          let w := run_with (Some d) route in
          statusCode (res w) = 401
          /\ body_field "error" (res w) = Some (JStr "Invalid token")
          /\ calls w = [CallVerify token]
          /\ db w = Some d))
    (note_routes a authorization created now newId noteId body).
Proof.
  assert (Hguard : forall handler : string -> M unit,
    let route := Notes.checkFirebaseConfig
                   (Firebase.verifyToken a authorization handler) in
    rejected (run_with None route) 503 "Database not configured"
    /\ (Firebase.bearer authorization = None
        \/ Firebase.bearer authorization = Some "" ->
          let w := run_with (Some d) route in
          statusCode (res w) = 401
          /\ body_field "error" (res w) = Some (JStr "No token provided")
          /\ calls w = []
          /\ db w = Some d)
    /\ (forall token e,
          Firebase.bearer authorization = Some token ->
          token <> "" ->
          Firebase.verifyIdToken a token = Throw e ->
          let w := run_with (Some d) route in
          statusCode (res w) = 401
          /\ body_field "error" (res w) = Some (JStr "Invalid token")
          /\ calls w = [CallVerify token]
          /\ db w = Some d)).
  { intros handler route. subst route. split; [by repeat split|]. split.
    - intros Hb w. subst w.
      unfold run_with, Notes.checkFirebaseConfig, Firebase.verifyToken,
        Firebase.no_token, try_catch, bind, status, json_, on_res, body_field.
      simpl. by destruct Hb as [-> | ->].
    - intros token e Hb Hne Hverify w. subst w.
      unfold run_with, Notes.checkFirebaseConfig. simpl.
      by rewrite (verifyToken_invalid a authorization handler _ token e
                    Hb Hne Hverify). }
  unfold note_routes, item_routes.
  repeat (apply List.Forall_cons; [apply Hguard|]). apply List.Forall_nil.
Qed.

Lemma notes_need_token_witness :
  Forall (fun route =>
    let w := run_with (Some Samples.two_notes) route in
    statusCode (res w) = 401 /\ calls w = [] /\ db w = Some Samples.two_notes)
    (note_routes (Samples.auth_of "t0ken" "u1") None
       "2024-01-01T00:00:00.000Z" "2024-01-01T00:00:00.001Z" "n3" "n1"
       {[ "title" := JStr "Plan B" ]}).
Proof.
  eapply Forall_impl.
  - apply (notes_need_token (Samples.auth_of "t0ken" "u1") None
             "2024-01-01T00:00:00.000Z" "2024-01-01T00:00:00.001Z" "n3" "n1"
             {[ "title" := JStr "Plan B" ]} Samples.two_notes).
  - intros route (_ & Hnone & _).
    destruct (Hnone (or_introl eq_refl)) as (H1 & _ & H2 & H3). by repeat split.
Defined.

End GuardFacts.


Section NotesMore.
Import Http HttpNotations Spec.

#[local] Arguments Notes.note_json : simpl never.
#[local] Arguments Notes.updateData : simpl never.
#[local] Arguments Notes.other_owner : simpl never.
#[local] Arguments Notes.noteData : simpl never.

Lemma healthy_tail d ns :
  healthy d -> healthy {| notes := ns; faults := tail (faults d) |}.
Proof.
  unfold healthy. simpl. destruct (faults d) as [|f fs]; [done|].
  by inversion 1.
Qed.

(** An operation on a healthy database is carried out. *)
Lemma db_op_healthy {A} (f : database -> outcome A * database) r c d :
  healthy d ->
  Notes.db_op f {| res := r; calls := c; db := Some d |}
  = (fst (f {| notes := notes d; faults := tail (faults d) |}),
     {| res := r; calls := c;
        db := Some (snd (f {| notes := notes d; faults := tail (faults d) |})) |}).
Proof.
  intros Hd. unfold Notes.db_op. simpl. unfold healthy in Hd.
  destruct (faults d) as [|[e|] fs]; simpl.
  - by destruct (f _).
  - by inversion Hd.
  - by destruct (f _).
Qed.

(** A scheduled fault is thrown, and the notes are not touched. *)
Lemma db_op_fault {A} (f : database -> outcome A * database) r c d e fs :
  faults d = Some e :: fs ->
  Notes.db_op f {| res := r; calls := c; db := Some d |}
  = (Throw e, {| res := r; calls := c;
                 db := Some {| notes := notes d; faults := fs |} |}).
Proof. intros Hf. unfold Notes.db_op. simpl. by rewrite Hf. Qed.

(** The guards, for the four routes. *)
Lemma get_note_enters a authorization token userId d noteId :
  Firebase.bearer authorization = Some token ->
  token <> "" ->
  Firebase.verifyIdToken a token = Ok userId ->
  run_with (Some d) (Notes.get_note a authorization noteId)
  = snd (Notes.get_handler userId noteId
           {| res := fresh; calls := [CallVerify token]; db := Some d |}).
Proof.
  intros Hb Hne Hverify. unfold run_with, Notes.get_note.
  rewrite (guard_accepts a authorization token userId d _ Hb Hne Hverify); [done|].
  intros w. apply get_handler_total.
Qed.

Lemma put_note_enters a authorization token userId d now noteId body :
  Firebase.bearer authorization = Some token ->
  token <> "" ->
  Firebase.verifyIdToken a token = Ok userId ->
  run_with (Some d) (Notes.put_note a authorization now noteId body)
  = snd (Notes.put_handler now userId noteId body
           {| res := fresh; calls := [CallVerify token]; db := Some d |}).
Proof.
  intros Hb Hne Hverify. unfold run_with, Notes.put_note.
  rewrite (guard_accepts a authorization token userId d _ Hb Hne Hverify); [done|].
  intros w. apply put_handler_total.
Qed.

Lemma delete_note_enters a authorization token userId d noteId :
  Firebase.bearer authorization = Some token ->
  token <> "" ->
  Firebase.verifyIdToken a token = Ok userId ->
  run_with (Some d) (Notes.delete_note a authorization noteId)
  = snd (Notes.delete_handler userId noteId
           {| res := fresh; calls := [CallVerify token]; db := Some d |}).
Proof.
  intros Hb Hne Hverify. unfold run_with, Notes.delete_note.
  rewrite (guard_accepts a authorization token userId d _ Hb Hne Hverify); [done|].
  intros w. apply delete_handler_total.
Qed.

Lemma post_note_enters a authorization token userId d created updated newId body :
  Firebase.bearer authorization = Some token ->
  token <> "" ->
  Firebase.verifyIdToken a token = Ok userId ->
  run_with (Some d) (Notes.post_note a authorization created updated newId body)
  = snd (Notes.post_handler created updated newId userId body
           {| res := fresh; calls := [CallVerify token]; db := Some d |}).
Proof.
  intros Hb Hne Hverify. unfold run_with, Notes.post_note.
  rewrite (guard_accepts a authorization token userId d _ Hb Hne Hverify); [done|].
  intros w. apply post_handler_total.
Qed.

(** X21.  The routes on one note refuse a caller who does not own it with
    403, and a note that does not exist with 404; either way the notes
    stay as they are. *)
Theorem notes_refusals (a : Firebase.auth) (authorization : option string)
    (token userId now noteId : string) (body : gmap string json)
    (d : database) :
  Firebase.bearer authorization = Some token ->
  token <> "" ->
  Firebase.verifyIdToken a token = Ok userId ->
  healthy d ->
  Forall (fun route =>
    let w := run_with (Some d) route in
    (notes d !! noteId = None ->
       statusCode (res w) = 404
       /\ body_field "error" (res w) = Some (JStr "Note not found")
       /\ stored w = Some (notes d))
    /\ (forall old, notes d !! noteId = Some old ->
          Notes.other_owner old userId = true ->
          statusCode (res w) = 403
          /\ body_field "error" (res w) = Some (JStr "Access denied")
          /\ stored w = Some (notes d)))
    (item_routes a authorization now noteId body).
Proof.
  intros Hb Hne Hverify Hd. unfold item_routes.
  repeat (apply List.Forall_cons; [|]); [| | |apply List.Forall_nil]; cbv zeta.
  - rewrite (get_note_enters a authorization token userId d noteId Hb Hne Hverify).
    unfold Notes.get_handler, Notes.get, try_catch, bind.
    rewrite (db_op_healthy _ _ _ d Hd). simpl.
    split.
    + by intros ->.
    + by intros old -> ->.
  - rewrite (put_note_enters a authorization token userId d now noteId body
               Hb Hne Hverify).
    unfold Notes.put_handler, Notes.get, try_catch, bind.
    rewrite (db_op_healthy _ _ _ d Hd). simpl.
    split.
    + by intros ->.
    + by intros old -> ->.
  - rewrite (delete_note_enters a authorization token userId d noteId Hb Hne Hverify).
    unfold Notes.delete_handler, Notes.get, try_catch, bind.
    rewrite (db_op_healthy _ _ _ d Hd). simpl.
    split.
    + by intros ->.
    + by intros old -> ->.
Qed.

Lemma notes_refusals_witness :
  Forall (fun route =>
    let w := run_with (Some Samples.two_notes) route in
    statusCode (res w) = 403 /\ stored w = Some (notes Samples.two_notes))
    (item_routes (Samples.auth_of "t0ken" "u1") (Some "Bearer t0ken")
       "2024-01-01T00:00:00.000Z" "n2" {[ "title" := JStr "Mine now" ]}).
Proof.
  eapply Forall_impl.
  - apply (notes_refusals (Samples.auth_of "t0ken" "u1") (Some "Bearer t0ken")
             "t0ken" "u1" "2024-01-01T00:00:00.000Z" "n2"
             {[ "title" := JStr "Mine now" ]} Samples.two_notes);
      [reflexivity|discriminate|reflexivity|by repeat constructor].
  - intros route [_ Hdenied].
    destruct (Hdenied {[ "userId" := JStr "u2"; "title" := JStr "Diary" ]})
      as (H1 & _ & H2); [by vm_compute|by vm_compute|].
    by split.
Defined.

(** X22.  Deleting a note of one's own removes that note and no other. *)
Theorem delete_note_removes (a : Firebase.auth) (authorization : option string)
    (token userId noteId : string) (old : gmap string json) (d : database) :
  let w := run_with (Some d) (Notes.delete_note a authorization noteId) in
  Firebase.bearer authorization = Some token ->
  token <> "" ->
  Firebase.verifyIdToken a token = Ok userId ->
  healthy d ->
  notes d !! noteId = Some old ->
  Notes.other_owner old userId = false ->
  statusCode (res w) = 200
  /\ body_field "success" (res w) = Some (JBool true)
  /\ exists left,
       stored w = Some left
       /\ left !! noteId = None
       /\ forall other, other <> noteId -> left !! other = notes d !! other.
Proof.
  intros w Hb Hne Hverify Hd Hold Hown. subst w.
  rewrite (delete_note_enters a authorization token userId d noteId Hb Hne Hverify).
  unfold Notes.delete_handler, Notes.get, Notes.delete_, try_catch, bind.
  rewrite (db_op_healthy _ _ _ d Hd). simpl. rewrite Hold, Hown.
  rewrite db_op_healthy by (by apply healthy_tail). simpl.
  repeat split. exists (delete noteId (notes d)).
  split; [done|]. split; [apply lookup_delete_eq|].
  intros other Hother. by apply lookup_delete_ne.
Qed.

Lemma delete_note_removes_witness :
  let w := run_with (Some Samples.two_notes)
             (Notes.delete_note (Samples.auth_of "t0ken" "u1")
                (Some "Bearer t0ken") "n1") in
  statusCode (res w) = 200
  /\ exists left, stored w = Some left
                  /\ left !! "n1" = None
                  /\ left !! "n2" = notes Samples.two_notes !! "n2".
Proof.
  intros w.
  destruct (delete_note_removes (Samples.auth_of "t0ken" "u1")
              (Some "Bearer t0ken") "t0ken" "u1" "n1"
              {[ "userId" := JStr "u1"; "title" := JStr "Plan" ]}
              Samples.two_notes)
    as (Hstatus & _ & left & Hleft & Hgone & Hother);
    [reflexivity|discriminate|reflexivity|by repeat constructor
    |by vm_compute|by vm_compute|].
  split; [exact Hstatus|]. exists left. split; [exact Hleft|].
  split; [exact Hgone|]. by apply Hother.
Defined.

(** X23.  A note is not created without a title or a content: when both
    are missing or falsy, the answer is 400 and the database is not
    touched. *)
Theorem post_note_requires_text (a : Firebase.auth)
    (authorization : option string) (token userId created updated newId : string)
    (body : gmap string json) (d : database) :
  let w := run_with (Some d)
             (Notes.post_note a authorization created updated newId body) in
  Firebase.bearer authorization = Some token ->
  token <> "" ->
  Firebase.verifyIdToken a token = Ok userId ->
  Notes.falsy (body !! "title") = true ->
  Notes.falsy (body !! "content") = true ->
  statusCode (res w) = 400
  /\ body_field "error" (res w) = Some (JStr "Title or content is required")
  /\ db w = Some d.
Proof.
  intros w Hb Hne Hverify Htitle Hcontent. subst w.
  rewrite (post_note_enters a authorization token userId d created updated newId
             body Hb Hne Hverify).
  unfold Notes.post_handler, try_catch, bind.
  by rewrite Htitle, Hcontent.
Qed.

Lemma post_note_requires_text_witness :
  let w := run_with (Some Samples.two_notes)
             (Notes.post_note (Samples.auth_of "t0ken" "u1") (Some "Bearer t0ken")
                "2024-01-01T00:00:00.000Z" "2024-01-01T00:00:00.001Z" "n3"
                {[ "title" := JStr ""; "tags" := JArr [JStr "x"] ]}) in
  statusCode (res w) = 400 /\ db w = Some Samples.two_notes.
Proof.
  intros w.
  destruct (post_note_requires_text (Samples.auth_of "t0ken" "u1")
              (Some "Bearer t0ken") "t0ken" "u1"
              "2024-01-01T00:00:00.000Z" "2024-01-01T00:00:00.001Z" "n3"
              {[ "title" := JStr ""; "tags" := JArr [JStr "x"] ]}
              Samples.two_notes)
    as (Hstatus & _ & Hdb);
    [reflexivity|discriminate|reflexivity|by vm_compute|by vm_compute|].
  by split.
Defined.

Lemma noteData_keys created updated userId body :
  (Notes.noteData created updated userId body).*1 = note_fields.
Proof. reflexivity. Qed.

Lemma field_list_to_map k (l : list (string * json)) :
  field k (JObj l) = (list_to_map l : gmap string json) !! k.
Proof.
  unfold field. induction l as [|[k0 v0] l IH]; [done|].
  cbn [find fst list_to_map foldr]. simpl.
  destruct (String.eqb_spec k0 k) as [->|Hk].
  - by rewrite lookup_insert_eq.
  - by rewrite lookup_insert_ne.
Qed.

Lemma noteData_lookup created updated userId body k v :
  In (k, v) (Notes.noteData created updated userId body) ->
  (list_to_map (Notes.noteData created updated userId body) : gmap string json) !! k
  = Some v.
Proof.
  intros Hin. apply elem_of_list_to_map_1.
  - rewrite noteData_keys. unfold note_fields.
    apply (bool_decide_unpack _). by vm_compute.
  - by apply list_elem_of_In.
Qed.

(** X24.  Creating a note stores, under the new identifier and beside the
    notes that exist, a document of the nine fields of the handler: the
    caller as owner, version 1, the two readings of the clock, the title
    and content of the request or their defaults, tags and links that are
    arrays whatever the request holds, and nothing else the request
    holds.  The answer is 201 and shows the stored fields and the
    identifier. *)
Theorem post_note_creates (a : Firebase.auth) (authorization : option string)
    (token userId created updated newId : string)
    (body : gmap string json) (d : database) :
  let w := run_with (Some d)
             (Notes.post_note a authorization created updated newId body) in
  Firebase.bearer authorization = Some token ->
  token <> "" ->
  Firebase.verifyIdToken a token = Ok userId ->
  healthy d ->
  notes d !! newId = None ->
  Notes.falsy (body !! "title") && Notes.falsy (body !! "content") = false ->
  statusCode (res w) = 201
  /\ body_field "note" (res w)
     = Some (JObj (("id", JStr newId)
                     :: Notes.noteData created updated userId body))
  /\ exists new,
       stored w = Some (<[newId := new]> (notes d))
       /\ new !! "userId" = Some (JStr userId)
       /\ new !! "version" = Some (JNum 1)
       /\ new !! "createdAt" = Some (JStr created)
       /\ new !! "updatedAt" = Some (JStr updated)
       /\ new !! "title" = Some (Notes.or_ (body !! "title") (JStr "Untitled Note"))
       /\ new !! "content" = Some (Notes.or_ (body !! "content") (JStr ""))
       /\ (exists tags, new !! "tags" = Some (JArr tags))
       /\ (exists links, new !! "links" = Some (JArr links))
       /\ (forall k, ~ In k note_fields -> new !! k = None).
Proof.
  intros w Hb Hne Hverify Hd Hfree Htext. subst w.
  rewrite (post_note_enters a authorization token userId d created updated newId
             body Hb Hne Hverify).
  unfold Notes.post_handler, Notes.add, try_catch, bind. rewrite Htext.
  rewrite (db_op_healthy _ _ _ d Hd). simpl. rewrite Hfree. simpl.
  split; [done|]. split; [done|].
  exists (list_to_map (Notes.noteData created updated userId body)).
  split; [done|].
  repeat split.
  - unfold Notes.array_or_empty, Notes.isArray.
    destruct (default (JArr []) (body !! "tags")) as [| | | |tags|] eqn:Htags.
    5: exists tags. 1-4, 6: exists [].
    all: apply noteData_lookup; unfold Notes.noteData, Notes.array_or_empty,
           Notes.isArray; rewrite Htags; simpl; tauto.
  - unfold Notes.array_or_empty, Notes.isArray.
    destruct (default (JArr []) (body !! "links")) as [| | | |links|] eqn:Hlinks.
    5: exists links. 1-4, 6: exists [].
    all: apply noteData_lookup; unfold Notes.noteData, Notes.array_or_empty,
           Notes.isArray; rewrite Hlinks; simpl; tauto.
  - intros k Hk. apply not_elem_of_list_to_map_1.
    rewrite noteData_keys, list_elem_of_In. exact Hk.
Qed.

Lemma post_note_creates_witness :
  let w := run_with (Some Samples.two_notes)
             (Notes.post_note (Samples.auth_of "t0ken" "u1") (Some "Bearer t0ken")
                "2024-01-01T00:00:00.000Z" "2024-01-01T00:00:00.001Z" "n3"
                {[ "content" := JStr "Buy milk"; "tags" := JStr "shopping";
                   "userId" := JStr "u2"; "version" := JNum 7 ]}) in
  statusCode (res w) = 201
  /\ exists new,
       stored w = Some (<[ "n3" := new ]> (notes Samples.two_notes))
       /\ new !! "userId" = Some (JStr "u1")
       /\ new !! "version" = Some (JNum 1)
       /\ new !! "title" = Some (JStr "Untitled Note").
Proof.
  intros w.
  destruct (post_note_creates (Samples.auth_of "t0ken" "u1")
              (Some "Bearer t0ken") "t0ken" "u1"
              "2024-01-01T00:00:00.000Z" "2024-01-01T00:00:00.001Z" "n3"
              {[ "content" := JStr "Buy milk"; "tags" := JStr "shopping";
                 "userId" := JStr "u2"; "version" := JNum 7 ]}
              Samples.two_notes)
    as (Hstatus & _ & new & Hstored & Howner & Hversion & _ & _ & Htitle & _);
    [reflexivity|discriminate|reflexivity|by repeat constructor
    |by vm_compute|by vm_compute|].
  split; [exact Hstatus|]. exists new. by repeat split.
Defined.

Lemma field_obj_set k k' v (o : list (string * json)) :
  field k (JObj (Notes.obj_set k' v o))
  = if String.eqb k' k then Some v else field k (JObj o).
Proof.
  unfold field. induction o as [|[k0 v0] o IH]; simpl.
  - by destruct (String.eqb k' k).
  - destruct (String.eqb_spec k0 k') as [->|Hk0]; simpl.
    + by destruct (String.eqb k' k).
    + destruct (String.eqb_spec k0 k) as [->|Hk]; simpl; [|exact IH].
      destruct (String.eqb_spec k' k) as [->|]; done.
Qed.

Lemma field_fold_obj_set k (l : list (string * json)) :
  forall o,
  NoDup l.*1 ->
  field k (JObj (fold_left (fun o kv => Notes.obj_set (fst kv) (snd kv) o) l o))
  = match (list_to_map l : gmap string json) !! k with
    | Some v => Some v
    | None => field k (JObj o)
    end.
Proof.
  induction l as [|[k0 v0] l IH]; intros o Hnodup; [done|].
  apply NoDup_cons in Hnodup as [Hk0 Hnodup].
  cbn [fold_left fst snd list_to_map foldr]. rewrite (IH _ Hnodup).
  destruct (decide (k0 = k)) as [->|Hk].
  - rewrite lookup_insert_eq.
    rewrite (not_elem_of_list_to_map_1 _ _ Hk0), field_obj_set.
    by rewrite String.eqb_refl.
  - rewrite lookup_insert_ne by done.
    destruct (list_to_map l !! k); [done|].
    rewrite field_obj_set. by destruct (String.eqb_spec k0 k).
Qed.

(** The fields of [{ id, ...data }]: those of [data], and the identifier
    under [id] unless [data] has a field of that name. *)
Lemma field_note_json k id (data : gmap string json) :
  field k (Notes.note_json id data)
  = match data !! k with
    | Some v => Some v
    | None => if String.eqb "id" k then Some (JStr id) else None
    end.
Proof.
  unfold Notes.note_json.
  rewrite field_fold_obj_set by apply NoDup_fst_map_to_list.
  rewrite list_to_map_to_list.
  destruct (data !! k); [done|]. unfold field. cbn [find fst].
  by destruct (String.eqb "id" k).
Qed.

(** X25.  Reading a note of one's own answers with the stored fields,
    each under its name, and the identifier under [id] (which a stored
    field of that name overrides); the notes stay as they are. *)
Theorem get_note_returns_stored (a : Firebase.auth)
    (authorization : option string) (token userId noteId : string)
    (old : gmap string json) (d : database) :
  let w := run_with (Some d) (Notes.get_note a authorization noteId) in
  Firebase.bearer authorization = Some token ->
  token <> "" ->
  Firebase.verifyIdToken a token = Ok userId ->
  healthy d ->
  notes d !! noteId = Some old ->
  Notes.other_owner old userId = false ->
  statusCode (res w) = 200
  /\ body_field "success" (res w) = Some (JBool true)
  /\ stored w = Some (notes d)
  /\ exists note,
       body_field "note" (res w) = Some note
       /\ field "id" note = Some (default (JStr noteId) (old !! "id"))
       /\ forall k, k <> "id" -> field k note = old !! k.
Proof.
  intros w Hb Hne Hverify Hd Hold Hown. subst w.
  rewrite (get_note_enters a authorization token userId d noteId Hb Hne Hverify).
  unfold Notes.get_handler, Notes.get, try_catch, bind.
  rewrite (db_op_healthy _ _ _ d Hd). simpl. rewrite Hold, Hown. simpl.
  repeat split. exists (Notes.note_json noteId old).
  split; [done|]. split.
  - rewrite field_note_json. by destruct (old !! "id").
  - intros k Hk. rewrite field_note_json.
    destruct (old !! k); [done|]. by destruct (String.eqb_spec "id" k).
Qed.

Lemma get_note_returns_stored_witness :
  let w := run_with (Some Samples.two_notes)
             (Notes.get_note (Samples.auth_of "t0ken" "u2")
                (Some "Bearer t0ken") "n2") in
  statusCode (res w) = 200
  /\ exists note,
       body_field "note" (res w) = Some note
       /\ field "id" note = Some (JStr "n2")
       /\ field "title" note = Some (JStr "Diary").
Proof.
  intros w.
  destruct (get_note_returns_stored (Samples.auth_of "t0ken" "u2")
              (Some "Bearer t0ken") "t0ken" "u2" "n2"
              {[ "userId" := JStr "u2"; "title" := JStr "Diary" ]}
              Samples.two_notes)
    as (Hstatus & _ & _ & note & Hnote & Hid & Hfields);
    [reflexivity|discriminate|reflexivity|by repeat constructor
    |by vm_compute|by vm_compute|].
  split; [exact Hstatus|]. exists note. split; [exact Hnote|].
  split; [exact Hid|]. by rewrite Hfields.
Defined.

(** X26.  A note that has been created can be read back by its author:
    the read answers, field by field, with the note that the creation
    answered with. *)
Theorem post_then_get (a : Firebase.auth) (authorization : option string)
    (token userId created updated newId : string)
    (body : gmap string json) (d : database) :
  let w1 := run_with (Some d)
              (Notes.post_note a authorization created updated newId body) in
  let w2 := run_with (db w1) (Notes.get_note a authorization newId) in
  Firebase.bearer authorization = Some token ->
  token <> "" ->
  Firebase.verifyIdToken a token = Ok userId ->
  healthy d ->
  notes d !! newId = None ->
  Notes.falsy (body !! "title") && Notes.falsy (body !! "content") = false ->
  statusCode (res w1) = 201
  /\ statusCode (res w2) = 200
  /\ exists created_note read_note,
       body_field "note" (res w1) = Some created_note
       /\ body_field "note" (res w2) = Some read_note
       /\ field "id" read_note = Some (JStr newId)
       /\ forall k, field k read_note = field k created_note.
Proof.
  intros w1 w2 Hb Hne Hverify Hd Hfree Htext.
  assert (Hw1 : w1 = answered
            {| res := fresh; calls := [CallVerify token];
               db := Some {| notes := <[newId := list_to_map
                                          (Notes.noteData created updated userId body)]>
                                        (notes d);
                             faults := tail (faults d) |} |}
            201
            (JObj [("success", JBool true);
                   ("note", JObj (("id", JStr newId)
                                    :: Notes.noteData created updated userId body))])).
  { subst w1.
    rewrite (post_note_enters a authorization token userId d created updated newId
               body Hb Hne Hverify).
    unfold Notes.post_handler, Notes.add, try_catch, bind. rewrite Htext.
    rewrite (db_op_healthy _ _ _ d Hd). simpl. by rewrite Hfree. }
  subst w2. rewrite Hw1. clear Hw1 w1. cbn [answered db res statusCode].
  set (data := Notes.noteData created updated userId body).
  set (d1 := {| notes := <[newId := list_to_map data]> (notes d);
                faults := tail (faults d) |}).
  assert (Hd1 : healthy d1) by (by apply healthy_tail).
  assert (Hnew : notes d1 !! newId = Some (list_to_map data))
    by apply lookup_insert_eq.
  assert (Hown : Notes.other_owner (list_to_map data) userId = false).
  { unfold Notes.other_owner.
    assert (Hu : (list_to_map data : gmap string json) !! "userId"
                 = Some (JStr userId))
      by (apply noteData_lookup; unfold Notes.noteData; simpl; tauto).
    by rewrite Hu, String.eqb_refl. }
  clearbody d1.
  rewrite (get_note_enters a authorization token userId d1 newId Hb Hne Hverify).
  unfold Notes.get_handler, Notes.get, try_catch, bind.
  rewrite (db_op_healthy _ _ _ d1 Hd1). simpl. rewrite Hnew, Hown. simpl.
  repeat split.
  exists (JObj (("id", JStr newId) :: data)), (Notes.note_json newId (list_to_map data)).
  split; [done|]. split; [done|].
  assert (Hid : (list_to_map data : gmap string json) !! "id" = None).
  { apply not_elem_of_list_to_map_1. unfold data. rewrite noteData_keys.
    apply (bool_decide_unpack _). by vm_compute. }
  split.
  - by rewrite field_note_json, Hid.
  - intros k. rewrite field_note_json, field_list_to_map.
    cbn [list_to_map foldr fst snd].
    destruct (String.eqb_spec "id" k) as [<-|Hk].
    + by rewrite Hid, lookup_insert_eq.
    + rewrite lookup_insert_ne by done.
      by destruct (list_to_map data !! k).
Qed.

Lemma post_then_get_witness :
  let w1 := run_with (Some Samples.empty_db)
              (Notes.post_note (Samples.auth_of "t0ken" "u1") (Some "Bearer t0ken")
                 "2024-01-01T00:00:00.000Z" "2024-01-01T00:00:00.001Z" "n1"
                 {[ "title" := JStr "Plan" ]}) in
  let w2 := run_with (db w1)
              (Notes.get_note (Samples.auth_of "t0ken" "u1") (Some "Bearer t0ken")
                 "n1") in
  statusCode (res w1) = 201 /\ statusCode (res w2) = 200.
Proof.
  intros w1 w2.
  destruct (post_then_get (Samples.auth_of "t0ken" "u1") (Some "Bearer t0ken")
              "t0ken" "u1" "2024-01-01T00:00:00.000Z" "2024-01-01T00:00:00.001Z"
              "n1" {[ "title" := JStr "Plan" ]} Samples.empty_db)
    as (H1 & H2 & _);
    [reflexivity|discriminate|reflexivity|by repeat constructor
    |by vm_compute|by vm_compute|].
  by split.
Defined.

(** X27.  When the first operation on the database fails, each route on
    notes answers 500 with the message of the failure, and the notes stay
    as they are. *)
Theorem notes_database_failure (a : Firebase.auth)
    (authorization : option string) (token userId created now newId noteId : string)
    (body : gmap string json) (d : database) (e : error)
    (fs : list (option error)) :
  Firebase.bearer authorization = Some token ->
  token <> "" ->
  Firebase.verifyIdToken a token = Ok userId ->
  faults d = Some e :: fs ->
  Notes.falsy (body !! "title") && Notes.falsy (body !! "content") = false ->
  Forall (fun route =>
    let w := run_with (Some d) route in
    statusCode (res w) = 500
    /\ body_field "message" (res w) = Some (JStr (message e))
    /\ stored w = Some (notes d))
    (note_routes a authorization created now newId noteId body).
Proof.
  intros Hb Hne Hverify Hf Htext. unfold note_routes, item_routes.
  repeat (apply List.Forall_cons; [|]); [| | | |apply List.Forall_nil]; cbv zeta.
  - rewrite (post_note_enters a authorization token userId d created now newId
               body Hb Hne Hverify).
    unfold Notes.post_handler, Notes.add, try_catch, bind. rewrite Htext.
    by rewrite (db_op_fault _ _ _ d e fs Hf).
  - rewrite (get_note_enters a authorization token userId d noteId Hb Hne Hverify).
    unfold Notes.get_handler, Notes.get, try_catch, bind.
    by rewrite (db_op_fault _ _ _ d e fs Hf).
  - rewrite (put_note_enters a authorization token userId d now noteId body
               Hb Hne Hverify).
    unfold Notes.put_handler, Notes.get, try_catch, bind.
    by rewrite (db_op_fault _ _ _ d e fs Hf).
  - rewrite (delete_note_enters a authorization token userId d noteId Hb Hne Hverify).
    unfold Notes.delete_handler, Notes.get, try_catch, bind.
    by rewrite (db_op_fault _ _ _ d e fs Hf).
Qed.

Lemma notes_database_failure_witness :
  Forall (fun route =>
    let w := run_with (Some Samples.failing_db) route in
    statusCode (res w) = 500
    /\ body_field "message" (res w) = Some (JStr "UNAVAILABLE: deadline exceeded")
    /\ stored w = Some (notes Samples.failing_db))
    (note_routes (Samples.auth_of "t0ken" "u1") (Some "Bearer t0ken")
       "2024-01-01T00:00:00.000Z" "2024-01-01T00:00:00.001Z" "n3" "n1"
       {[ "title" := JStr "Plan B" ]}).
Proof.
  apply (notes_database_failure (Samples.auth_of "t0ken" "u1") (Some "Bearer t0ken")
           "t0ken" "u1" "2024-01-01T00:00:00.000Z" "2024-01-01T00:00:00.001Z"
           "n3" "n1" {[ "title" := JStr "Plan B" ]} Samples.failing_db
           Samples.unavailable []);
    [reflexivity|discriminate|reflexivity|reflexivity|by vm_compute].
Defined.

End NotesMore.

(* ================================================================== *)
(** * The admin key and the daily quota *)
(* ================================================================== *)

Section SecurityFacts.
Import Http HttpNotations Spec.

#[local] Arguments Js.number : simpl never.

(** X28.  With an admin key configured, [validateApiKey] lets a request
    through exactly when the key it presents is the configured one, and
    answers 401 otherwise.  The key presented is the first non-empty one
    among the header [x-api-key], the header [x-admin-key] and the query
    parameter, so a wrong [x-api-key] is not made good by the other two. *)
Theorem validateApiKey_decides (x_api_key x_admin_key query_apiKey : option string)
    (key : string) (next : M unit) :
  let check := Security.validateApiKey x_api_key x_admin_key query_apiKey
                 (Some key) next in
  key <> "" ->
  (presented x_api_key x_admin_key query_apiKey = Some key -> check = next)
  /\ (presented x_api_key x_admin_key query_apiKey <> Some key ->
        forall w,
          check w = (Ok tt, answered w 401
                              (JObj [("error", JStr "Invalid admin API key");
                                     ("message", JStr "Valid admin API key required for monitoring endpoints")])))
  /\ (forall k, x_api_key = Some k -> k <> "" ->
        presented x_api_key x_admin_key query_apiKey = Some k).
Proof.
  intros check Hkey. subst check.
  unfold Security.validateApiKey, presented.
  set (apiKey := Security.or_else (Security.or_else x_api_key x_admin_key)
                   query_apiKey).
  assert (Hconfigured : Security.is_falsy (Some key) = false)
    by (by destruct key).
  rewrite Hconfigured. split; [|split].
  - intros ->. rewrite Hconfigured. unfold Security.differs.
    by rewrite String.eqb_refl.
  - intros Hother w. destruct apiKey as [k|]; [|done].
    unfold Security.differs.
    destruct (String.eqb_spec k key) as [->|Hk]; [done|].
    by rewrite orb_true_r.
  - intros k -> Hk. subst apiKey. by destruct k.
Qed.

Lemma validateApiKey_decides_witness :
  Security.validateApiKey (Some "") (Some "s3cret") (Some "guess")
    (Some "s3cret") (status 204)
  = status 204
  /\ run (Security.validateApiKey (Some "guess") (Some "s3cret") (Some "s3cret")
            (Some "s3cret") (status 204))
     = answered start 401
         (JObj [("error", JStr "Invalid admin API key");
                ("message", JStr "Valid admin API key required for monitoring endpoints")]).
Proof.
  split.
  - by apply (validateApiKey_decides (Some "") (Some "s3cret") (Some "guess")
                "s3cret" (status 204)).
  - unfold run.
    destruct (validateApiKey_decides (Some "guess") (Some "s3cret") (Some "s3cret")
                "s3cret" (status 204)) as (_ & Hreject & _); [done|].
    by rewrite Hreject.
Defined.

Lemma append_cancel_r (a b s : string) : a ++ s = b ++ s -> a = b.
Proof.
  revert b. induction a as [|c a IH]; intros [|c' b] Heq.
  - done.
  - apply (f_equal String.length) in Heq.
    rewrite append_nil_l, append_cons in Heq. simpl in Heq.
    rewrite length_append in Heq. lia.
  - apply (f_equal String.length) in Heq.
    rewrite append_nil_l, append_cons in Heq. simpl in Heq.
    rewrite length_append in Heq. lia.
  - rewrite !append_cons in Heq. injection Heq as -> Heq. f_equal. by apply IH.
Qed.

Lemma usage_key_inj ip ip' today :
  Security.usage_key ip today = Security.usage_key ip' today -> ip = ip'.
Proof. apply append_cancel_r. Qed.

(** One request: the usage of the caller grows by 1 below the limit and
    stays from the limit on, and the usage of the others stays. *)
Lemma quota_step limit ip today daily next :
  let daily' := fst (Security.dailyQuotaCheck limit ip today daily next) in
  Security.getUsage daily' ip today
  = (if Security.getUsage daily ip today <? limit
     then Security.getUsage daily ip today + 1
     else Security.getUsage daily ip today)
  /\ forall other, other <> ip ->
       Security.getUsage daily' other today = Security.getUsage daily other today.
Proof.
  unfold Security.dailyQuotaCheck, Security.checkLimit, Security.track.
  destruct (Security.getUsage daily ip today <? limit); simpl; [|done].
  split.
  - unfold Security.getUsage at 1. by rewrite lookup_insert_eq.
  - intros other Hother. unfold Security.getUsage at 1.
    rewrite lookup_insert_ne; [done|].
    intros Heq. by apply usage_key_inj in Heq.
Qed.

Lemma served_usage limit ip today n :
  forall daily,
  Security.getUsage (served limit ip today n daily) ip today
  = Z.max (Security.getUsage daily ip today)
      (Z.min (Security.getUsage daily ip today + Z.of_nat n) limit)
  /\ forall other, other <> ip ->
       Security.getUsage (served limit ip today n daily) other today
       = Security.getUsage daily other today.
Proof.
  induction n as [|n IH]; intros daily.
  - simpl. split; [lia|done].
  - cbn [served].
    destruct (quota_step limit ip today daily (ret tt)) as [Hstep Hothers].
    destruct (IH (fst (Security.dailyQuotaCheck limit ip today daily (ret tt))))
      as [Hn Hn_others].
    split.
    + rewrite Hn, Hstep.
      destruct (Z.ltb_spec (Security.getUsage daily ip today) limit); lia.
    + intros other Hother. by rewrite Hn_others, Hothers.
Qed.

Lemma getUsage_empty ip today : Security.getUsage ∅ ip today = 0.
Proof. unfold Security.getUsage. by rewrite lookup_empty. Qed.

(** X29.  The daily quota, counted from an empty tracker: after [n]
    requests of one address on one day its usage is [n], capped at the
    limit.  The next request is passed on when [n] is below the limit,
    with the usage [n + 1] and the remainder [limit - (n + 1)] in the
    headers, and is answered with 429 without being counted from the
    limit on.  The usage of the other addresses stays 0. *)
Theorem daily_quota (limit : Z) (ip today : string) (n : nat) (next : M unit) :
  let daily := served limit ip today n ∅ in
  let result := Security.dailyQuotaCheck limit ip today daily next in
  Security.getUsage daily ip today = Z.min (Z.of_nat n) (Z.max 0 limit)
  /\ (forall other, other <> ip -> Security.getUsage daily other today = 0)
  /\ (Z.of_nat n < limit ->
        Security.getUsage (fst result) ip today = Z.of_nat n + 1
        /\ snd result
           = (setHeader "X-Daily-Usage" (Js.number (Z.of_nat n + 1)) ;;;
              setHeader "X-Daily-Limit" (Js.number limit) ;;;
              setHeader "X-Daily-Remaining" (Js.number (limit - (Z.of_nat n + 1))) ;;;
              next))
  /\ (limit <= Z.of_nat n ->
        fst result = daily
        /\ statusCode (res (run (snd result))) = 429
        /\ body_field "error" (res (run (snd result)))
           = Some (JStr "Daily quota exceeded")
        /\ body_field "usage" (res (run (snd result)))
           = Some (JNum (Z.max 0 limit))).
Proof.
  intros daily result.
  destruct (served_usage limit ip today n ∅) as [Hn Hothers].
  rewrite getUsage_empty in Hn. fold daily in Hn, Hothers.
  assert (Husage : Security.getUsage daily ip today
                   = Z.min (Z.of_nat n) (Z.max 0 limit)) by lia.
  split; [exact Husage|]. split.
  { intros other Hother. by rewrite Hothers, getUsage_empty. }
  subst result. unfold Security.dailyQuotaCheck, Security.checkLimit, Security.track.
  split.
  - intros Hbelow.
    assert (Hu : Security.getUsage daily ip today = Z.of_nat n) by lia.
    rewrite Hu. destruct (Z.ltb_spec (Z.of_nat n) limit); [|lia]. simpl.
    split.
    + unfold Security.getUsage. by rewrite lookup_insert_eq.
    + by replace (Z.max 0 (limit - (Z.of_nat n + 1)))
        with (limit - (Z.of_nat n + 1)) by lia.
  - intros Hreached.
    assert (Hu : Security.getUsage daily ip today = Z.max 0 limit) by lia.
    rewrite Hu. destruct (Z.ltb_spec (Z.max 0 limit) limit); [lia|]. by simpl.
Qed.

Lemma daily_quota_witness :
  let daily := served 2 "10.0.0.7" "Sun Nov 01 2026" 3 ∅ in
  let result := Security.dailyQuotaCheck 2 "10.0.0.7" "Sun Nov 01 2026" daily
                  (status 204) in
  Security.getUsage daily "10.0.0.7" "Sun Nov 01 2026" = 2
  /\ Security.getUsage daily "10.0.0.8" "Sun Nov 01 2026" = 0
  /\ statusCode (res (run (snd result))) = 429.
Proof.
  intros daily result.
  destruct (daily_quota 2 "10.0.0.7" "Sun Nov 01 2026" 3 (status 204))
    as (Husage & Hothers & _ & Hreached).
  split; [exact Husage|]. split; [by apply Hothers|].
  by destruct Hreached as (_ & Hstatus & _).
Defined.

End SecurityFacts.

(* ================================================================== *)
(** * The streaming handlers on any stream that ends *)
(* ================================================================== *)

Section StreamMore.
Import Http HttpNotations Relay Services Spec.

Lemma texts_truthy cs : Forall (fun t => t <> "") (texts cs).
Proof.
  induction cs as [|[c|] cs IH]; simpl; [done| |done].
  destruct c; [done|]. by constructor.
Qed.

Lemma texts_app cs1 cs2 : texts (cs1 ++ cs2) = (texts cs1 ++ texts cs2)%list.
Proof.
  induction cs1 as [|[c|] cs1 IH]; simpl; [done| |done].
  destruct (Js.truthy c); [|done]. simpl. by rewrite IH.
Qed.

(** X30.  The chat and the note generation handlers, on a stream that
    ends: chunks without content and chunks with an empty content are
    skipped; each other chunk gives one frame whose only field is
    [content] with its text, in order; the closing frame carries an empty
    [content], [finished], and the concatenation of the texts relayed
    with the think blocks removed.  Each makes one streaming call with
    one user message: the chat handler with the prompt, the note
    generation handler with the instruction of the action, the context
    when there is one, and the prompt as task.  A chunk that is skipped
    leaves the frames as they are without it. *)
Theorem stream_skips_empty_chunks :
  (forall (ai : llm) (p : string) (cs : list chunk),
     p <> "" ->
     create_stream ai [("user", p)] = Ok {| delivered := cs; failure := None |} ->
     let w := run (Ai.chat ai {| Ai.prompt := Some p |}) in
     written (res w)
       = (map (fun t => JObj [("content", JStr t)]) (texts cs)
            ++ [JObj [("content", JStr ""); ("finished", JBool true);
                      ("fullResponse",
                       JStr (Think.removeThinkBlocks
                               (String.concat "" (texts cs))))]])%list
     /\ count is_delta (written (res w)) = length (texts cs)
     /\ calls w = [CallLlm true [("user", p)]]
     /\ statusCode (res w) = 200
     /\ body (res w) = None
     /\ ended (res w) = true)
  /\ (forall (ai : llm) (req : Ai.note_body) (p : string) (cs : list chunk),
        let action := default "generate" (Ai.action req) in
        let context := default "" (Ai.context req) in
        let instruction :=
          if String.eqb action "expand" then
            "You are a helpful assistant that expands and elaborates on ideas for note-taking. Provide detailed, well-structured content that builds upon the given prompt."
          else if String.eqb action "summarize" then
            "You are a helpful assistant that creates concise summaries for note-taking. Provide clear, bullet-pointed summaries of the given content."
          else
            "You are a helpful assistant for note-taking. Generate well-organized, informative notes based on the given prompt." in
        let asked :=
          if Js.truthy context
          then instruction ++ nl ++ nl ++ "Context: " ++ context
                 ++ nl ++ nl ++ "Task: " ++ p
          else instruction ++ nl ++ nl ++ "Task: " ++ p in
        Ai.note_prompt req = Some p ->
        p <> "" ->
        create_stream ai [("user", asked)]
          = Ok {| delivered := cs; failure := None |} ->
        let w := run (Ai.generate_note ai req) in
        written (res w)
          = (map (fun t => JObj [("content", JStr t)]) (texts cs)
               ++ [JObj [("content", JStr ""); ("finished", JBool true);
                         ("fullResponse",
                          JStr (Think.removeThinkBlocks
                                  (String.concat "" (texts cs))))]])%list
        /\ count is_delta (written (res w)) = length (texts cs)
        /\ calls w = [CallLlm true [("user", asked)]]
        /\ statusCode (res w) = 200
        /\ body (res w) = None
        /\ ended (res w) = true)
  /\ (forall (ai ai' : llm) (p : string) (cs1 cs2 : list chunk) (c : chunk),
        p <> "" ->
        c = None \/ c = Some "" ->
        create_stream ai [("user", p)]
          = Ok {| delivered := (cs1 ++ c :: cs2)%list; failure := None |} ->
        create_stream ai' [("user", p)]
          = Ok {| delivered := (cs1 ++ cs2)%list; failure := None |} ->
        written (res (run (Ai.chat ai {| Ai.prompt := Some p |})))
        = written (res (run (Ai.chat ai' {| Ai.prompt := Some p |})))).
Proof.
  assert (Hcount : forall cs closing,
    count is_delta (map delta (texts cs)
                      ++ [Ai.done closing])%list = length (texts cs)).
  { intros cs closing.
    destruct (count_deltas (texts cs) (texts_truthy cs)) as (Hd & _ & _).
    rewrite count_app, Hd, count_one. simpl. lia. }
  assert (Hrun : forall ai msgs cs m,
    m = relay_block msgs (create_stream ai msgs)
          (fun full => Ai.done (Think.removeThinkBlocks full)) ->
    create_stream ai msgs = Ok {| delivered := cs; failure := None |} ->
    let w := snd (try_catch m Ai.chat_catch start) in
    written (res w)
      = (map delta (texts cs)
           ++ [Ai.done (Think.removeThinkBlocks (String.concat "" (texts cs)))])%list
    /\ calls w = [CallLlm true msgs]
    /\ statusCode (res w) = 200
    /\ body (res w) = None
    /\ ended (res w) = true).
  { intros ai msgs cs m -> Hup w. subst w. unfold try_catch.
    rewrite Hup, relay_block_run. by simpl. }
  split; [|split].
  - intros ai p cs Hp Hup w.
    destruct (Hrun ai (user p) cs (Ai.chat_try ai {| Ai.prompt := Some p |})
                (chat_try_block ai p Hp) Hup)
      as (Hw & Hcalls & Hstatus & Hbody & Hended).
    subst w. unfold run, Ai.chat.
    split; [exact Hw|]. split; [by rewrite Hw, Hcount|].
    by repeat split.
  - intros ai req p cs action context instruction asked Hreq Hp Hup w.
    assert (Hasked : asked = Ai.note_fullPrompt req p) by reflexivity.
    clearbody asked. subst asked.
    assert (Hnote : forall m,
      m = relay_block (user (Ai.note_fullPrompt req p))
            (create_stream ai (user (Ai.note_fullPrompt req p)))
            (fun full => Ai.done (Think.removeThinkBlocks full)) ->
      let w := snd (try_catch m Ai.generate_note_catch start) in
      written (res w)
        = (map delta (texts cs)
             ++ [Ai.done (Think.removeThinkBlocks
                            (String.concat "" (texts cs)))])%list
      /\ calls w = [CallLlm true (user (Ai.note_fullPrompt req p))]
      /\ statusCode (res w) = 200
      /\ body (res w) = None
      /\ ended (res w) = true).
    { intros m ->. unfold try_catch.
      change (create_stream ai (user (Ai.note_fullPrompt req p))
              = Ok {| delivered := cs; failure := None |}) in Hup.
      rewrite Hup, relay_block_run. by simpl. }
    destruct (Hnote (Ai.generate_note_try ai req)
                (generate_note_try_block ai req p Hreq Hp))
      as (Hw & Hcalls & Hstatus & Hbody & Hended).
    subst w. unfold run, Ai.generate_note.
    split; [exact Hw|]. split; [by rewrite Hw, Hcount|].
    by repeat split.
  - intros ai ai' p cs1 cs2 c Hp Hc Hup Hup'.
    destruct (Hrun ai (user p) _ (Ai.chat_try ai {| Ai.prompt := Some p |})
                (chat_try_block ai p Hp) Hup) as (Hw & _).
    destruct (Hrun ai' (user p) _ (Ai.chat_try ai' {| Ai.prompt := Some p |})
                (chat_try_block ai' p Hp) Hup') as (Hw' & _).
    unfold run, Ai.chat. rewrite Hw, Hw', !texts_app.
    by destruct Hc as [-> | ->].
Qed.

Lemma stream_skips_empty_chunks_witness :
  let w := run (Ai.generate_note
                  (Samples.llm_of [Some "a"; None; Some ""; Some "b"] None (Ok None))
                  {| Ai.note_prompt := Some "tides"; Ai.context := Some "school";
                     Ai.action := Some "expand" |}) in
  written (res w)
  = [JObj [("content", JStr "a")]; JObj [("content", JStr "b")];
     JObj [("content", JStr ""); ("finished", JBool true);
           ("fullResponse", JStr "ab")]]
  /\ calls w
     = [CallLlm true
          [("user",
            "You are a helpful assistant that expands and elaborates on ideas for note-taking. Provide detailed, well-structured content that builds upon the given prompt."
              ++ nl ++ nl ++ "Context: school" ++ nl ++ nl ++ "Task: tides")]].
Proof.
  intros w.
  destruct stream_skips_empty_chunks as (_ & Hnote & _).
  destruct (Hnote (Samples.llm_of [Some "a"; None; Some ""; Some "b"] None (Ok None))
              {| Ai.note_prompt := Some "tides"; Ai.context := Some "school";
                 Ai.action := Some "expand" |}
              "tides" [Some "a"; None; Some ""; Some "b"])
    as (Hwritten & _ & Hcalls & _); [reflexivity|discriminate|reflexivity|].
  by split.
Defined.

End StreamMore.
